(** * SmtpMsg: the SMTP notification plugin (plugins/smtpmsg/__init__.py)

    A shallow embedding of the dispatch path of the plugin: the event
    handler [send], the orchestrator [master_program], the per-server
    pipeline [_send_to_smtp] and its stages, and the outcome reduction
    [_generate_result_log]; and of its start-up code: [init_plugin],
    [_check_path], [_template_settings] and [_run_plugin].

    Python code that talks to the outside world (smtplib, requests, the file
    system, the email package's constructors, the logger) is embedded as a
    program tree whose nodes are the library calls; a handler, which stands
    for the world, answers each call with a value or with an exception.
    Theorems quantify over every handler, so they hold whatever the libraries
    answer.  Only subclasses of Python's [Exception] are modelled. *)

From Stdlib Require Import String Ascii List ZArith Bool Lia.
From Stdlib Require Import DecimalString.
Import ListNotations.
Open Scope string_scope.
Open Scope Z_scope.

Set Implicit Arguments.

(** ** Python values *)

(** A member of the host's [NotificationType] enum (app.schemas.types): only
    its [name] and [value] attributes are read by the plugin. *)
Record NotificationType := { name : string; value : string }.

Inductive pyval :=
| PyNone
| PyStr (s : string)
| PyBytes (b : string)
| PyInt (z : Z)
| PyEnum (t : NotificationType).

(** Truth value of [if v:]. *)
Definition truthy (v : pyval) : bool :=
  match v with
  | PyNone => false
  | PyStr s => negb (s =? "")%string
  | PyBytes b => negb (b =? "")%string
  | PyInt z => negb (z =? 0)
  | PyEnum _ => true
  end.

Definition is_None (v : pyval) : bool :=
  match v with PyNone => true | _ => false end.

Definition str_of_Z (z : Z) : string := NilZero.string_of_int (Z.to_int z).

Definition hex_digit (n : N) : ascii :=
  ascii_of_N (if (n <? 10)%N then 48 + n else 87 + n)%N.

(** [repr] of a bytes object. *)
Definition bytes_repr_char (quote : ascii) (c : ascii) : string :=
  let n := N_of_ascii c in
  if (Ascii.eqb c quote || Ascii.eqb c "\")%bool then String "\" (String c "")
  else if (n =? 9)%N then "\t"
  else if (n =? 10)%N then "\n"
  else if (n =? 13)%N then "\r"
  else if ((n <? 32) || (127 <=? n))%N%bool
       then String "\" (String "x" (String (hex_digit (n / 16)) (String (hex_digit (n mod 16)) "")))
  else String c "".

Fixpoint contains_char (c : ascii) (s : string) : bool :=
  match s with
  | EmptyString => false
  | String d s' => (Ascii.eqb c d || contains_char c s')%bool
  end.

Definition bytes_repr (b : string) : string :=
  let dquote : ascii := ascii_of_N 34 in
  let quote : ascii :=
    if (contains_char "'" b && negb (contains_char dquote b))%bool then dquote else "'"%char in
  "b" ++ String quote (String.concat "" (List.map (bytes_repr_char quote) (list_ascii_of_string b)))
      ++ String quote "".

(** [str(v)], as an f-string formats it. *)
Definition py_str (v : pyval) : string :=
  match v with
  | PyNone => "None"
  | PyStr s => s
  | PyBytes b => bytes_repr b
  | PyInt z => str_of_Z z
  | PyEnum t => "NotificationType." ++ name t
  end.

(** ** Exceptions *)

(** The exception classes the plugin's handlers name, and [Exception] for
    every other one. *)
Inductive exn_class :=
| Exception | KeyError | TypeError | AttributeError | IndexError
| FileNotFoundError | PermissionError | IsADirectoryError
| UnicodeDecodeError | UnicodeEncodeError | HeaderParseError
| ConnectionError | socket_timeout | socket_gaierror
| SMTPException | SMTPResponseException | SMTPConnectError
| SMTPAuthenticationError | SMTPServerDisconnected | SMTPNotSupportedError
| SMTPRecipientsRefused | SMTPSenderRefused | SMTPDataError.

(** [e_str] is [str(e)]; [smtp_code] is read by one handler only. *)
Record exn := { cls : exn_class; e_str : string; smtp_code : Z }.

Definition exn_class_eqb (a b : exn_class) : bool :=
  match a, b with
  | Exception, Exception | KeyError, KeyError | TypeError, TypeError
  | AttributeError, AttributeError | IndexError, IndexError
  | FileNotFoundError, FileNotFoundError | PermissionError, PermissionError
  | IsADirectoryError, IsADirectoryError | UnicodeDecodeError, UnicodeDecodeError
  | UnicodeEncodeError, UnicodeEncodeError | HeaderParseError, HeaderParseError
  | ConnectionError, ConnectionError | socket_timeout, socket_timeout
  | socket_gaierror, socket_gaierror | SMTPException, SMTPException
  | SMTPResponseException, SMTPResponseException | SMTPConnectError, SMTPConnectError
  | SMTPAuthenticationError, SMTPAuthenticationError
  | SMTPServerDisconnected, SMTPServerDisconnected
  | SMTPNotSupportedError, SMTPNotSupportedError
  | SMTPRecipientsRefused, SMTPRecipientsRefused
  | SMTPSenderRefused, SMTPSenderRefused | SMTPDataError, SMTPDataError => true
  | _, _ => false
  end.

(** The direct base class, within the classes above ([Exception] is the top). *)
Definition base_class (c : exn_class) : exn_class :=
  match c with
  | SMTPConnectError | SMTPAuthenticationError | SMTPSenderRefused
  | SMTPDataError => SMTPResponseException
  | SMTPResponseException | SMTPServerDisconnected | SMTPNotSupportedError
  | SMTPRecipientsRefused => SMTPException
  | _ => Exception
  end.

(** [isinstance(e, c)]: what an [except c] clause tests. *)
Definition isinstance_exn (e : exn) (c : exn_class) : bool :=
  let k := cls e in
  (exn_class_eqb k c || exn_class_eqb (base_class k) c
   || exn_class_eqb (base_class (base_class k)) c
   || exn_class_eqb c Exception)%bool.

(** [Exception(msg)]. *)
Definition Exception_ (msg : string) : exn :=
  {| cls := Exception; e_str := msg; smtp_code := 0 |}.

(** ** Programs over library calls *)

(** The logger's methods the plugin calls. *)
Inductive loglevel := info | warning.

Section Programs.

(** [E X]: a library call that answers with an [X] or raises. *)
Variable E : Type -> Type.

Inductive prog (A : Type) : Type :=
| Ret (a : A)
| Raise (e : exn)
| Log (lv : loglevel) (line : string) (k : prog A)
| Call (X : Type) (c : E X) (k : exn + X -> prog A).

Arguments Ret {A} a.
Arguments Raise {A} e.
Arguments Log {A} lv line k.
Arguments Call {A X} c k.

Fixpoint bind {A B} (p : prog A) (f : A -> prog B) : prog B :=
  match p with
  | Ret a => f a
  | Raise e => Raise e
  | Log lv l k => Log lv l (bind k f)
  | Call c k => Call c (fun r => bind (k r) f)
  end.

(** [try: p  except Exception as e: h e]. *)
Fixpoint try_catch {A} (p : prog A) (h : exn -> prog A) : prog A :=
  match p with
  | Ret a => Ret a
  | Raise e => h e
  | Log lv l k => Log lv l (try_catch k h)
  | Call c k => Call c (fun r => try_catch (k r) h)
  end.

(** The outcome of [p] as a value. *)
Fixpoint attempt {A} (p : prog A) : prog (exn + A) :=
  match p with
  | Ret a => Ret (inr a)
  | Raise e => Ret (inl e)
  | Log lv l k => Log lv l (attempt k)
  | Call c k => Call c (fun r => attempt (k r))
  end.

Definition call {X} (c : E X) : prog X :=
  Call c (fun r => match r with inl e => Raise e | inr x => Ret x end).

(** [logger.info(line)] and [logger.warning(line)]. *)
Definition logger_info (line : string) : prog unit := Log info line (Ret tt).
Definition logger_warning (line : string) : prog unit := Log warning line (Ret tt).

(** *** Running a program against a world *)

Inductive event :=
| EvLog (lv : loglevel) (line : string)
| EvCall (X : Type) (c : E X) (answer : exn + X).

Definition ev_is_call (ev : event) : bool :=
  match ev with EvCall _ _ => true | EvLog _ _ => false end.

(** The calls of a trace, without the log lines. *)
Definition calls (tr : list event) : list event := filter ev_is_call tr.

Variable W : Type.

(** The world: how each call is answered, and what the world becomes. *)
Definition handler := forall X, E X -> W -> (exn + X) * W.

Variable h : handler.

Fixpoint run {A} (p : prog A) (w : W) : list event * W * (exn + A) :=
  match p with
  | Ret a => ([], w, inr a)
  | Raise e => ([], w, inl e)
  | Log lv l k =>
      let '(tr, w', r) := run k w in (EvLog lv l :: tr, w', r)
  | Call c k =>
      let '(x, w1) := h c w in
      let '(tr, w', r) := run (k x) w1 in (EvCall c x :: tr, w', r)
  end.

Definition trace_of {A} (p : prog A) (w : W) : list event := fst (fst (run p w)).
Definition world_of {A} (p : prog A) (w : W) : W := snd (fst (run p w)).
Definition result_of {A} (p : prog A) (w : W) : exn + A := snd (run p w).

End Programs.

Arguments Ret {E A} a.
Arguments Raise {E A} e.
Arguments Log {E A} lv line k.
Arguments Call {E A X} c k.
Arguments EvLog {E} lv line.
Arguments EvCall {E X} c answer.
Arguments ev_is_call {E} ev.
Arguments calls {E} tr.
Arguments bind {E A B} p f.
Arguments try_catch {E A} p h.
Arguments attempt {E A} p.
Arguments call {E X} c.
Arguments logger_info {E} line.
Arguments logger_warning {E} line.
Arguments run {E W} h {A} p w.
Arguments trace_of {E W} h {A} p w.
Arguments world_of {E W} h {A} p w.
Arguments result_of {E W} h {A} p w.

Declare Scope prog_scope.
Delimit Scope prog_scope with prog.
Notation "x <- p ;; q" := (bind p (fun x => q))
  (at level 61, p at next level, right associativity) : prog_scope.
Notation "' pat <- p ;; q" := (bind p (fun x => match x with pat => q end))
  (at level 61, pat pattern, p at next level, right associativity) : prog_scope.
Notation "p ;; q" := (bind p (fun _ => q))
  (at level 61, right associativity) : prog_scope.
Open Scope prog_scope.

(** ** The plugin's configuration (the fields of [self] read while sending) *)

Record Self := {
  _enabled : bool;
  _send_image : bool;
  _main : bool;
  _secondary : bool;
  _test : bool;
  _log_more : bool;
  _other_msgtypes : bool;
  _enabled_customizable_mail_template : bool;
  _main_smtp_host : pyval;
  _main_smtp_port : pyval;
  _main_smtp_encryption : pyval;
  _main_sender_mail : pyval;
  _main_sender_password : pyval;
  _secondary_smtp_host : pyval;
  _secondary_smtp_port : pyval;
  _secondary_smtp_encryption : pyval;
  _secondary_sender_mail : pyval;
  _secondary_sender_password : pyval;
  _sender_name : pyval;
  _receiver_mail : pyval;
  _msgtypes : list string
}.

Definition plugin_name : string := "SMTP邮件消息通知".
Definition _test_image : pyval := PyStr "/public/plugin_icon/Synomail_A.png".

(** ** SmtpMsgDecorator.log *)

(** The [log_container] dict a decorated method fills in: [msg] and [level],
    either of which a method may leave [None]. *)
Record log_container := { msg : option string; level : option Z }.

Definition fmt_msg (m : option string) : string :=
  match m with Some s => s | None => "None" end.

Definition logs_ (m : string) (l : Z) : log_container :=
  {| msg := Some m; level := Some l |}.

Section Decorator.

Variable E : Type -> Type.

(** [body] is the decorated method: it ends with the [log_container] it
    wrote (its [finally] clause) and either its return value or the
    exception it raises.  A body that raises without reaching that clause
    leaves the container as the wrapper created it. *)
Definition log {A} (self : Self) (mode_name : string)
    (body : prog E (log_container * (exn + A))) : prog E A :=
  let log_more := _log_more self in
  (if log_more then logger_info ("状态 - " ++ mode_name ++ "模块 - 开始运行") else Ret tt);;
  rb <- attempt body;;
  let '(logs0, result) :=
    match rb with
    | inl e => (logs_ "没有日志" 1, inl e)
    | inr lr => lr
    end in
  (* except Exception as e *)
  let logs :=
    match result with
    | inl e => logs_ ("模块运行失败 - 原因 - " ++ e_str e) (-1)
    | inr _ => logs0
    end in
  (* finally *)
  let status :=
    match level logs with
    | Some 0 => Some "状态"
    | Some 1 => if log_more then Some "汇报" else None
    | Some 2 => Some "警告"
    | Some (-1) => Some "错误"
    | _ => Some "未知"
    end in
  (match status with
   | Some st => logger_info (st ++ " - " ++ mode_name ++ "模块 - " ++ fmt_msg (msg logs))
   | None => Ret tt
   end);;
  (* if (level == 0, 1, 2) and status != (..., ...): the first operand is a
     non-empty tuple and the second compares a string or None with a tuple,
     so the branch is always taken *)
  logger_info ("状态 - " ++ mode_name ++ "模块 - 模块运行成功");;
  match result with
  | inl _ => Raise (Exception_ (fmt_msg (msg logs)))
  | inr a => Ret a
  end.

(** ** Server selection *)

(** [success] is [None], [True] or [False]; so is the returned status.
    The body is the method without its decorator. *)
Definition _determine_server_body (self : Self) (smtp_value : Z) (success : option bool)
    : log_container * (exn + (option bool * string)) :=
    (let r : exn + string :=
       if smtp_value =? 0 then inr "主"
       else if smtp_value =? 1 then inr "备用"
       else inl (Exception_ "未知的SMTP服务器类型") in
     match r with
     | inl e =>
         let m := "判断失败 - 原因 - " ++ e_str e in
         (logs_ m (-1), inl (Exception_ m))
     | inr server_type =>
         let status : option bool :=
           match success with
           | None => if smtp_value =? 0 then Some true else None
           | Some success =>
               if _test self then Some (_secondary self)
               else if success then Some false
               else Some (_secondary self)
           end in
         let result := if match status with Some true => true | _ => false end
                       then "开始调用" else "不需要调用" in
         (logs_ (server_type ++ "服务器调用判断 - " ++ result) 1,
          inr (status, server_type))
     end).

Definition _determine_server (self : Self) (smtp_value : Z) (success : option bool)
    : prog E (option bool * string) :=
  log self "服务器调用判断" (Ret (_determine_server_body self smtp_value success)).

(** ** Outcome reduction *)

(** The method without its decorator: the [log_container] it leaves
    ([msg] is the summary sentence) and what it returns or raises. *)
Definition _generate_result_log_body (self : Self) (m_success s_success : option bool)
    : log_container * (exn + option string) :=
    (let test := _test self in
     let test_type := if test then "测试" else "" in
     let r : exn + option string :=
       match m_success with
       | Some true =>
           match s_success with
           | Some true =>
               if test then inr (Some ("所有服务器发送" ++ test_type ++ "邮件成功！"))
               else inr None
           | Some false =>
               if test then inr (Some ("主服务器发送" ++ test_type ++ "邮件成功！备用服务器发送"
                                         ++ test_type ++ "邮件失败！"))
               else inr None
           | None =>
               if test then inr (Some ("主服务器发送" ++ test_type ++ "邮件成功！未启动备用服务器！"))
               else inr (Some ("主服务器发送" ++ test_type ++ "邮件成功！"))
           end
       | Some false =>
           match s_success with
           | Some true => inr (Some ("备用服务器发送" ++ test_type ++ "邮件成功！主服务器发送"
                                       ++ test_type ++ "邮件失败！"))
           | Some false => inr (Some ("所有服务器发送" ++ test_type ++ "邮件失败！"))
           | None => inr (Some ("主服务器发送" ++ test_type ++ "邮件失败！备用服务器未启动！无法发送"
                                  ++ test_type ++ "邮件！"))
           end
       | None => inl (Exception_ "出现未知错误，无法打印运行结果")
       end in
     match r with
     | inr m =>
         (* level = 0; if self._test: return msg -- otherwise the method
            returns None *)
         ({| msg := m; level := Some 0 |}, inr (if test then m else None))
     | inl e =>
         ({| msg := None; level := Some (-1) |}, inl (Exception_ (e_str e)))
     end).

Definition _generate_result_log (self : Self) (m_success s_success : option bool)
    : prog E (option string) :=
  log self "结果汇报" (Ret (_generate_result_log_body self m_success s_success)).

(** ** The orchestrator *)

Definition is_True (v : option bool) : bool :=
  match v with Some true => true | _ => false end.

(** [master_program], with [self._send_to_smtp] taken as the argument
    [send_to_smtp] (the message fields it passes on are inside it).  The
    global [lock] held around the body is not modelled. *)
Definition master_program_with (self : Self)
    (send_to_smtp : Z -> string -> prog E bool) : prog E (option string) :=
  m_success <-
    (if _main self then
       let smtp_value := 0 in
       '(success, server_type) <- _determine_server self smtp_value None;;
       if is_True success
       then (b <- send_to_smtp smtp_value server_type;; Ret (Some b))
       else Ret None
     else Ret None);;
  s_success <-
    (if _secondary self then
       let smtp_value := 1 in
       '(success, server_type) <- _determine_server self smtp_value m_success;;
       if is_True success
       then (b <- send_to_smtp smtp_value server_type;; Ret (Some b))
       else Ret None
     else Ret None);;
  _generate_result_log self m_success s_success.

End Decorator.

Arguments log {E A} self mode_name body.
Arguments _determine_server {E} self smtp_value success.
Arguments _generate_result_log {E} self m_success s_success.
Arguments master_program_with {E} self send_to_smtp.

(** What the decorator makes of the outcome of its body: the body's value,
    or an exception with the decorator's message. *)
Definition log_result {A} (rb : exn + (log_container * (exn + A))) : exn + A :=
  match rb with
  | inl e | inr (_, inl e) => inl (Exception_ ("模块运行失败 - 原因 - " ++ e_str e))
  | inr (_, inr a) => inr a
  end.

(** ** MIME messages *)

(** A header value: a plain string, or [Header(v, "utf-8")]. *)
Inductive hval := HStr (s : string) | HHeader (v : pyval).

(** A part that holds a text or bytes, with the headers its constructor and
    the code gave it.  [leaf_content] is what the constructor was given; the
    part keeps it in the transfer encoding its header names. *)
Record leaf := { leaf_headers : list (string * string); leaf_content : string }.

(** A part attached to the message: a multipart with its headers and the
    parts attached to it, or a part of its own. *)
Inductive part :=
| PMultipart (hdrs : list (string * string)) (parts : list leaf)
| PLeaf (l : leaf).

Record Mime := { headers : list (string * hval); payload : list part }.

(** The message [MIMEMultipart()] builds. *)
Definition MIMEMultipart : Mime :=
  {| headers := [("Content-Type", HStr "multipart/mixed"); ("MIME-Version", HStr "1.0")];
     payload := [] |}.

Definition lower_char (c : ascii) : ascii :=
  let n := N_of_ascii c in
  if ((65 <=? n) && (n <=? 90))%N%bool then ascii_of_N (n + 32) else c.

Fixpoint lower (s : string) : string :=
  match s with
  | EmptyString => EmptyString
  | String c s' => String (lower_char c) (lower s')
  end.

(** [del message[name]]: header names compare without case. *)
Definition delitem (message : Mime) (name : string) : Mime :=
  {| headers := filter (fun kv => negb (lower (fst kv) =? lower name)%string) (headers message);
     payload := payload message |}.

(** [message[name] = v]. *)
Definition setitem (message : Mime) (name : string) (v : hval) : Mime :=
  {| headers := headers message ++ [(name, v)]; payload := payload message |}.

(** [message.attach(p)]. *)
Definition attach (message : Mime) (p : part) : Mime :=
  {| headers := headers message; payload := payload message ++ [p] |}.

(** [MIMEMultipart('alternative')]. *)
Definition MIMEMultipart_alternative : part :=
  PMultipart [("Content-Type", "multipart/alternative"); ("MIME-Version", "1.0")] [].

(** [MIMEText(msg_html, 'html', 'utf-8')]. *)
Definition MIMEText (msg_html : string) : leaf :=
  let dquote := String (ascii_of_N 34) EmptyString in
  {| leaf_headers :=
       [("Content-Type", "text/html; charset=" ++ dquote ++ "utf-8" ++ dquote);
        ("MIME-Version", "1.0");
        ("Content-Transfer-Encoding", "base64")];
     leaf_content := msg_html |}.

(** [MIMEImage(data)], for the subtype its constructor guessed. *)
Definition MIMEImage (data subtype : string) : leaf :=
  {| leaf_headers :=
       [("Content-Type", "image/" ++ subtype);
        ("MIME-Version", "1.0");
        ("Content-Transfer-Encoding", "base64")];
     leaf_content := data |}.

(** [l.add_header(name, value)]. *)
Definition add_header (l : leaf) (name value : string) : leaf :=
  {| leaf_headers := leaf_headers l ++ [(name, value)]; leaf_content := leaf_content l |}.

(** [message_alternative.attach(p)], where [message_alternative] is the part
    at index [n] of the payload: it is the object attached to the message,
    so the message sees the change. *)
Fixpoint attach_at (parts : list part) (n : nat) (l : leaf) : list part :=
  match parts, n with
  | PMultipart hs ls :: rest, O => PMultipart hs (ls ++ [l]) :: rest
  | q :: rest, S n' => q :: attach_at rest n' l
  | _, _ => parts
  end.

Definition attach_to_part (message : Mime) (n : nat) (l : leaf) : Mime :=
  {| headers := headers message; payload := attach_at (payload message) n l |}.

(** ** Library calls *)

(** An [smtplib.SMTP] object. *)
Definition server := nat.

(** What [_get_receiver_and_sender] hands to [sendmail] as recipients: the
    split list, or the sender's address as it is. *)
Inductive receivers := RList (l : list string) | RVal (v : pyval).

Inductive template_path := default_template | custom_template.

Inductive libcall : Type -> Type :=
(* smtplib.SMTP(host, port, timeout=5) *)
| SMTP_new (host port : pyval) : libcall server
(* smtplib.SMTP_SSL(host, port, timeout=5) *)
| SMTP_SSL_new (host port : pyval) : libcall server
| starttls (s : server) : libcall unit
| ehlo (s : server) (host : pyval) : libcall unit
| login (s : server) (user password : pyval) : libcall unit
(* server.sendmail(sender_mail, receiver_list, message.as_string()) *)
| sendmail (s : server) (sender_mail : pyval) (receiver_list : receivers) (message : Mime)
    : libcall unit
| quit (s : server) : libcall unit
(* open(template, "r", encoding="utf-8") and read() *)
| read_template (p : template_path) : libcall string
(* template_content.format(text=, image=, title=, userid=, msg_type=) *)
| str_format (template_content : string) (text image title userid msg_type : pyval)
    : libcall string
(* MIMEMultipart(subtype); MIMEMultipart() is subtype 'mixed' *)
| MIMEMultipart_new (subtype : string) : libcall unit
(* Header(title, "utf-8") *)
| Header_new (title : pyval) : libcall unit
(* MIMEText(msg_html, 'html', 'utf-8') *)
| MIMEText_new (msg_html : string) : libcall unit
(* urllib.parse.urlparse(image).scheme in set(urllib.parse.uses_netloc) *)
| scheme_uses_netloc (image : string) : libcall bool
(* requests.get(image): status_code and content of the response *)
| requests_get (image : string) : libcall (Z * string)
| os_path_isfile (image : string) : libcall bool
(* open(image, 'rb') and read() *)
| read_image_file (image : string) : libcall string
| MIMEImage_new (data : string) : libcall string
(* base64_regex.match(image) is not None *)
| base64_regex_match (image : string) : libcall bool.

(** A call that opens a network connection. *)
Definition opens_connection {X} (c : libcall X) : bool :=
  match c with
  | SMTP_new _ _ | SMTP_SSL_new _ _ | requests_get _ => true
  | _ => false
  end.

(** A call that talks to an SMTP server. *)
Definition is_smtp_call {X} (c : libcall X) : bool :=
  match c with
  | SMTP_new _ _ | SMTP_SSL_new _ _ | starttls _ | ehlo _ _ | login _ _ _
  | sendmail _ _ _ _ | quit _ => true
  | _ => false
  end.

(** A call of message construction: template, headers, body, image. *)
Definition is_build_call {X} (c : libcall X) : bool :=
  match c with
  | read_template _ | str_format _ _ _ _ _ _ | MIMEMultipart_new _ | Header_new _
  | MIMEText_new _ | scheme_uses_netloc _ | requests_get _ | os_path_isfile _
  | read_image_file _ | MIMEImage_new _ | base64_regex_match _ => true
  | _ => false
  end.

Definition is_login {X} (c : libcall X) : bool :=
  match c with login _ _ _ => true | _ => false end.

Definition lprog := prog libcall.
Definition lcall {X} (c : libcall X) : lprog X := call c.
Definition levent := event libcall.

Definition ev_opens_connection (ev : levent) : bool :=
  match ev with EvCall c _ => opens_connection c | EvLog _ _ => false end.
Definition ev_is_build (ev : levent) : bool :=
  match ev with EvCall c _ => is_build_call c | EvLog _ _ => false end.
(** A login the server accepted. *)
Definition ev_is_login_ok (ev : levent) : bool :=
  match ev with EvCall c (inr _) => is_login c | _ => false end.

(** ** Parameter validation *)

Definition or_default (v : pyval) (d : pyval) : pyval :=
  if is_None v then d else v.

(** Returns [(title, text, image, userid, msg_type)].  The body is the
    method without its decorator. *)
Definition _msg_parameter_validation_body (self : Self) (server_type : string)
    (msg_type title text image userid : pyval)
    : log_container * (exn + (pyval * pyval * pyval * pyval * pyval)) :=
    (let test := _test self in
     let r : exn + pyval :=
       if test then inr (PyStr "测试邮件")
       else match msg_type with
            | PyEnum t => inr (PyStr (value t))
            | PyNone => inr (PyStr "")
            | _ => if _other_msgtypes self then inr msg_type
                   else inl (Exception_ "接收到不被支持的消息类型，且未开启第三方消息类型")
            end in
     match r with
     | inl e =>
         let m := "邮件变量校验失败 - 原因 - " ++ e_str e in
         (logs_ m (-1), inl (Exception_ m))
     | inr msg_type =>
         let title := if test then PyStr ("测试" ++ server_type ++ "服务器配置")
                      else or_default title (PyStr ("【" ++ plugin_name ++ "】")) in
         let text := if test then PyStr "这是一封测试邮件~~~" else or_default text (PyStr "") in
         let userid := if test then PyStr "测试用户" else or_default userid (PyStr "") in
         let image := if test then _test_image else or_default image (PyStr "") in
         (logs_ ("消息参数校验成功 - 当前消息类型 - " ++ py_str msg_type) 1,
          inr (title, text, image, userid, msg_type))
     end).

Definition _msg_parameter_validation (self : Self) (server_type : string)
    (msg_type title text image userid : pyval)
    : lprog (pyval * pyval * pyval * pyval * pyval) :=
  log self "消息参数校验"
    (Ret (_msg_parameter_validation_body self server_type msg_type title text image userid)).

(** ** Configuration resolution *)

(** A dict with string keys, in the order of its literal. *)
Definition dict (V : Type) := list (string * V).

Fixpoint dict_get {V} (d : dict V) (k : string) : option V :=
  match d with
  | [] => None
  | (k', v) :: d' => if (k' =? k)%string then Some v else dict_get d' k
  end.

(** [d[k]]: a missing key raises [KeyError]. *)
Definition getitem {E V} (d : dict V) (k : string) : prog E V :=
  match dict_get d k with
  | Some v => Ret v
  | None => Raise {| cls := KeyError; e_str := "'" ++ k ++ "'"; smtp_code := 0 |}
  end.

Definition __smtp_settings (self : Self) : dict (dict pyval) :=
  [("main", [("host", _main_smtp_host self);
             ("port", _main_smtp_port self);
             ("encryption", _main_smtp_encryption self);
             ("mail", _main_sender_mail self);
             ("password", _main_sender_password self)]);
   ("secondary", [("host", _secondary_smtp_host self);
                  ("port", _secondary_smtp_port self);
                  ("encryption", _secondary_smtp_encryption self);
                  ("mail", _secondary_sender_mail self);
                  ("password", _secondary_sender_password self)])].

(** The fields [_get_dict_value] writes on [self]; every later stage of the
    same attempt reads them, and nothing reads them before they are written
    again by the next attempt. *)
Record Conn := {
  _host : pyval;
  _port : pyval;
  _encryption : pyval;
  _sender_mail : pyval;
  _password : pyval
}.

Definition _get_dict_value (self : Self) (server_type smtp_type : string) : lprog Conn :=
  log self "连接配置提取"
    (r <- attempt
       (try_catch
          (let _smtp_settings := __smtp_settings self in
           d <- getitem _smtp_settings smtp_type;;
           host <- getitem d "host";;
           port <- getitem d "port";;
           encryption <- getitem d "encryption";;
           mail <- getitem d "mail";;
           password <- getitem d "password";;
           Ret {| _host := host; _port := port; _encryption := encryption;
                  _sender_mail := mail; _password := password |})
          (fun e =>
             if isinstance_exn e KeyError
             then Raise (Exception_ (server_type ++ " SMTP 服务端配置参数不完整"))
             else Raise (Exception_ ("出现异常 - 原因 - " ++ e_str e))));;
     match r with
     | inr conn => Ret (logs_ ("提取" ++ server_type ++ " SMTP 服务端配置成功") 1, inr conn)
     | inl e => Ret ({| msg := None; level := Some (-1) |}, inl (Exception_ (e_str e)))
     end).

(** The settings of a server: what [_get_dict_value] is expected to yield
    for "main" ([secondary] false) and "secondary" ([secondary] true). *)
Definition conn_of (self : Self) (secondary : bool) : Conn :=
  if secondary then
    {| _host := _secondary_smtp_host self; _port := _secondary_smtp_port self;
       _encryption := _secondary_smtp_encryption self;
       _sender_mail := _secondary_sender_mail self;
       _password := _secondary_sender_password self |}
  else
    {| _host := _main_smtp_host self; _port := _main_smtp_port self;
       _encryption := _main_smtp_encryption self;
       _sender_mail := _main_sender_mail self;
       _password := _main_sender_password self |}.

(** ** Transport connection *)

Definition py_eq_str (v : pyval) (s : string) : bool :=
  match v with PyStr s' => (s' =? s)%string | _ => false end.

Definition _connect_to_smtp_server (self : Self) (conn : Conn) : lprog server :=
  log self "服务器连接"
    (r <- attempt
       (try_catch
          (server <-
             (if py_eq_str (_encryption conn) "ssl"
              then lcall (SMTP_SSL_new (_host conn) (_port conn))
              else
                server <- lcall (SMTP_new (_host conn) (_port conn));;
                (if py_eq_str (_encryption conn) "tls" then lcall (starttls server) else Ret tt);;
                Ret server);;
           lcall (ehlo server (_host conn));;
           lcall (login server (_sender_mail conn) (_password conn));;
           Ret server)
          (fun e =>
             Raise (Exception_
               (if isinstance_exn e socket_timeout then "建立连接超时"
                else if isinstance_exn e socket_gaierror then "无法解析主机名或 IP 地址"
                else if isinstance_exn e SMTPConnectError then "无法建立连接"
                else if isinstance_exn e SMTPAuthenticationError then "登录失败，用户名或密码错误"
                else if isinstance_exn e SMTPResponseException
                     then "返回异常状态码: " ++ str_of_Z (smtp_code e)
                else if isinstance_exn e SMTPServerDisconnected then "连接已断开"
                else if isinstance_exn e SMTPNotSupportedError then "不支持所需的身份验证方法"
                else "登录或者连接时出现未知异常"))));;
     match r with
     | inr server => Ret (logs_ "地址连接成功" 1, inr server)
     | inl e => Ret ({| msg := None; level := Some (-1) |}, inl (Exception_ (e_str e)))
     end).

(** ** Recipients and sender *)

(** [s.split(",")]. *)
Fixpoint split_comma_aux (s : string) (cur : string) : list string :=
  match s with
  | EmptyString => [cur]
  | String c s' =>
      if Ascii.eqb c "," then cur :: split_comma_aux s' EmptyString
      else split_comma_aux s' (cur ++ String c EmptyString)
  end.

Definition split_comma (s : string) : list string := split_comma_aux s EmptyString.

Definition attribute_error (ty attr : string) : exn :=
  {| cls := AttributeError;
     e_str := "'" ++ ty ++ "' object has no attribute '" ++ attr ++ "'";
     smtp_code := 0 |}.

Definition type_name (v : pyval) : string :=
  match v with
  | PyNone => "NoneType"
  | PyStr _ => "str"
  | PyBytes _ => "bytes"
  | PyInt _ => "int"
  | PyEnum _ => "NotificationType"
  end.

(** Returns [(receiver_list, sender_name, sender_mail)]. *)
Definition _get_receiver_and_sender (self : Self) (conn : Conn)
    : lprog (receivers * pyval * pyval) :=
  log self "邮件头参数提取"
    (r <- attempt
       (receiver_list <-
          try_catch
            (if truthy (_receiver_mail self) then
               match _receiver_mail self with
               | PyStr s => Ret (RList (split_comma s))
               (* bytes.split(",") is a TypeError, other values have no split *)
               | PyBytes _ => Raise {| cls := TypeError;
                                       e_str := "a bytes-like object is required, not 'str'";
                                       smtp_code := 0 |}
               | v => Raise (attribute_error (type_name v) "split")
               end
             else Ret (RVal (_sender_mail conn)))
            (fun _ => Raise (Exception_ "提取收件人配置失败"));;
        '(sender_name, sender_mail) <-
          try_catch
            (Ret (if truthy (_sender_name self) then _sender_name self else _sender_mail conn,
                  _sender_mail conn))
            (fun _ => Raise (Exception_ "提取发件人配置失败"));;
        Ret (receiver_list, sender_name, sender_mail));;
     match r with
     | inr v => Ret (logs_ "配置提取成功" 1, inr v)
     | inl e =>
         let m := "配置提取失败 - 原因 - " ++ e_str e in
         Ret (logs_ m (-1), inl (Exception_ m))
     end).

(** ** Message construction *)

Definition __msg_build_read_email_template (self : Self)
    (text image title userid msg_type : pyval) : lprog string :=
  log self "模板导入"
    (r <- attempt
       (template_content <-
          try_catch
            (let template := if _enabled_customizable_mail_template self
                             then custom_template else default_template in
             lcall (read_template template))
            (fun e =>
               Raise (Exception_
                 (if isinstance_exn e FileNotFoundError then "没有找到邮件模板文件"
                  else if isinstance_exn e PermissionError then "无法读取邮件模板文件"
                  else if isinstance_exn e IsADirectoryError
                       then "提供了一个目录地址，不是模板文件"
                  else if isinstance_exn e UnicodeDecodeError
                       then "包含非 UTF-8 编码的内容，尝试用 UTF-8 编码读取邮件模板失败"
                  else "邮件模板文件读取失败，出现了未知错误 - " ++ e_str e)));;
        try_catch
          (lcall (str_format template_content text image title userid msg_type))
          (fun e =>
             Raise (Exception_
               (if isinstance_exn e KeyError then "邮件模板文件中导入了不被支持的变量"
                else "邮件模板文件在导入变量时遇到了未知错误 - " ++ e_str e))));;
     match r with
     | inr msg_html => Ret (logs_ "成功提取邮件模板并导入变量" 1, inr msg_html)
     | inl e => Ret (logs_ (e_str e) (-1), inl (Exception_ (e_str e)))
     end).

Definition header_error (which unknown : string) (e : exn) : string :=
  if isinstance_exn e HeaderParseError then which ++ "包含无效的头部信息或无法解析的内容"
  else if isinstance_exn e UnicodeEncodeError then which ++ "包含无法编码为 UTF-8 的字符"
  else if isinstance_exn e TypeError then "接受到非字符串类型的" ++ which
  else unknown.

Definition __msg_build_email_Header (self : Self) (message : Mime)
    (title sender_name sender_mail : pyval) : lprog Mime :=
  log self "邮件头构建"
    (r <- attempt
       (message <-
          try_catch
            (let message := delitem message "Subject" in
             lcall (Header_new title);;
             Ret (setitem message "Subject" (HHeader title)))
            (fun e => Raise (Exception_
               (header_error "邮件主题" "邮件主题写入构建失败，出现了未知错误" e)));;
        try_catch
          (let message := delitem message "From" in
           Ret (setitem message "From"
                  (HStr (py_str sender_name ++ " <" ++ py_str sender_mail ++ ">"))))
          (fun e => Raise (Exception_
             (header_error "发件人用户名" "发件人用户名写入失败，出现了未知错误" e))));;
     match r with
     | inr message => Ret (logs_ "邮件头构建成功" 0, inr message)
     | inl e =>
         Ret ({| msg := Some ("邮件头构建失败 - 原因 - " ++ e_str e); level := None |},
              inl (Exception_ (e_str e)))
     end).

(** The local [image_data] of the embedding step. *)
Inductive image_data :=
| IdNone
| IdBytes (b : string)
| IdMime (data subtype : string).

Definition isinstance_bytes (v : pyval) : bool :=
  match v with PyBytes _ => true | _ => false end.

(** The inner [try] of the embedding step, without its handlers.  The
    compiled pattern has no group named [base64_data], so asking a match for
    it raises [IndexError] and [base64.b64decode] is never called. *)
Definition embed_image_try (image : pyval) (message : Mime) : lprog Mime :=
  image_data <-
    match image return lprog image_data with
    | PyStr s =>
        is_url <- lcall (scheme_uses_netloc s);;
        if is_url then
          try_catch
            ('(status_code, content) <- lcall (requests_get s);;
             if status_code =? 200 then Ret (IdBytes content)
             else Raise (Exception_ ("获取图片失败。状态码：" ++ str_of_Z status_code)))
            (fun e => Raise (Exception_ ("发生错误 - " ++ e_str e)))
        else
          is_file <- lcall (os_path_isfile s);;
          if is_file then
            try_catch
              (data <- lcall (read_image_file s);;
               subtype <- lcall (MIMEImage_new data);;
               Ret (IdMime data subtype))
              (fun e =>
                 Raise (Exception_
                   (if isinstance_exn e FileNotFoundError then "文件路径不存在"
                    else if isinstance_exn e PermissionError then "没有权限读取图片文件"
                    else if isinstance_exn e IsADirectoryError
                         then "提供了一个目录地址，不是图片文件"
                    else "读取图片文件时出错：" ++ e_str e)))
          else
            is_b64 <- lcall (base64_regex_match s);;
            if is_b64 then
              try_catch
                (m <- lcall (base64_regex_match s);;
                 if m then Raise {| cls := IndexError; e_str := "no such group"; smtp_code := 0 |}
                 else Raise (attribute_error "NoneType" "group"))
                (fun e => Raise (Exception_ ("解码 Base64 数据时出错：" ++ e_str e)))
            else if isinstance_bytes (PyStr s) then Ret (IdBytes s)
            else Raise (Exception_
                   "无法识别的输入。请提供有效的 URL、本地文件路径或 Base64 编码的数据。")
    | _ => Ret IdNone
    end;;
  (* image_data.add_header('Content-ID', '<image>'); message.attach(image_data) *)
  match image_data with
  | IdMime data subtype =>
      Ret (attach message
             (PLeaf (add_header (MIMEImage data subtype) "Content-ID" "<image>")))
  | IdBytes _ => Raise (attribute_error "bytes" "add_header")
  | IdNone => Raise (attribute_error "NoneType" "add_header")
  end.

Definition ___msg_build_email_body_embed_image (self : Self) (image : pyval)
    (message : Mime) : lprog Mime :=
  log self "图片嵌入"
    (if _send_image self then
       if truthy image then
         r <- attempt
           (try_catch (embed_image_try image message)
              (fun e =>
                 if isinstance_exn e TypeError
                 then Raise (Exception_ "接受到非二进制文件，无法将图片文件转码")
                 else Raise (Exception_ (e_str e))));;
         match r with
         | inr message => Ret (logs_ "图片文件嵌入成功" 1, inr message)
         | inl e => Ret (logs_ ("出现错误，跳过嵌入 - 原因 - " ++ e_str e) 2, inr message)
         end
       else Ret (logs_ "未传入图片参数，跳过图片嵌入" 1, inr message)
     else Ret (logs_ "未开启发送图片，抛弃图片数据" 1, inr message)).

Definition __msg_build_email_body (self : Self) (message : Mime) (image : pyval)
    (msg_html : string) : lprog Mime :=
  log self "邮件体构建"
    (r <- attempt
       (lcall (MIMEMultipart_new "alternative");;
        let message_alternative := length (payload message) in
        let message := attach message MIMEMultipart_alternative in
        message <- ___msg_build_email_body_embed_image self image message;;
        lcall (MIMEText_new msg_html);;
        Ret (attach_to_part message message_alternative (MIMEText msg_html)));;
     match r with
     | inr message => Ret (logs_ "邮件体构建成功" 1, inr message)
     | inl e =>
         let m := "邮件体构建失败 - " ++ e_str e in
         Ret (logs_ m (-1), inl (Exception_ m))
     end).

(** [_msg_build_email] is always called without [message], and the message it
    builds has headers, so both of its tests on [message] are true. *)
Definition _msg_build_email (self : Self)
    (title text image userid msg_type sender_name sender_mail : pyval) : lprog Mime :=
  lcall (MIMEMultipart_new "mixed");;
  let message := MIMEMultipart in
  msg_html <- __msg_build_read_email_template self text image title userid msg_type;;
  message <- __msg_build_email_Header self message title sender_name sender_mail;;
  message <- __msg_build_email_body self message image msg_html;;
  Ret message.

(** ** Transmission *)

Definition _send_msg_to_smtp (self : Self) (server : server) (message : Mime)
    (sender_mail : pyval) (receiver_list : receivers) (server_type : string) : lprog bool :=
  log self "邮件发送"
    (let test_type := if _test self then "测试" else "" in
     r <- attempt
       (try_catch
          (lcall (sendmail server sender_mail receiver_list message))
          (fun e =>
             if isinstance_exn e socket_timeout then Raise (Exception_ "连接超时")
             else if (isinstance_exn e SMTPRecipientsRefused
                      || isinstance_exn e SMTPSenderRefused)%bool
                  then Raise (Exception_ "拒绝了接受或发送者地址")
             else if isinstance_exn e SMTPDataError
                  then Raise (Exception_ "拒绝了接受邮件数据，返回了错误响应")
             else if (isinstance_exn e SMTPServerDisconnected
                      || isinstance_exn e ConnectionError)%bool
                  then Raise (Exception_ "断开了连接")
             else if isinstance_exn e SMTPAuthenticationError
                  then Raise (Exception_ "身份验证失败")
             else if isinstance_exn e SMTPNotSupportedError
                  then Raise (Exception_ "不支持某些功能")
             else if isinstance_exn e SMTPException then Raise (Exception_ "出现了未知原因")
             else Raise e));;
     match r with
     | inr _ =>
         Ret (logs_ ("使用" ++ server_type ++ " SMTP 服务器发送" ++ test_type ++ "邮件成功") 1,
              inr true)
     | inl e =>
         let m := "使用" ++ server_type ++ " SMTP 服务器发送" ++ test_type
                  ++ "邮件失败 - 原因 - " ++ e_str e in
         Ret (logs_ m (-1), inl (Exception_ m))
     end).

(** ** One attempt against one server *)

(** The [try] block of [_send_to_smtp] is split where [server] is bound: a
    failure before that point leaves [server] None, a failure after it makes
    the handler quit the session. *)

(** Up to the connection: validation, configuration, connect and login. *)
Definition _send_to_smtp_open (self : Self) (smtp_value : Z) (server_type : string)
    (msg_type title text image userid : pyval)
    : lprog (pyval * pyval * pyval * pyval * pyval * Conn * server) :=
  smtp_type <-
    (if smtp_value =? 0 then Ret "main"
     else if smtp_value =? 1 then Ret "secondary"
     else Raise (Exception_ "无效的SMTP服务器类型，无法识别"));;
  (* 消息参数校验 *)
  v <- _msg_parameter_validation self server_type msg_type title text image userid;;
  (* 读取服务端配置 *)
  conn <- _get_dict_value self server_type smtp_type;;
  (* 连接与认证 SMTP 服务器 *)
  server <- _connect_to_smtp_server self conn;;
  Ret (v, conn, server).

(** After the connection: recipients, message construction, transmission. *)
Definition _send_to_smtp_deliver (self : Self) (server_type : string)
    (title text image userid msg_type : pyval) (conn : Conn) (server : server)
    : lprog bool :=
  (* 读取收件人与发件人配置 *)
  '(receiver_list, sender_name, sender_mail) <- _get_receiver_and_sender self conn;;
  (* 构建邮件 *)
  message <- _msg_build_email self title text image userid msg_type sender_name sender_mail;;
  (* 发送邮件 *)
  _send_msg_to_smtp self server message (_sender_mail conn) receiver_list server_type.

Definition _send_to_smtp (self : Self) (smtp_value : Z) (server_type : string)
    (msg_type title text image userid : pyval) : lprog bool :=
  log self "邮件发送"
    (r1 <- attempt (_send_to_smtp_open self smtp_value server_type
                      msg_type title text image userid);;
     match r1 with
     | inl e => Ret (logs_ ("出现错误 - " ++ e_str e) (-1), inr false)
     | inr (title, text, image, userid, msg_type, conn, server) =>
         r2 <- attempt (_send_to_smtp_deliver self server_type
                          title text image userid msg_type conn server);;
         match r2 with
         | inr send_status =>
             Ret (logs_ (if send_status then "邮件发送成功" else "邮件发送失败") 1,
                  inr (if send_status then true else false))
         | inl e =>
             (* if server: server.quit() -- when quit raises, msg and level
                are still None and the exception leaves the method *)
             q <- attempt (lcall (quit server));;
             match q with
             | inl e' => Ret ({| msg := None; level := None |}, inl e')
             | inr _ => Ret (logs_ ("出现错误 - " ++ e_str e) (-1), inr false)
             end
         end
     end).

Definition master_program (self : Self) (title text msg_type userid image : pyval)
    : lprog (option string) :=
  master_program_with self
    (fun smtp_value server_type =>
       _send_to_smtp self smtp_value server_type msg_type title text image userid).

(** ** The event handler *)

(** [d.get(k)]. *)
Definition get (d : dict pyval) (k : string) : pyval :=
  match dict_get d k with Some v => v | None => PyNone end.

Definition get_state (self : Self) : bool := _enabled self.

(** [send], with [self.master_program] taken as an argument.  [event_data]
    is [event.event_data]: None or a dict. *)
Definition send_with {E} (self : Self)
    (master_program : pyval -> pyval -> pyval -> pyval -> pyval -> prog E (option string))
    (event_data : option (dict pyval)) : prog E unit :=
  if negb (get_state self) then Ret tt
  else
    match event_data with
    | None | Some [] => Ret tt
    | Some msg_body =>
        let channel := get msg_body "channel" in
        if truthy channel then Ret tt
        else
          let msg_type := get msg_body "type" in
          let title := get msg_body "title" in
          let text := get msg_body "text" in
          let image := get msg_body "image" in
          let userid := get msg_body "userid" in
          if (negb (truthy title) && negb (truthy text))%bool then
            logger_warning "标题和内容不能同时为空";; Ret tt
          else
            (* msg_type and self._msgtypes and msg_type.name not in self._msgtypes:
               only an enum member has a name *)
            match
              (if (truthy msg_type && negb (length (_msgtypes self) =? 0)%nat)%bool then
                 match msg_type with
                 | PyEnum t =>
                     if negb (existsb (String.eqb (name t)) (_msgtypes self))
                     then inr (Some t) else inr None
                 | v => inl (attribute_error (type_name v) "name")
                 end
               else inr None) with
            | inl e => Raise e
            | inr (Some t) =>
                if negb (_other_msgtypes self) then
                  logger_info ("消息类型 " ++ value t ++ " 未开启消息发送");; Ret tt
                else
                  master_program title text msg_type userid image;; Ret tt
            | inr None =>
                master_program title text msg_type userid image;; Ret tt
            end
    end.

Definition send (self : Self) (event_data : option (dict pyval)) : lprog unit :=
  send_with self (master_program self) event_data.

(** ** The orchestrator on its own: attempts as calls *)

(** One per-server attempt, answered by the world with its outcome. *)
Inductive attemptE : Type -> Type :=
| Attempt (smtp_value : Z) (server_type : string) : attemptE bool.

Definition attempt_call (smtp_value : Z) (server_type : string) : prog attemptE bool :=
  @call attemptE bool (Attempt smtp_value server_type).

Definition is_attempt_on (v : Z) (ev : event attemptE) : bool :=
  match ev with
  | EvCall (Attempt v' _) _ => v' =? v
  | EvLog _ _ => false
  end.

(** How many attempts a trace makes against server [v] (0 main, 1 secondary). *)
Definition count_attempts (v : Z) (tr : list (event attemptE)) : nat :=
  length (filter (is_attempt_on v) tr).

(** ** The event handler on its own: the dispatch as a call *)

Inductive dispatchE : Type -> Type :=
| Dispatch (title text msg_type userid image : pyval) : dispatchE (option string).

Definition dispatch_call (title text msg_type userid image : pyval)
    : prog dispatchE (option string) :=
  @call dispatchE (option string) (Dispatch title text msg_type userid image).

(** The dispatch [send] makes for an event it lets through. *)
Definition dispatch_of (msg_body : dict pyval) : dispatchE (option string) :=
  Dispatch (get msg_body "title") (get msg_body "text") (get msg_body "type")
    (get msg_body "userid") (get msg_body "image").

(** The tests of [send] that come before the allow-list: the plugin is
    enabled, the event has data and no channel, and a title or a text. *)
Definition passes_guards (self : Self) (msg_body : dict pyval) : bool :=
  (get_state self
   && negb (length msg_body =? 0)%nat
   && negb (truthy (get msg_body "channel"))
   && (truthy (get msg_body "title") || truthy (get msg_body "text")))%bool.

(** The allow-list is not empty and does not hold the name of [t]. *)
Definition not_listed (self : Self) (t : NotificationType) : bool :=
  (negb (length (_msgtypes self) =? 0)%nat
   && negb (existsb (String.eqb (name t)) (_msgtypes self)))%bool.

(** ** The call sequence of each encryption mode *)

Definition signature := {X : Type & libcall X}.

Definition sig_of (ev : levent) : option signature :=
  match ev with
  | EvCall c _ => Some (existT _ _ c)
  | EvLog _ _ => None
  end.

Fixpoint sigs (tr : list levent) : list signature :=
  match tr with
  | [] => []
  | ev :: tr' => match sig_of ev with Some s => s :: sigs tr' | None => sigs tr' end
  end.

Definition answered_ok (ev : levent) : bool :=
  match ev with EvCall _ (inr _) => true | EvCall _ (inl _) => false | EvLog _ _ => true end.

(** The calls of a session [s] that connects and logs in with [conn]:
    implicit TLS for "ssl", STARTTLS after a plain connection for "tls", a
    plain connection for every other value. *)
Definition mode_calls (conn : Conn) (s : server) : list signature :=
  let hello_login : list signature :=
    [existT _ _ (ehlo s (_host conn));
     existT _ _ (login s (_sender_mail conn) (_password conn))] in
  if py_eq_str (_encryption conn) "ssl"
  then existT _ _ (SMTP_SSL_new (_host conn) (_port conn)) :: hello_login
  else if py_eq_str (_encryption conn) "tls"
  then existT _ _ (SMTP_new (_host conn) (_port conn))
         :: existT _ _ (starttls s) :: hello_login
  else existT _ _ (SMTP_new (_host conn) (_port conn)) :: hello_login.

Definition is_enum (v : pyval) : bool :=
  match v with PyEnum _ => true | _ => false end.

(** A constructor of the body stage ([MIMEMultipart], [MIMEText]) that
    raised. *)
Definition failed_body_constructor (ev : levent) : bool :=
  match ev with
  | EvCall (MIMEMultipart_new _) (inl _) | EvCall (MIMEText_new _) (inl _) => true
  | _ => false
  end.

(** The call that opens the connection. *)
Definition first_call (conn : Conn) : libcall server :=
  if py_eq_str (_encryption conn) "ssl"
  then SMTP_SSL_new (_host conn) (_port conn)
  else SMTP_new (_host conn) (_port conn).

(** ** Worlds and configurations used as concrete inputs *)

(** *** What the standard library answers *)

Definition is_letter (c : ascii) : bool :=
  let n := N_of_ascii c in
  (((65 <=? n) && (n <=? 90)) || ((97 <=? n) && (n <=? 122)))%N%bool.

Definition is_digit (c : ascii) : bool :=
  let n := N_of_ascii c in ((48 <=? n) && (n <=? 57))%N%bool.

(** The characters of a URL scheme. *)
Definition scheme_char (c : ascii) : bool :=
  (is_letter c || is_digit c || Ascii.eqb c "+" || Ascii.eqb c "-" || Ascii.eqb c ".")%bool.

Fixpoint lstrip_c0 (s : string) : string :=
  match s with
  | String c s' => if (N_of_ascii c <=? 32)%N then lstrip_c0 s' else s
  | EmptyString => EmptyString
  end.

Fixpoint remove_tab_cr_lf (s : string) : string :=
  match s with
  | String c s' =>
      let n := N_of_ascii c in
      if ((n =? 9) || (n =? 10) || (n =? 13))%N%bool then remove_tab_cr_lf s'
      else String c (remove_tab_cr_lf s')
  | EmptyString => EmptyString
  end.

(** What comes before the first colon, when there is one. *)
Fixpoint before_colon (s : string) : option string :=
  match s with
  | EmptyString => None
  | String c s' =>
      if Ascii.eqb c ":" then Some EmptyString
      else match before_colon s' with
           | Some pre => Some (String c pre)
           | None => None
           end
  end.

Fixpoint all_chars (f : ascii -> bool) (s : string) : bool :=
  match s with
  | EmptyString => true
  | String c s' => (f c && all_chars f s')%bool
  end.

(** [urllib.parse.urlparse(url).scheme], as CPython 3.11 has it: leading
    control characters and blanks are dropped, tabs and line breaks removed,
    and what comes before the first colon is the scheme when it starts with
    a letter and holds scheme characters only. *)
Definition urlparse_scheme (url : string) : string :=
  match before_colon (remove_tab_cr_lf (lstrip_c0 url)) with
  | Some (String c rest) =>
      if (is_letter c && all_chars scheme_char rest)%bool then lower (String c rest)
      else EmptyString
  | _ => EmptyString
  end.

(** [urllib.parse.uses_netloc] of CPython 3.11; the empty scheme is one of
    them. *)
Definition uses_netloc : list string :=
  [""; "ftp"; "http"; "gopher"; "nntp"; "telnet"; "imap"; "wais"; "file"; "mms"; "https";
   "shttp"; "snews"; "prospero"; "rtsp"; "rtspu"; "rsync"; "svn"; "svn+ssh"; "sftp";
   "nfs"; "git"; "git+ssh"; "ws"; "wss"].

(** [urlparse(image).scheme in set(uses_netloc)]. *)
Definition scheme_in_uses_netloc (image : string) : bool :=
  existsb (String.eqb (urlparse_scheme image)) uses_netloc.

(** [requests.get(url)] on a host whose web servers answer: a URL without a
    scheme raises MissingSchema, a scheme other than http and https raises
    InvalidSchema. *)
Definition requests_get_answer (url : string) : exn + (Z * string) :=
  let scheme := urlparse_scheme url in
  if (scheme =? "")%string then
    inl (Exception_ ("Invalid URL '" ++ url ++ "': No scheme supplied. "
                     ++ "Perhaps you meant https://" ++ url ++ "?"))
  else if ((scheme =? "http") || (scheme =? "https"))%string%bool then inr (200, "GIF89a")
  else inl (Exception_ ("No connection adapters were found for '" ++ url ++ "'")).

(** [template_content.format(text=..., image=..., title=..., userid=...,
    msg_type=...)] for templates whose fields are plain names: a doubled
    brace is a brace, a field of one of the five names is the [str] of its
    value, a field of another name raises KeyError, an empty or numbered
    field IndexError, a brace left alone ValueError.  Conversions, format
    specifications and attribute access are not modelled: such a field
    counts as a name. *)
Inductive format_state :=
| InText
| AfterOpen
| InField (field_name : string)
| AfterClose.

Definition format_field (field_name : string)
    (text image title userid msg_type : pyval) : exn + string :=
  if (field_name =? "text")%string then inr (py_str text)
  else if (field_name =? "image")%string then inr (py_str image)
  else if (field_name =? "title")%string then inr (py_str title)
  else if (field_name =? "userid")%string then inr (py_str userid)
  else if (field_name =? "msg_type")%string then inr (py_str msg_type)
  else if all_chars is_digit field_name then
    inl {| cls := IndexError;
           e_str := "Replacement index "
                    ++ (if (field_name =? "")%string then "0" else field_name)
                    ++ " out of range for positional args tuple";
           smtp_code := 0 |}
  else inl {| cls := KeyError; e_str := "'" ++ field_name ++ "'"; smtp_code := 0 |}.

Fixpoint py_format_from (st : format_state) (template_content : string)
    (text image title userid msg_type : pyval) : exn + string :=
  let continue st' rest := py_format_from st' rest text image title userid msg_type in
  let emit (c : ascii) (r : exn + string) : exn + string :=
    match r with inr out => inr (String c out) | inl e => inl e end in
  match template_content with
  | EmptyString =>
      match st with
      | InText => inr EmptyString
      | AfterOpen => inl (Exception_ "Single '{' encountered in format string")
      | InField _ => inl (Exception_ "expected '}' before end of string")
      | AfterClose => inl (Exception_ "Single '}' encountered in format string")
      end
  | String c rest =>
      match st with
      | InText =>
          if Ascii.eqb c "{" then continue AfterOpen rest
          else if Ascii.eqb c "}" then continue AfterClose rest
          else emit c (continue InText rest)
      | AfterOpen =>
          if Ascii.eqb c "{" then emit c (continue InText rest)
          else if Ascii.eqb c "}" then
            match format_field EmptyString text image title userid msg_type with
            | inr v => match continue InText rest with
                       | inr out => inr (v ++ out)
                       | inl e => inl e
                       end
            | inl e => inl e
            end
          else continue (InField (String c EmptyString)) rest
      | InField field_name =>
          if Ascii.eqb c "}" then
            match format_field field_name text image title userid msg_type with
            | inr v => match continue InText rest with
                       | inr out => inr (v ++ out)
                       | inl e => inl e
                       end
            | inl e => inl e
            end
          else continue (InField (field_name ++ String c EmptyString)) rest
      | AfterClose =>
          if Ascii.eqb c "}" then emit c (continue InText rest)
          else inl (Exception_ "Single '}' encountered in format string")
      end
  end.

Definition py_format (template_content : string)
    (text image title userid msg_type : pyval) : exn + string :=
  py_format_from InText template_content text image title userid msg_type.

(** The subtype [MIMEImage] guesses for GIF and PNG data; for data it does
    not know the constructor raises TypeError. *)
Definition png_signature : string :=
  String (ascii_of_N 137) ("PNG" ++ String (ascii_of_N 13) (String (ascii_of_N 10)
    (String (ascii_of_N 26) (String (ascii_of_N 10) EmptyString)))).

Definition guess_image_subtype (data : string) : exn + string :=
  if (String.prefix "GIF87a" data || String.prefix "GIF89a" data)%bool then inr "gif"
  else if String.prefix png_signature data then inr "png"
  else inl {| cls := TypeError; e_str := "Could not guess image MIME subtype";
              smtp_code := 0 |}.

(** [Header(title, "utf-8")]: a value that is neither a string nor None is
    decoded, and only bytes can be. *)
Definition Header_answer (title : pyval) : exn + unit :=
  match title with
  | PyInt _ | PyEnum _ => inl (attribute_error (type_name title) "decode")
  | _ => inr tt
  end.

Definition is_space (c : ascii) : bool :=
  let n := N_of_ascii c in
  (((9 <=? n) && (n <=? 13)) || ((28 <=? n) && (n <=? 32)))%N%bool.

Fixpoint strip_prefix (pre s : string) : option string :=
  match pre, s with
  | EmptyString, _ => Some s
  | String a pre', String b s' => if Ascii.eqb a b then strip_prefix pre' s' else None
  | _, EmptyString => None
  end.

Fixpoint drop_letters (s : string) : string :=
  match s with
  | String c s' => if is_letter c then drop_letters s' else s
  | EmptyString => EmptyString
  end.

(** No blank up to the end of the string, or up to its last line break. *)
Fixpoint no_space_to_end (s : string) : bool :=
  match s with
  | EmptyString => true
  | String c s' =>
      if is_space c then ((N_of_ascii c =? 10)%N && (s' =? "")%string)%bool
      else no_space_to_end s'
  end.

(** Whether the pattern of the embedding step (the text data:image/, letters,
    the text ;base64, and no blank up to the end), compiled with IGNORECASE,
    matches an ASCII string. *)
Definition matches_base64_pattern (image : string) : bool :=
  match strip_prefix "data:image/" (lower image) with
  | Some rest =>
      match strip_prefix ";base64," (drop_letters rest) with
      | Some data => no_space_to_end data
      | None => false
      end
  | None => false
  end.

Definition file_not_found : exn :=
  {| cls := FileNotFoundError; e_str := "[Errno 2] No such file or directory";
     smtp_code := 0 |}.

(** A host on which every server takes what it is given, the template file
    can be read and no image file exists; the functions of the standard
    library and the constructors answer as they do. *)
Definition friendly_world : handler libcall unit :=
  fun X c w =>
    (match c in libcall X return exn + X with
     | SMTP_new _ _ | SMTP_SSL_new _ _ => inr 0%nat
     | starttls _ | ehlo _ _ | login _ _ _ | sendmail _ _ _ _ | quit _ => inr tt
     | read_template _ => inr "<html>{title}: {text}</html>"
     | str_format template_content text image title userid msg_type =>
         py_format template_content text image title userid msg_type
     | MIMEMultipart_new _ | MIMEText_new _ => inr tt
     | Header_new title => Header_answer title
     | MIMEImage_new data => guess_image_subtype data
     | scheme_uses_netloc image => inr (scheme_in_uses_netloc image)
     | requests_get image => requests_get_answer image
     | os_path_isfile _ => inr false
     | read_image_file _ => inl file_not_found
     | base64_regex_match image => inr (matches_base64_pattern image)
     end, w).

(** A world that sees a data URI in every image string: no network scheme,
    no such file, a match of the base64 pattern. *)
Definition data_uri_world : handler libcall unit :=
  fun X c w =>
    match c in libcall X return (exn + X) * unit with
    | base64_regex_match _ => (inr true, w)
    | c' => friendly_world c' w
    end.

Definition disconnected : exn :=
  {| cls := SMTPServerDisconnected; e_str := "please run connect() first"; smtp_code := 0 |}.

(** A world whose server accepts the login and then drops the connection:
    [sendmail] and [quit] both raise SMTPServerDisconnected. *)
Definition dropping_world : handler libcall unit :=
  fun X c w =>
    match c in libcall X return (exn + X) * unit with
    | sendmail _ _ _ _ => (inl disconnected, w)
    | quit _ => (inl disconnected, w)
    | c' => friendly_world c' w
    end.

(** A world of the orchestrator in which every attempt succeeds. *)
Definition attempts_succeed : handler attemptE unit :=
  fun X c w =>
    (match c in attemptE X return exn + X with Attempt _ _ => inr true end, w).

Definition example_config (main secondary test other_msgtypes : bool)
    (main_password : pyval) : Self :=
  {| _enabled := true;
     _send_image := true;
     _main := main;
     _secondary := secondary;
     _test := test;
     _log_more := false;
     _other_msgtypes := other_msgtypes;
     _enabled_customizable_mail_template := false;
     _main_smtp_host := PyStr "smtp.example.com";
     _main_smtp_port := PyInt 25;
     _main_smtp_encryption := PyStr "not_encrypted";
     _main_sender_mail := PyStr "bot@example.com";
     _main_sender_password := main_password;
     _secondary_smtp_host := PyStr "smtp2.example.com";
     _secondary_smtp_port := PyInt 465;
     _secondary_smtp_encryption := PyStr "ssl";
     _secondary_sender_mail := PyStr "bot@example.com";
     _secondary_sender_password := PyStr "secret";
     _sender_name := PyNone;
     _receiver_mail := PyStr "a@example.com,b@example.com";
     _msgtypes := [] |}.

(** A member of the host's enum. *)
Definition Plugin : NotificationType := {| name := "Plugin"; value := "插件" |}.

(** [self] with an allow-list and the allow-unrecognized switch set. *)
Definition with_msgtypes (self : Self) (msgtypes : list string) (other_msgtypes : bool)
    : Self :=
  {| _enabled := _enabled self;
     _send_image := _send_image self;
     _main := _main self;
     _secondary := _secondary self;
     _test := _test self;
     _log_more := _log_more self;
     _other_msgtypes := other_msgtypes;
     _enabled_customizable_mail_template := _enabled_customizable_mail_template self;
     _main_smtp_host := _main_smtp_host self;
     _main_smtp_port := _main_smtp_port self;
     _main_smtp_encryption := _main_smtp_encryption self;
     _main_sender_mail := _main_sender_mail self;
     _main_sender_password := _main_sender_password self;
     _secondary_smtp_host := _secondary_smtp_host self;
     _secondary_smtp_port := _secondary_smtp_port self;
     _secondary_smtp_encryption := _secondary_smtp_encryption self;
     _secondary_sender_mail := _secondary_sender_mail self;
     _secondary_sender_password := _secondary_sender_password self;
     _sender_name := _sender_name self;
     _receiver_mail := _receiver_mail self;
     _msgtypes := msgtypes |}.

(** A world of the event handler in which the dispatch returns None. *)
Definition dispatch_returns : handler dispatchE unit :=
  fun X c w =>
    (match c in dispatchE X return exn + X with Dispatch _ _ _ _ _ => inr None end, w).

(** An event of type [Plugin] with a title and a text. *)
Definition plugin_event : dict pyval :=
  [("type", PyEnum Plugin); ("title", PyStr "title"); ("text", PyStr "text")].

(** The same event without a type. *)
Definition untyped_event : dict pyval :=
  [("title", PyStr "title"); ("text", PyStr "text")].

(** Only the secondary server is enabled. *)
Definition secondary_only : Self := example_config false true false false (PyStr "secret").

(** The main server is enabled, complete but for its password. *)
Definition no_password : Self := example_config true false false false PyNone.

(** A plain run on the main server, unrecognized types not allowed. *)
Definition main_only : Self := example_config true false false false (PyStr "secret").

Definition example_conn (encryption : string) : Conn :=
  {| _host := PyStr "smtp.example.com"; _port := PyInt 25;
     _encryption := PyStr encryption;
     _sender_mail := PyStr "bot@example.com"; _password := PyStr "secret" |}.

(** Whether a summary sentence was produced. *)
Definition has_sentence (o : option string) : bool :=
  match o with Some _ => true | None => false end.


(** ** What a program may call *)

(** Every call that [p] can make, whatever the answers, satisfies [Q]. *)
Fixpoint only_calls {E : Type -> Type} {A : Type} (Q : forall X, E X -> bool)
    (p : prog E A) : Prop :=
  match p with
  | Ret _ | Raise _ => True
  | Log _ _ k => only_calls Q k
  | Call c k => Q _ c = true /\ forall r, only_calls Q (k r)
  end.

Definition ev_satisfies {E : Type -> Type} (Q : forall X, E X -> bool) (ev : event E)
    : bool :=
  match ev with EvCall c _ => Q _ c | EvLog _ _ => true end.

(** The calls of the connection stage. *)
Definition is_connect_call (X : Type) (c : libcall X) : bool :=
  match c with
  | SMTP_new _ _ | SMTP_SSL_new _ _ | starttls _ | ehlo _ _ | login _ _ _ => true
  | _ => false
  end.

Definition is_build (X : Type) (c : libcall X) : bool := is_build_call c.

Definition is_sendmail (X : Type) (c : libcall X) : bool :=
  match c with sendmail _ _ _ _ => true | _ => false end.

Definition is_build_or_sendmail (X : Type) (c : libcall X) : bool :=
  (is_build_call c || is_sendmail c)%bool.

Definition no_call (E : Type -> Type) (X : Type) (c : E X) : bool := false.

Definition ev_is_quit (ev : levent) : bool :=
  match ev with EvCall (quit _) _ => true | _ => false end.

(** A [quit] that raised. *)
Definition ev_failed_quit (ev : levent) : bool :=
  match ev with EvCall (quit _) (inl _) => true | _ => false end.

Definition ev_is_sendmail (ev : levent) : bool :=
  match ev with EvCall (sendmail _ _ _ _) _ => true | _ => false end.

(** A [sendmail] the server accepted. *)
Definition ev_sendmail_ok (ev : levent) : bool :=
  match ev with EvCall (sendmail _ _ _ _) (inr _) => true | _ => false end.

(** The values [f] reads off the events of a trace, in order. *)
Definition collect {E : Type -> Type} {B : Type} (f : event E -> option B)
    (tr : list (event E)) : list B :=
  flat_map (fun ev => match f ev with Some b => [b] | None => [] end) tr.

(** The arguments of a [sendmail] call. *)
Definition sendmail_args (ev : levent) : option (server * pyval * receivers * Mime) :=
  match ev with
  | EvCall (sendmail s sender_mail receiver_list message) _ =>
      Some (s, sender_mail, receiver_list, message)
  | _ => None
  end.

(** The path and the data of a [read_image_file] call that returned. *)
Definition file_read (ev : levent) : option (string * string) :=
  match ev with
  | EvCall (read_image_file path) (inr data) => Some (path, data)
  | _ => None
  end.

(** The template, the values substituted and the text obtained, for a
    [str_format] call that returned. *)
Definition format_done (ev : levent)
    : option (string * (pyval * pyval * pyval * pyval * pyval) * string) :=
  match ev with
  | EvCall (str_format content text image title userid msg_type) (inr html) =>
      Some (content, (text, image, title, userid, msg_type), html)
  | _ => None
  end.

Definition sent_messages (tr : list levent) := collect sendmail_args tr.
Definition files_read (tr : list levent) := collect file_read tr.
Definition rendered (tr : list levent) := collect format_done tr.

(** The calls of the template stage, of the header stage and of the body
    stage. *)
Definition is_template_call (X : Type) (c : libcall X) : bool :=
  match c with read_template _ | str_format _ _ _ _ _ _ => true | _ => false end.

Definition is_header_call (X : Type) (c : libcall X) : bool :=
  match c with Header_new _ => true | _ => false end.

Definition is_body_call (X : Type) (c : libcall X) : bool :=
  match c with
  | MIMEMultipart_new _ | MIMEText_new _ | scheme_uses_netloc _ | requests_get _
  | os_path_isfile _ | read_image_file _ | MIMEImage_new _ | base64_regex_match _ => true
  | _ => false
  end.

(** The inline image part the embedding step attaches. *)
Definition image_part (data subtype : string) : part :=
  PLeaf (add_header (MIMEImage data subtype) "Content-ID" "<image>").

(** The alternative part once the HTML text is attached to it. *)
Definition html_alternative (msg_html : string) : part :=
  PMultipart [("Content-Type", "multipart/alternative"); ("MIME-Version", "1.0")]
    [MIMEText msg_html].

(** The subtype and the data of a [MIMEImage] that was constructed. *)
Definition image_built (ev : levent) : option (string * string) :=
  match ev with
  | EvCall (MIMEImage_new data) (inr subtype) => Some (data, subtype)
  | _ => None
  end.

Definition images_built (tr : list levent) := collect image_built tr.

(** How many headers of [message] are named [name], case apart. *)
Definition count_header (message : Mime) (name : string) : nat :=
  length (filter (fun kv => (lower (fst kv) =? lower name)%string) (headers message)).

(** A world whose image strings are URLs answered with status 200. *)
Definition url_world : handler libcall unit :=
  fun X c w =>
    match c in libcall X return (exn + X) * unit with
    | scheme_uses_netloc _ => (inr true, w)
    | requests_get _ => (inr (200, "GIF89a"), w)
    | c' => friendly_world c' w
    end.

(** A host on which every image string names a GIF file that can be read. *)
Definition file_world : handler libcall unit :=
  fun X c w =>
    match c in libcall X return (exn + X) * unit with
    | os_path_isfile _ => (inr true, w)
    | read_image_file _ => (inr "GIF89a", w)
    | c' => friendly_world c' w
    end.

(** The reason the embedding step logs after it asked for an image over
    the network, by the answer it got. *)
Definition download_skip_reason (answer : exn + (Z * string)) : string :=
  match answer with
  | inr (status_code, _) =>
      if status_code =? 200 then "'bytes' object has no attribute 'add_header'"
      else "发生错误 - 获取图片失败。状态码：" ++ str_of_Z status_code
  | inl e => "发生错误 - " ++ e_str e
  end.

(** [","] does not occur in [s]. *)
Fixpoint no_comma (s : string) : bool :=
  match s with
  | EmptyString => true
  | String c s' => (negb (Ascii.eqb c ",") && no_comma s')%bool
  end.

(** A message that already carries a subject and two senders. *)
Definition stale_message : Mime :=
  {| headers := [("subject", HStr "old"); ("X-Mailer", HStr "plugin");
                 ("FROM", HStr "a"); ("From", HStr "b")];
     payload := [] |}.

(** The plugin sends test mail. *)
Definition test_run : Self := example_config true true true false (PyStr "secret").

(** The tests of [send] that come before the one on title and text. *)
Definition reaches_title_test (self : Self) (event_data : option (dict pyval)) : bool :=
  match event_data with
  | Some msg_body =>
      (get_state self
       && negb (length msg_body =? 0)%nat
       && negb (truthy (get msg_body "channel")))%bool
  | None => false
  end.

(** The event is refused by one of the tests that come before the
    allow-list. *)
Definition stopped_by_guards (self : Self) (event_data : option (dict pyval)) : bool :=
  match event_data with
  | Some msg_body => negb (passes_guards self msg_body)
  | None => true
  end.

(** An event whose type is a string of a third party. *)
Definition custom_type_event : dict pyval :=
  [("type", PyStr "custom"); ("title", PyStr "title"); ("text", PyStr "text")].

(** An event with neither title nor text. *)
Definition empty_event : dict pyval := [("type", PyEnum Plugin)].


(** The template file an attempt reads. *)
Definition template_of (self : Self) : template_path :=
  if _enabled_customizable_mail_template self then custom_template else default_template.

(** A world in which no template file can be read. *)
Definition no_template_world : handler libcall unit :=
  fun X c w =>
    match c in libcall X return (exn + X) * unit with
    | read_template _ => (inl file_not_found, w)
    | c' => friendly_world c' w
    end.

(** ** The plugin object, its stored configuration and its host *)

(** The plugin object: the fields read while sending, and those read by the
    start-up code only. *)
Record SmtpMsg := {
  fields : Self;
  _save : bool;
  _reset : bool;
  _enabled_msg_rules : bool;
  _enabled_customizable_msg_rules : bool;
  _content : string
}.

(** [self._enabled = enabled]. *)
Definition set_enabled (self : Self) (enabled : bool) : Self :=
  {| _enabled := enabled;
     _send_image := _send_image self;
     _main := _main self;
     _secondary := _secondary self;
     _test := _test self;
     _log_more := _log_more self;
     _other_msgtypes := _other_msgtypes self;
     _enabled_customizable_mail_template := _enabled_customizable_mail_template self;
     _main_smtp_host := _main_smtp_host self;
     _main_smtp_port := _main_smtp_port self;
     _main_smtp_encryption := _main_smtp_encryption self;
     _main_sender_mail := _main_sender_mail self;
     _main_sender_password := _main_sender_password self;
     _secondary_smtp_host := _secondary_smtp_host self;
     _secondary_smtp_port := _secondary_smtp_port self;
     _secondary_smtp_encryption := _secondary_smtp_encryption self;
     _secondary_sender_mail := _secondary_sender_mail self;
     _secondary_sender_password := _secondary_sender_password self;
     _sender_name := _sender_name self;
     _receiver_mail := _receiver_mail self;
     _msgtypes := _msgtypes self |}.

(** [self._test = test]. *)
Definition set_test (self : Self) (test : bool) : Self :=
  {| _enabled := _enabled self;
     _send_image := _send_image self;
     _main := _main self;
     _secondary := _secondary self;
     _test := test;
     _log_more := _log_more self;
     _other_msgtypes := _other_msgtypes self;
     _enabled_customizable_mail_template := _enabled_customizable_mail_template self;
     _main_smtp_host := _main_smtp_host self;
     _main_smtp_port := _main_smtp_port self;
     _main_smtp_encryption := _main_smtp_encryption self;
     _main_sender_mail := _main_sender_mail self;
     _main_sender_password := _main_sender_password self;
     _secondary_smtp_host := _secondary_smtp_host self;
     _secondary_smtp_port := _secondary_smtp_port self;
     _secondary_smtp_encryption := _secondary_smtp_encryption self;
     _secondary_sender_mail := _secondary_sender_mail self;
     _secondary_sender_password := _secondary_sender_password self;
     _sender_name := _sender_name self;
     _receiver_mail := _receiver_mail self;
     _msgtypes := _msgtypes self |}.

Definition set_fields (p : SmtpMsg) (self : Self) : SmtpMsg :=
  {| fields := self; _save := _save p; _reset := _reset p;
     _enabled_msg_rules := _enabled_msg_rules p;
     _enabled_customizable_msg_rules := _enabled_customizable_msg_rules p;
     _content := _content p |}.

Definition set_save (p : SmtpMsg) (save : bool) : SmtpMsg :=
  {| fields := fields p; _save := save; _reset := _reset p;
     _enabled_msg_rules := _enabled_msg_rules p;
     _enabled_customizable_msg_rules := _enabled_customizable_msg_rules p;
     _content := _content p |}.

Definition set_reset (p : SmtpMsg) (reset : bool) : SmtpMsg :=
  {| fields := fields p; _save := _save p; _reset := reset;
     _enabled_msg_rules := _enabled_msg_rules p;
     _enabled_customizable_msg_rules := _enabled_customizable_msg_rules p;
     _content := _content p |}.

Definition set_content (p : SmtpMsg) (content : string) : SmtpMsg :=
  {| fields := fields p; _save := _save p; _reset := _reset p;
     _enabled_msg_rules := _enabled_msg_rules p;
     _enabled_customizable_msg_rules := _enabled_customizable_msg_rules p;
     _content := content |}.

(** The dict [__update_config] hands to the host: a key for every field of
    [Self], for the two rule switches and for the content of the custom
    template file.  It has no key for [_save] and none for [_reset]. *)
Record Config := {
  config_fields : Self;
  config_enabled_msg_rules : bool;
  config_enabled_customizable_msg_rules : bool;
  config_content : string
}.

(** The calls of the start-up code: the custom template file
    ([self.custom_template], a [Path]), its directory, the default template
    file, the host's configuration store and notice queue, and the library
    calls of a test run. *)
Inductive hostcall : Type -> Type :=
(* self.custom_template.exists() *)
| custom_template_exists : hostcall bool
(* self.custom_template_dir.mkdir(parents=True, exist_ok=True) *)
| custom_template_dir_mkdir : hostcall unit
(* self.custom_template.touch() *)
| custom_template_touch : hostcall unit
(* self.custom_template.write_text(data, encoding="utf-8") *)
| custom_template_write_text (data : string) : hostcall unit
(* self.custom_template.read_text(encoding="utf-8") *)
| custom_template_read_text : hostcall string
(* self.default_template.replace(self.custom_template) *)
| default_template_replace : hostcall unit
(* shutil.copy(self.default_template, self.custom_template) *)
| shutil_copy : hostcall unit
(* self.update_config(config) *)
| update_config (config : Config) : hostcall unit
(* self.systemmessage.put(message) *)
| systemmessage_put (message : option string) : hostcall unit
(* a call made while sending *)
| library (X : Type) (c : libcall X) : hostcall X.

Definition hprog := prog hostcall.
Definition hcall {X} (c : hostcall X) : hprog X := call c.
Definition hevent := event hostcall.

(** A program of the sending code, run by the start-up code. *)
Fixpoint lift {A} (p : lprog A) : hprog A :=
  match p with
  | Ret a => Ret a
  | Raise e => Raise e
  | Log lv line k => Log lv line (lift k)
  | Call c k => Call (library c) (fun r => lift (k r))
  end.

(** The text of the file is read while the dict is built. *)
Definition __update_config (p : SmtpMsg) : hprog unit :=
  content <- hcall custom_template_read_text;;
  hcall (update_config
           {| config_fields := fields p;
              config_enabled_msg_rules := _enabled_msg_rules p;
              config_enabled_customizable_msg_rules := _enabled_customizable_msg_rules p;
              config_content := content |}).

(** Returns the plugin object as the method leaves it.  When the file had
    to be created, [level] is left None. *)
Definition __check_template_file (p : SmtpMsg) : hprog SmtpMsg :=
  log (fields p) "模板文件检查"
    (r <- attempt
       (exists_ <- hcall custom_template_exists;;
        if negb exists_ then
          hcall custom_template_dir_mkdir;;
          hcall custom_template_touch;;
          if negb (_content p =? "")%string then
            hcall (custom_template_write_text (_content p));;
            Ret (Some "自定义邮件模板文件不存在，已创建模板文件，已将数据库内配置写入文件",
                 @None Z, p)
          else
            hcall default_template_replace;;
            Ret (Some ("自定义邮件模板文件不存在，已创建模板文件，"
                       ++ "数据库内没有该项配置，还原使用默认配置"),
                 None, p)
        else
          exists_ <- hcall custom_template_exists;;
          if exists_ then
            differs <-
              (if (negb (_save p) && negb (_reset p))%bool then
                 text <- hcall custom_template_read_text;;
                 Ret (negb (_content p =? text)%string)
               else Ret false);;
            if differs then
              text <- hcall custom_template_read_text;;
              let p := set_content p text in
              __update_config p;;
              Ret (Some ("自定义邮件模板文件已存在，但与数据库内缓存不一致，"
                         ++ "提取文件配置并覆盖数据库配置"),
                   Some 1, p)
            else Ret (Some "自定义邮件模板文件已存在", Some 1, p)
          else Ret (None, None, p));;
     match r with
     | inr (m, l, p) => Ret ({| msg := m; level := l |}, inr p)
     | inl e =>
         Ret ({| msg := None; level := Some (-1) |},
              inl (Exception_ ("未知错误 - 原因 - " ++ e_str e)))
     end).

Definition _check_path (p : SmtpMsg) : hprog SmtpMsg := __check_template_file p.

(** Returns the plugin object as the method leaves it, and what the method
    returns: the notice, or None when there was nothing to do.  Each notice
    is a non-empty literal, so the test [if msg] holds. *)
Definition _template_settings (p : SmtpMsg) : hprog (SmtpMsg * option string) :=
  log (fields p) "模板配置"
    (r <- attempt
       (if (_save p || _reset p)%bool then
          '(p, m) <-
            (if _save p then
               hcall (custom_template_write_text (_content p));;
               let p := set_save p false in
               __update_config p;;
               '(p, m) <-
                 (if _reset p then
                    let p := set_reset p false in
                    __update_config p;;
                    Ret (p, "自定义模板与恢复默认模板不可同时启动，关闭恢复默认模板按钮！"
                            ++ "自定义邮件模板保存成功！")
                  else Ret (p, "自定义邮件模板保存成功！"));;
               hcall (systemmessage_put (Some m));;
               Ret (p, m)
             else
               hcall shutil_copy;;
               text <- hcall custom_template_read_text;;
               let p := set_reset (set_content p text) false in
               __update_config p;;
               Ret (p, "默认邮件模板恢复成功！"));;
          hcall (systemmessage_put (Some m));;
          Ret (p, Some m, Some 1, Some m)
        else
          Ret (p, Some "未启用写入自定义模板与回复默认模板，跳过", Some 1, None));;
     match r with
     | inr (p, m, l, returned) => Ret ({| msg := m; level := l |}, inr (p, returned))
     | inl e =>
         let m := "模板配置运行失败 - 原因 - " ++ e_str e in
         Ret (logs_ m (-1), inl (Exception_ m))
     end).

(** Returns the plugin object as the method leaves it.  The test run calls
    [master_program] without arguments. *)
Definition _run_plugin (p : SmtpMsg) : hprog SmtpMsg :=
  if _enabled (fields p) then
    if (negb (_main (fields p)) && negb (_secondary (fields p)))%bool then
      let p := set_fields p (set_test (set_enabled (fields p) false) false) in
      __update_config p;;
      let m := "当前参数配置不完整，主服务器与备用服务器至少需要启用一个，关闭插件" in
      logger_warning m;;
      hcall (systemmessage_put (Some (plugin_name ++ "插件" ++ m)));;
      Ret p
    else if _test (fields p) then
      m <- lift (master_program (fields p) PyNone PyNone PyNone PyNone PyNone);;
      let p := set_fields p (set_test (fields p) false) in
      __update_config p;;
      hcall (systemmessage_put m);;
      Ret p
    else Ret p
  else Ret p.

(** The configuration dict given to [init_plugin]: a key may be missing. *)
Record InitConfig := {
  cfg_enabled : option bool;
  cfg_enabled_image_send : option bool;
  cfg_main : option bool;
  cfg_secondary : option bool;
  cfg_test : option bool;
  cfg_log_more : option bool;
  cfg_other_msgtypes : option bool;
  cfg_enabled_customizable_mail_template : option bool;
  cfg_save : option bool;
  cfg_reset : option bool;
  cfg_enabled_msg_rules : option bool;
  cfg_enabled_customizable_msg_rules : option bool;
  cfg_main_smtp_host : option pyval;
  cfg_main_smtp_port : option pyval;
  cfg_main_smtp_encryption : option pyval;
  cfg_main_sender_mail : option pyval;
  cfg_main_sender_password : option pyval;
  cfg_secondary_smtp_host : option pyval;
  cfg_secondary_smtp_port : option pyval;
  cfg_secondary_smtp_encryption : option pyval;
  cfg_secondary_sender_mail : option pyval;
  cfg_secondary_sender_password : option pyval;
  cfg_sender_name : option pyval;
  cfg_receiver_mail : option pyval;
  cfg_msgtypes : option (list string);
  cfg_content : option string
}.

(** [config.get(key, default)]. *)
Definition get_or {A} (v : option A) (default : A) : A :=
  match v with Some a => a | None => default end.

(** The assignments of [init_plugin] but the last one. *)
Definition read_config (p : SmtpMsg) (config : InitConfig) : SmtpMsg :=
  {| fields :=
       {| _enabled := get_or (cfg_enabled config) false;
          _send_image := get_or (cfg_enabled_image_send config) true;
          _main := get_or (cfg_main config) true;
          _secondary := get_or (cfg_secondary config) false;
          _test := get_or (cfg_test config) false;
          _log_more := get_or (cfg_log_more config) false;
          _other_msgtypes := get_or (cfg_other_msgtypes config) false;
          _enabled_customizable_mail_template :=
            get_or (cfg_enabled_customizable_mail_template config) false;
          _main_smtp_host := get_or (cfg_main_smtp_host config) PyNone;
          _main_smtp_port := get_or (cfg_main_smtp_port config) PyNone;
          _main_smtp_encryption :=
            get_or (cfg_main_smtp_encryption config) (PyStr "not_encrypted");
          _main_sender_mail := get_or (cfg_main_sender_mail config) PyNone;
          _main_sender_password := get_or (cfg_main_sender_password config) PyNone;
          _secondary_smtp_host := get_or (cfg_secondary_smtp_host config) PyNone;
          _secondary_smtp_port := get_or (cfg_secondary_smtp_port config) PyNone;
          _secondary_smtp_encryption :=
            get_or (cfg_secondary_smtp_encryption config) (PyStr "not_encrypted");
          _secondary_sender_mail := get_or (cfg_secondary_sender_mail config) PyNone;
          _secondary_sender_password :=
            get_or (cfg_secondary_sender_password config) PyNone;
          _sender_name := get_or (cfg_sender_name config) PyNone;
          _receiver_mail := get_or (cfg_receiver_mail config) (PyStr "");
          _msgtypes := get_or (cfg_msgtypes config) [] |};
     _save := get_or (cfg_save config) false;
     _reset := get_or (cfg_reset config) false;
     _enabled_msg_rules := get_or (cfg_enabled_msg_rules config) false;
     _enabled_customizable_msg_rules :=
       get_or (cfg_enabled_customizable_msg_rules config) false;
     _content := _content p |}.

(** [config] is None for a missing or empty dict.  The default of the last
    [config.get] is an argument of the call, so the custom template file is
    read whether or not the dict has a content. *)
Definition init_plugin (p : SmtpMsg) (config : option InitConfig) : hprog SmtpMsg :=
  logger_info ("汇报 - 初始化插件 - " ++ plugin_name);;
  p <- match config with
       | Some c =>
           let p := read_config p c in
           text <- hcall custom_template_read_text;;
           Ret (set_content p (get_or (cfg_content c) text))
       | None => Ret p
       end;;
  p <- _check_path p;;
  '(p, _) <- _template_settings p;;
  _run_plugin p.

(** ** The host as a world *)

(** The two template files (None when the file does not exist), whether the
    directory of the custom template exists, the configurations stored and
    the notices queued, latest last. *)
Record Host := {
  default_file : option string;
  custom_dir : bool;
  custom_file : option string;
  stored : list Config;
  notices : list (option string)
}.

Definition set_files (w : Host) (default custom : option string) : Host :=
  {| default_file := default; custom_dir := custom_dir w; custom_file := custom;
     stored := stored w; notices := notices w |}.

(** A host whose files behave as pathlib and shutil have them: [replace]
    renames the default template onto the custom one, [shutil.copy] copies
    it, a missing file or directory raises FileNotFoundError.  The template
    an attempt reads is the file of the same name; every other library call
    is answered by [lib]. *)
Definition filesystem (lib : handler libcall unit) : handler hostcall Host :=
  fun X c w =>
    match c in hostcall X return (exn + X) * Host with
    | custom_template_exists =>
        (inr (match custom_file w with Some _ => true | None => false end), w)
    | custom_template_dir_mkdir =>
        (inr tt, {| default_file := default_file w; custom_dir := true;
                    custom_file := custom_file w;
                    stored := stored w; notices := notices w |})
    | custom_template_touch =>
        if custom_dir w
        then (inr tt, set_files w (default_file w) (Some (get_or (custom_file w) "")))
        else (inl file_not_found, w)
    | custom_template_write_text data =>
        if custom_dir w then (inr tt, set_files w (default_file w) (Some data))
        else (inl file_not_found, w)
    | custom_template_read_text =>
        match custom_file w with
        | Some data => (inr data, w)
        | None => (inl file_not_found, w)
        end
    | default_template_replace =>
        match default_file w with
        | Some data =>
            if custom_dir w then (inr tt, set_files w None (Some data))
            else (inl file_not_found, w)
        | None => (inl file_not_found, w)
        end
    | shutil_copy =>
        match default_file w with
        | Some data =>
            if custom_dir w then (inr tt, set_files w (Some data) (Some data))
            else (inl file_not_found, w)
        | None => (inl file_not_found, w)
        end
    | update_config config =>
        (inr tt, {| default_file := default_file w; custom_dir := custom_dir w;
                    custom_file := custom_file w;
                    stored := stored w ++ [config]; notices := notices w |})
    | systemmessage_put message =>
        (inr tt, {| default_file := default_file w; custom_dir := custom_dir w;
                    custom_file := custom_file w;
                    stored := stored w; notices := notices w ++ [message] |})
    | library c' =>
        match c' in libcall X return (exn + X) * Host with
        | read_template default_template =>
            match default_file w with
            | Some data => (inr data, w)
            | None => (inl file_not_found, w)
            end
        | read_template custom_template =>
            match custom_file w with
            | Some data => (inr data, w)
            | None => (inl file_not_found, w)
            end
        | c'' => (fst (lib _ c'' tt), w)
        end
    end.

(** The answers of a host to the library calls alone. *)
Definition library_of {W} (h : handler hostcall W) : handler libcall W :=
  fun X c w => h X (library c) w.

Definition lift_event (ev : levent) : hevent :=
  match ev with
  | EvLog lv line => EvLog lv line
  | EvCall c x => EvCall (library c) x
  end.

(** The configurations a trace stores and the notices it queues. *)
Definition config_stored (ev : hevent) : option Config :=
  match ev with EvCall (update_config config) _ => Some config | _ => None end.

Definition notice_put (ev : hevent) : option (option string) :=
  match ev with EvCall (systemmessage_put message) _ => Some message | _ => None end.

Definition ev_is_library (ev : hevent) : bool :=
  match ev with EvCall (library _) _ => true | _ => false end.

(** The plugin object of the class, before any configuration is read. *)
Definition class_defaults : SmtpMsg :=
  {| fields :=
       {| _enabled := false; _send_image := false; _main := true; _secondary := false;
          _test := false; _log_more := false; _other_msgtypes := false;
          _enabled_customizable_mail_template := false;
          _main_smtp_host := PyNone; _main_smtp_port := PyNone;
          _main_smtp_encryption := PyStr "not_encrypted";
          _main_sender_mail := PyNone; _main_sender_password := PyNone;
          _secondary_smtp_host := PyNone; _secondary_smtp_port := PyNone;
          _secondary_smtp_encryption := PyStr "not_encrypted";
          _secondary_sender_mail := PyNone; _secondary_sender_password := PyNone;
          _sender_name := PyNone; _receiver_mail := PyNone; _msgtypes := [] |};
     _save := false; _reset := false;
     _enabled_msg_rules := false; _enabled_customizable_msg_rules := false;
     _content := "" |}.

(** A host on which the plugin was never started. *)
Definition fresh_host : Host :=
  {| default_file := Some "<html>{title}: {text}</html>"; custom_dir := false;
     custom_file := None; stored := []; notices := [] |}.

(** A plugin object with the fields [self]. *)
Definition plugin_with (self : Self) (save reset : bool) (content : string) : SmtpMsg :=
  {| fields := self; _save := save; _reset := reset;
     _enabled_msg_rules := false; _enabled_customizable_msg_rules := false;
     _content := content |}.

(** A host whose custom template exists. *)
Definition started_host : Host :=
  {| default_file := Some "<html>{title}: {text}</html>"; custom_dir := true;
     custom_file := Some "<p>{text}</p>"; stored := []; notices := [] |}.

(** A stored configuration with every key but the content set. *)
Definition stored_config : InitConfig :=
  {| cfg_enabled := Some true; cfg_enabled_image_send := Some true;
     cfg_main := Some true; cfg_secondary := Some false; cfg_test := Some false;
     cfg_log_more := Some false; cfg_other_msgtypes := Some false;
     cfg_enabled_customizable_mail_template := Some false;
     cfg_save := None; cfg_reset := None;
     cfg_enabled_msg_rules := Some false;
     cfg_enabled_customizable_msg_rules := Some false;
     cfg_main_smtp_host := Some (PyStr "smtp.example.com");
     cfg_main_smtp_port := Some (PyInt 25);
     cfg_main_smtp_encryption := Some (PyStr "not_encrypted");
     cfg_main_sender_mail := Some (PyStr "bot@example.com");
     cfg_main_sender_password := Some (PyStr "secret");
     cfg_secondary_smtp_host := None; cfg_secondary_smtp_port := None;
     cfg_secondary_smtp_encryption := None; cfg_secondary_sender_mail := None;
     cfg_secondary_sender_password := None;
     cfg_sender_name := None; cfg_receiver_mail := Some (PyStr "a@example.com");
     cfg_msgtypes := Some []; cfg_content := Some "<p>{text}</p>" |}.

Definition notices_put (tr : list hevent) : list (option string) := collect notice_put tr.
Definition configs_stored (tr : list hevent) : list Config := collect config_stored tr.

Definition ev_is_copy (ev : hevent) : bool :=
  match ev with EvCall shutil_copy _ => true | _ => false end.

(** The texts [write_text] was given for the custom template file. *)
Definition text_written (ev : hevent) : option string :=
  match ev with EvCall (custom_template_write_text data) _ => Some data | _ => None end.

Definition texts_written (tr : list hevent) : list string := collect text_written tr.

(** An enabled plugin with neither server enabled, a test pending. *)
Definition no_server_plugin : SmtpMsg :=
  plugin_with (example_config false false true false (PyStr "secret")) false false "".

(** An enabled plugin with the secondary server alone, a test pending. *)
Definition secondary_test_plugin : SmtpMsg :=
  plugin_with (example_config false true true false (PyStr "secret")) false false "".

(** A call of message construction outside the embedding step that raised. *)
Definition construction_stopper (ev : levent) : bool :=
  match ev with
  | EvCall (MIMEMultipart_new _) (inl _) | EvCall (MIMEText_new _) (inl _)
  | EvCall (Header_new _) (inl _) | EvCall (read_template _) (inl _)
  | EvCall (str_format _ _ _ _ _ _) (inl _) => true
  | _ => false
  end.

(** Both servers are enabled, on a plain run. *)
Definition both_servers : Self := example_config true true false false (PyStr "secret").

(** A world of the orchestrator in which every attempt raises, as an attempt
    does when the [quit] of its handler raises. *)
Definition attempts_raise : handler attemptE unit :=
  fun X c w =>
    (match c in attemptE X return exn + X with
     | Attempt _ _ => inl (Exception_ "模块运行失败 - 原因 - please run connect() first")
     end, w).

(** * Facts about running programs *)

Section RunFacts.

Context {E : Type -> Type} {W : Type} (h : handler E W).

Lemma run_bind {A B} (p : prog E A) (f : A -> prog E B) (w : W) :
  run h (bind p f) w =
  match run h p w with
  | (tr1, w1, inl e) => (tr1, w1, inl e)
  | (tr1, w1, inr a) =>
      match run h (f a) w1 with
      | (tr2, w2, r) => ((tr1 ++ tr2)%list, w2, r)
      end
  end.
Proof.
  revert w; induction p as [a | e | lv l k IH | X c k IH]; intro w; simpl.
  - destruct (run h (f a) w) as [[tr2 w2] r]; reflexivity.
  - reflexivity.
  - rewrite IH. destruct (run h k w) as [[tr1 w1] [e | a]]; [reflexivity |].
    destruct (run h (f a) w1) as [[tr2 w2] r]; reflexivity.
  - destruct (h c w) as [x w1]. rewrite IH.
    destruct (run h (k x) w1) as [[tr1 w2] [e | a]]; [reflexivity |].
    destruct (run h (f a) w2) as [[tr2 w3] r]; reflexivity.
Qed.

Lemma run_attempt {A} (p : prog E A) (w : W) :
  run h (attempt p) w =
  match run h p w with (tr, w1, r) => (tr, w1, inr r) end.
Proof.
  revert w; induction p as [a | e | lv l k IH | X c k IH]; intro w; simpl;
    try reflexivity.
  - rewrite IH. destruct (run h k w) as [[tr w1] r]; reflexivity.
  - destruct (h c w) as [x w1]. rewrite IH.
    destruct (run h (k x) w1) as [[tr w2] r]; reflexivity.
Qed.

Lemma run_try_catch {A} (p : prog E A) (g : exn -> prog E A) (w : W) :
  run h (try_catch p g) w =
  match run h p w with
  | (tr1, w1, inr a) => (tr1, w1, inr a)
  | (tr1, w1, inl e) =>
      match run h (g e) w1 with
      | (tr2, w2, r) => ((tr1 ++ tr2)%list, w2, r)
      end
  end.
Proof.
  revert w; induction p as [a | e | lv l k IH | X c k IH]; intro w; simpl.
  - reflexivity.
  - destruct (run h (g e) w) as [[tr2 w2] r]; reflexivity.
  - rewrite IH. destruct (run h k w) as [[tr1 w1] [e | a]]; [| reflexivity].
    destruct (run h (g e) w1) as [[tr2 w2] r]; reflexivity.
  - destruct (h c w) as [x w1]. rewrite IH.
    destruct (run h (k x) w1) as [[tr1 w2] [e | a]]; [| reflexivity].
    destruct (run h (g e) w2) as [[tr2 w3] r]; reflexivity.
Qed.

Lemma run_call {X} (c : E X) (w : W) :
  run h (call c) w = ([EvCall c (fst (h c w))], snd (h c w), fst (h c w)).
Proof.
  unfold call; simpl. destruct (h c w) as [[e | x] w1]; reflexivity.
Qed.

Lemma calls_app (t1 t2 : list (event E)) : calls (t1 ++ t2)%list = (calls t1 ++ calls t2)%list.
Proof. apply filter_app. Qed.

(** The decorator adds log lines only: same calls, same world, and the
    body's value, or its exception under the decorator's message. *)
Lemma run_log {A} (self : Self) (mode_name : string)
    (body : prog E (log_container * (exn + A))) (w : W) :
  exists tr,
    run h (log self mode_name body) w
    = (tr, world_of h body w, log_result (result_of h body w))
    /\ calls tr = calls (trace_of h body w).
Proof.
  unfold log, world_of, result_of, trace_of.
  rewrite run_bind.
  assert (Hpre : exists pre,
             run h (if _log_more self
                    then logger_info ("状态 - " ++ mode_name ++ "模块 - 开始运行")
                    else Ret tt) w = (pre, w, inr tt) /\ calls pre = []).
  { destruct (_log_more self); eexists; split; reflexivity. }
  destruct Hpre as (pre & -> & Hpre).
  rewrite run_bind, run_attempt.
  destruct (run h body w) as [[tr w1] rb]; simpl.
  destruct rb as [e | [logs0 [e | a]]].
  - eexists; split; [cbn; reflexivity |].
    rewrite !calls_app, Hpre, app_nil_r. reflexivity.
  - eexists; split; [cbn; reflexivity |].
    rewrite !calls_app, Hpre, app_nil_r. reflexivity.
  - cbn -[String.append].
    match goal with
    | |- context [match ?st with Some _ => logger_info _ | None => Ret tt end] =>
        destruct st
    end.
    + eexists; split; [cbn; reflexivity |].
      rewrite !calls_app, Hpre, app_nil_r. reflexivity.
    + eexists; split; [cbn; reflexivity |].
      rewrite !calls_app, Hpre, app_nil_r. reflexivity.
Qed.

End RunFacts.

Section RunProjections.

Context {E : Type -> Type} {W : Type} (h : handler E W).

Lemma run_eta {A} (p : prog E A) (w : W) :
  run h p w = (trace_of h p w, world_of h p w, result_of h p w).
Proof.
  unfold trace_of, world_of, result_of.
  destruct (run h p w) as [[tr w1] r]; reflexivity.
Qed.

Lemma result_of_log {A} self mode_name (body : prog E (log_container * (exn + A))) w :
  result_of h (log self mode_name body) w = log_result (result_of h body w).
Proof.
  destruct (run_log h self mode_name body w) as (tr & Hrun & _).
  unfold result_of at 1. rewrite Hrun. reflexivity.
Qed.

Lemma world_of_log {A} self mode_name (body : prog E (log_container * (exn + A))) w :
  world_of h (log self mode_name body) w = world_of h body w.
Proof.
  destruct (run_log h self mode_name body w) as (tr & Hrun & _).
  unfold world_of at 1. rewrite Hrun. reflexivity.
Qed.

Lemma calls_log {A} self mode_name (body : prog E (log_container * (exn + A))) w :
  calls (trace_of h (log self mode_name body) w) = calls (trace_of h body w).
Proof.
  destruct (run_log h self mode_name body w) as (tr & Hrun & Hc).
  unfold trace_of at 1. rewrite Hrun. exact Hc.
Qed.

Lemma result_of_bind {A B} (p : prog E A) (f : A -> prog E B) w :
  result_of h (bind p f) w =
  match result_of h p w with
  | inl e => inl e
  | inr a => result_of h (f a) (world_of h p w)
  end.
Proof.
  unfold result_of, world_of. rewrite run_bind.
  destruct (run h p w) as [[tr1 w1] [e | a]]; simpl; [reflexivity |].
  destruct (run h (f a) w1) as [[tr2 w2] r]; reflexivity.
Qed.

Lemma world_of_bind {A B} (p : prog E A) (f : A -> prog E B) w :
  world_of h (bind p f) w =
  match result_of h p w with
  | inl e => world_of h p w
  | inr a => world_of h (f a) (world_of h p w)
  end.
Proof.
  unfold result_of, world_of. rewrite run_bind.
  destruct (run h p w) as [[tr1 w1] [e | a]]; simpl; [reflexivity |].
  destruct (run h (f a) w1) as [[tr2 w2] r]; reflexivity.
Qed.

Lemma trace_of_bind {A B} (p : prog E A) (f : A -> prog E B) w :
  trace_of h (bind p f) w =
  (trace_of h p w ++
   match result_of h p w with
   | inl e => []
   | inr a => trace_of h (f a) (world_of h p w)
   end)%list.
Proof.
  unfold result_of, world_of, trace_of. rewrite run_bind.
  destruct (run h p w) as [[tr1 w1] [e | a]]; simpl; [now rewrite app_nil_r |].
  destruct (run h (f a) w1) as [[tr2 w2] r]; reflexivity.
Qed.

Lemma result_of_attempt {A} (p : prog E A) w :
  result_of h (attempt p) w = inr (result_of h p w).
Proof.
  unfold result_of. rewrite run_attempt.
  destruct (run h p w) as [[tr w1] r]; reflexivity.
Qed.

Lemma world_of_attempt {A} (p : prog E A) w :
  world_of h (attempt p) w = world_of h p w.
Proof.
  unfold world_of. rewrite run_attempt.
  destruct (run h p w) as [[tr w1] r]; reflexivity.
Qed.

Lemma trace_of_attempt {A} (p : prog E A) w :
  trace_of h (attempt p) w = trace_of h p w.
Proof.
  unfold trace_of. rewrite run_attempt.
  destruct (run h p w) as [[tr w1] r]; reflexivity.
Qed.

Lemma result_of_try_catch {A} (p : prog E A) (g : exn -> prog E A) w :
  result_of h (try_catch p g) w =
  match result_of h p w with
  | inr a => inr a
  | inl e => result_of h (g e) (world_of h p w)
  end.
Proof.
  unfold result_of, world_of. rewrite run_try_catch.
  destruct (run h p w) as [[tr1 w1] [e | a]]; simpl; [| reflexivity].
  destruct (run h (g e) w1) as [[tr2 w2] r]; reflexivity.
Qed.

Lemma world_of_try_catch {A} (p : prog E A) (g : exn -> prog E A) w :
  world_of h (try_catch p g) w =
  match result_of h p w with
  | inr a => world_of h p w
  | inl e => world_of h (g e) (world_of h p w)
  end.
Proof.
  unfold result_of, world_of. rewrite run_try_catch.
  destruct (run h p w) as [[tr1 w1] [e | a]]; simpl; [| reflexivity].
  destruct (run h (g e) w1) as [[tr2 w2] r]; reflexivity.
Qed.

Lemma trace_of_try_catch {A} (p : prog E A) (g : exn -> prog E A) w :
  trace_of h (try_catch p g) w =
  (trace_of h p w ++
   match result_of h p w with
   | inr a => []
   | inl e => trace_of h (g e) (world_of h p w)
   end)%list.
Proof.
  unfold result_of, world_of, trace_of. rewrite run_try_catch.
  destruct (run h p w) as [[tr1 w1] [e | a]]; simpl; [| now rewrite app_nil_r].
  destruct (run h (g e) w1) as [[tr2 w2] r]; reflexivity.
Qed.

(** A decorated method that makes no library call of its own. *)
Lemma run_log_pure {A} self mode_name (lr : log_container * (exn + A)) w :
  calls (trace_of h (log self mode_name (Ret lr)) w) = []
  /\ world_of h (log self mode_name (Ret lr)) w = w
  /\ result_of h (log self mode_name (Ret lr)) w = log_result (inr lr).
Proof.
  rewrite calls_log, world_of_log, result_of_log. repeat split.
Qed.

End RunProjections.

(** * The outcome reduction *)

(** A pair the orchestrator never passes: on a plain (non-test) run the
    reduction of (succeeded, succeeded) returns normally and leaves no
    summary sentence, neither logged nor returned. *)
Lemma reduction_without_sentence :
  _generate_result_log_body main_only (Some true) (Some true)
  = ({| msg := None; level := Some 0 |}, inr None).
Proof. reflexivity. Qed.


(** * Server selection and the orchestrator *)

(** The decision for the secondary server when no attempt was made before:
    [status] stays None, whatever the configuration. *)
Lemma determine_secondary_first (self : Self) :
  _determine_server_body self 1 None
  = (logs_ "备用服务器调用判断 - 不需要调用" 1, inr (None, "备用")).
Proof. reflexivity. Qed.

Section Orchestrator.

Context {E : Type -> Type} {W : Type} (h : handler E W).

Lemma run_determine_server (self : Self) (v : Z) (success : option bool) (w : W) :
  calls (trace_of h (_determine_server self v success) w) = []
  /\ world_of h (_determine_server self v success) w = w
  /\ result_of h (_determine_server self v success) w
     = log_result (inr (_determine_server_body self v success)).
Proof. unfold _determine_server. apply run_log_pure. Qed.

Lemma run_generate_result_log (self : Self) (m s : option bool) (w : W) :
  calls (trace_of h (_generate_result_log self m s) w) = []
  /\ world_of h (_generate_result_log self m s) w = w
  /\ result_of h (_generate_result_log self m s) w
     = log_result (inr (_generate_result_log_body self m s)).
Proof. unfold _generate_result_log. apply run_log_pure. Qed.

(** With the main server disabled, the decision for the secondary server
    sees no prior outcome and answers None: nothing is sent, and the
    reduction of (None, None) raises. *)
Lemma run_secondary_only (self : Self) (send_to_smtp : Z -> string -> prog E bool) (w : W) :
  _main self = false ->
  calls (trace_of h (master_program_with self send_to_smtp) w) = []
  /\ result_of h (master_program_with self send_to_smtp) w
     = inl (Exception_ "模块运行失败 - 原因 - 出现未知错误，无法打印运行结果").
Proof.
  intros Hmain. unfold master_program_with. rewrite Hmain.
  cbn [bind].
  destruct (run_generate_result_log self None None w) as (Hc' & Hw' & Hr').
  destruct (_secondary self).
  - destruct (run_determine_server self 1 None w) as (Hc & Hw & Hr).
    rewrite !trace_of_bind, !result_of_bind, !world_of_bind.
    rewrite !Hr, !Hw, !determine_secondary_first.
    cbn [log_result is_True trace_of world_of result_of run fst snd].
    rewrite !calls_app, Hc, Hc', Hr'. split; reflexivity.
  - cbn [bind]. rewrite Hc', Hr'. split; reflexivity.
Qed.

End Orchestrator.

Lemma log_result_inr {A} (lr : log_container * (exn + A)) :
  log_result (inr lr)
  = match snd lr with
    | inl e => inl (Exception_ ("模块运行失败 - 原因 - " ++ e_str e))
    | inr a => inr a
    end.
Proof. destruct lr as [l [e | a]]; reflexivity. Qed.

Lemma count_attempts_calls (v : Z) (tr : list (event attemptE)) :
  count_attempts v tr = count_attempts v (calls tr).
Proof.
  unfold count_attempts, calls.
  induction tr as [| [lv l | X c x] tr IH]; simpl; [reflexivity | exact IH |].
  destruct c as [v' t]; simpl. destruct (v' =? v); simpl; now rewrite IH.
Qed.

(** C1, at the input that contradicts it.  With the main server disabled and
    the secondary enabled, the decision for the secondary server, taken with
    no prior outcome, is None and not an attempt: the orchestrator makes no
    attempt on the secondary server (not one library call in the real
    pipeline) and ends by raising. *)
Theorem secondary_alone_not_attempted :
  forall (W : Type) (h : handler attemptE W) (w : W)
         (W' : Type) (h' : handler libcall W') (w' : W')
         (self : Self) (title text msg_type userid image : pyval),
    _main self = false ->
    _secondary self = true ->
    snd (_determine_server_body self 1 None) = inr (None, "备用")
    /\ count_attempts 1 (trace_of h (master_program_with self attempt_call) w) = 0%nat
    /\ calls (trace_of h' (master_program self title text msg_type userid image) w') = [].
Proof.
  intros W h w W' h' w' self title text msg_type userid image Hmain _.
  split; [reflexivity | split].
  - rewrite count_attempts_calls.
    destruct (run_secondary_only h self attempt_call w Hmain) as [-> _]. reflexivity.
  - unfold master_program.
    destruct (run_secondary_only h' self
                (fun smtp_value server_type =>
                   _send_to_smtp self smtp_value server_type msg_type title text image userid)
                w' Hmain) as [Hc _].
    exact Hc.
Qed.

Lemma secondary_alone_not_attempted_witness :
  snd (_determine_server_body secondary_only 1 None) = inr (None, "备用")
  /\ count_attempts 1
       (trace_of attempts_succeed (master_program_with secondary_only attempt_call) tt) = 0%nat
  /\ calls (trace_of friendly_world
              (master_program secondary_only (PyStr "title") (PyStr "text")
                 (PyEnum Plugin) PyNone PyNone) tt) = [].
Proof.
  apply (@secondary_alone_not_attempted unit attempts_succeed tt unit friendly_world tt
           secondary_only); reflexivity.
Defined.

(** C6, at the input that contradicts it.  With only the secondary server
    enabled, [master_program] raises to its caller, whatever the event
    carries and whatever the libraries answer. *)
Theorem master_program_raises :
  forall (W : Type) (h : handler libcall W) (w : W) (self : Self)
         (title text msg_type userid image : pyval),
    _main self = false ->
    _secondary self = true ->
    result_of h (master_program self title text msg_type userid image) w
    = inl (Exception_ "模块运行失败 - 原因 - 出现未知错误，无法打印运行结果").
Proof.
  intros W h w self title text msg_type userid image Hmain _.
  unfold master_program.
  destruct (run_secondary_only h self
              (fun smtp_value server_type =>
                 _send_to_smtp self smtp_value server_type msg_type title text image userid)
              w Hmain) as [_ Hr].
  exact Hr.
Qed.

Lemma master_program_raises_witness :
  result_of friendly_world
    (master_program secondary_only (PyStr "title") (PyStr "text") (PyEnum Plugin)
       PyNone PyNone) tt
  = inl (Exception_ "模块运行失败 - 原因 - 出现未知错误，无法打印运行结果").
Proof.
  apply (@master_program_raises unit friendly_world tt secondary_only); reflexivity.
Defined.

(** A second way out of [master_program]: when the message could not be sent
    and [server.quit()] raises in the handler of [_send_to_smtp], that
    exception leaves the attempt and the orchestrator. *)
Lemma quit_failure_escapes :
  result_of dropping_world
    (master_program main_only (PyStr "title") (PyStr "text") (PyEnum Plugin)
       PyNone PyNone) tt
  = inl (Exception_ "模块运行失败 - 原因 - please run connect() first").
Proof. vm_compute. reflexivity. Qed.


(** * The event handler *)

(** C10.  For an event whose type is an enum member not named in a non-empty
    allow-list: with the allow-unrecognized switch off the handler makes no
    dispatch; with the switch on, and the earlier tests of the handler
    passed, it makes the dispatch of the event, once.  An event without a
    type, or any event when the allow-list is empty, is dispatched as soon as
    it passes the earlier tests. *)
Theorem allow_list_filter :
  forall (W : Type) (h : handler dispatchE W) (w : W) (self : Self)
         (msg_body : dict pyval),
    let tr := calls (trace_of h (send_with self dispatch_call (Some msg_body)) w) in
    let dispatched :=
      [EvCall (dispatch_of msg_body) (fst (h _ (dispatch_of msg_body) w))] in
    (forall t, get msg_body "type" = PyEnum t ->
               not_listed self t = true ->
               _other_msgtypes self = false ->
               tr = [])
    /\ (forall t, get msg_body "type" = PyEnum t ->
                  not_listed self t = true ->
                  _other_msgtypes self = true ->
                  passes_guards self msg_body = true ->
                  tr = dispatched)
    /\ (get msg_body "type" = PyNone \/ _msgtypes self = [] ->
        passes_guards self msg_body = true ->
        tr = dispatched).
Proof.
  intros W h w self msg_body tr dispatched. subst tr dispatched.
  unfold send_with, passes_guards, not_listed, dispatch_of, dispatch_call, trace_of.
  destruct msg_body as [| kv rest].
  - repeat split.
    + intros t Ht; discriminate Ht.
    + intros t Ht; discriminate Ht.
    + intros _ Hg. rewrite !andb_false_r in Hg. discriminate Hg.
  - cbv beta iota. set (body := kv :: rest).
    repeat split.
    + intros t Ht Hn Ho. rewrite Ht, Ho.
      apply andb_true_iff in Hn as [Hl He]. rewrite Hl.
      apply negb_true_iff in He. rewrite He.
      destruct (get_state self), (truthy (get body "channel")),
        (truthy (get body "title")), (truthy (get body "text")); reflexivity.
    + intros t Ht Hn Ho Hg. rewrite Ht, Ho.
      apply andb_true_iff in Hn as [Hl He]. rewrite Hl.
      apply negb_true_iff in He. rewrite He.
      apply andb_true_iff in Hg as [Hg Htt].
      apply andb_true_iff in Hg as [Hg Hch].
      apply andb_true_iff in Hg as [Hst _].
      apply negb_true_iff in Hch. rewrite Hst, Hch.
      assert (Hnn : (negb (truthy (get body "title")) && negb (truthy (get body "text")))%bool
                    = false).
      { destruct (truthy (get body "title")), (truthy (get body "text"));
          try reflexivity; discriminate Htt. }
      rewrite Hnn. simpl.
      destruct (h (option string)
                  (Dispatch (get body "title") (get body "text") (PyEnum t)
                     (get body "userid") (get body "image")) w) as [[e | o] w1];
        reflexivity.
    + intros Hor Hg.
      apply andb_true_iff in Hg as [Hg Htt].
      apply andb_true_iff in Hg as [Hg Hch].
      apply andb_true_iff in Hg as [Hst _].
      apply negb_true_iff in Hch. rewrite Hst, Hch.
      assert (Hnn : (negb (truthy (get body "title")) && negb (truthy (get body "text")))%bool
                    = false).
      { destruct (truthy (get body "title")), (truthy (get body "text"));
          try reflexivity; discriminate Htt. }
      rewrite Hnn.
      assert (Hc : (truthy (get body "type") && negb (length (_msgtypes self) =? 0)%nat)%bool
                   = false).
      { destruct Hor as [-> | ->]; [reflexivity | apply andb_false_r]. }
      rewrite Hc. simpl.
      destruct (h (option string)
                  (Dispatch (get body "title") (get body "text") (get body "type")
                     (get body "userid") (get body "image")) w) as [[e | o] w1];
        reflexivity.
Qed.

Lemma allow_list_filter_witness :
  calls (trace_of dispatch_returns
           (send_with (with_msgtypes main_only ["SiteMessage"] false) dispatch_call
              (Some plugin_event)) tt) = []
  /\ calls (trace_of dispatch_returns
              (send_with (with_msgtypes main_only ["SiteMessage"] true) dispatch_call
                 (Some plugin_event)) tt)
     = [EvCall (dispatch_of plugin_event) (inr None)]
  /\ calls (trace_of dispatch_returns
              (send_with (with_msgtypes main_only ["SiteMessage"] false) dispatch_call
                 (Some untyped_event)) tt)
     = [EvCall (dispatch_of untyped_event) (inr None)].
Proof.
  split; [| split].
  - exact (proj1 (allow_list_filter dispatch_returns tt
                    (with_msgtypes main_only ["SiteMessage"] false) plugin_event)
             Plugin eq_refl eq_refl eq_refl).
  - exact (proj1 (proj2 (allow_list_filter dispatch_returns tt
                           (with_msgtypes main_only ["SiteMessage"] true) plugin_event))
             Plugin eq_refl eq_refl eq_refl eq_refl).
  - exact (proj2 (proj2 (allow_list_filter dispatch_returns tt
                           (with_msgtypes main_only ["SiteMessage"] false) untyped_event))
             (or_introl eq_refl) eq_refl).
Defined.

(** * The per-server pipeline *)

Lemma sigs_calls (tr : list levent) : sigs (calls tr) = sigs tr.
Proof.
  induction tr as [| [lv l | X c x] tr IH]; simpl; [reflexivity | exact IH |].
  now rewrite IH.
Qed.

Lemma sigs_app (t1 t2 : list levent) : sigs (t1 ++ t2)%list = (sigs t1 ++ sigs t2)%list.
Proof.
  induction t1 as [| [lv l | X c x] t1 IH]; simpl; [reflexivity | exact IH |].
  now rewrite IH.
Qed.

Section Pipeline.

Context {W : Type} (h : handler libcall W).

Lemma run_validation self server_type msg_type title text image userid (w : W) :
  let p := _msg_parameter_validation self server_type msg_type title text image userid in
  calls (trace_of h p w) = []
  /\ world_of h p w = w
  /\ result_of h p w
     = log_result
         (inr (_msg_parameter_validation_body self server_type
                 msg_type title text image userid)).
Proof. unfold _msg_parameter_validation. apply run_log_pure. Qed.

(** The configuration of either server is read without any test on its
    values: the dict literal has every key. *)
Lemma run_get_dict_value self server_type (secondary : bool) (w : W) :
  let p := _get_dict_value self server_type
             (if secondary then "secondary" else "main") in
  calls (trace_of h p w) = []
  /\ world_of h p w = w
  /\ result_of h p w = inr (conn_of self secondary).
Proof.
  unfold _get_dict_value.
  rewrite calls_log, world_of_log, result_of_log.
  destruct secondary; repeat split.
Qed.

Ltac answer :=
  match goal with
  | |- context [@h ?X ?c ?w] =>
      let e := fresh "e" in
      let x := fresh "x" in
      let w' := fresh "w" in
      destruct (@h X c w) as [[e | x] w']
  end.

(** The connection stage makes the calls of the configured mode, in order,
    and stops at the first that raises; it builds nothing. *)
Lemma run_connect self conn (w : W) :
  let p := _connect_to_smtp_server self conn in
  forallb (fun ev => negb (ev_is_build ev)) (calls (trace_of h p w)) = true
  /\ (exists rest,
        calls (trace_of h p w)
        = EvCall (first_call conn) (fst (@h _ (first_call conn) w)) :: rest)
  /\ match result_of h p w with
     | inr s =>
         sigs (trace_of h p w) = mode_calls conn s
         /\ forallb answered_ok (calls (trace_of h p w)) = true
         /\ existsb ev_is_login_ok (calls (trace_of h p w)) = true
     | inl e =>
         (exists s rest, (sigs (trace_of h p w) ++ rest)%list = mode_calls conn s)
         /\ forallb answered_ok (calls (trace_of h p w)) = false
     end.
Proof.
  intro p; subst p. unfold _connect_to_smtp_server.
  rewrite <- (sigs_calls (trace_of h (log _ _ _) w)).
  rewrite calls_log, result_of_log.
  unfold mode_calls, first_call, trace_of, result_of.
  destruct (py_eq_str (_encryption conn) "ssl");
    [| destruct (py_eq_str (_encryption conn) "tls")];
    repeat (cbn; answer); cbn;
    (split; [reflexivity |]);
    (split; [eexists; reflexivity |]);
    repeat split;
    first [ reflexivity
          | exists 0%nat; eexists; reflexivity
          | do 2 eexists; reflexivity ].
Qed.

(** The first part of an attempt: nothing when validation fails, else the
    connection stage with the settings of the chosen server. *)
Lemma run_open self (secondary : bool) server_type msg_type title text image userid
    (w : W) :
  let p := _send_to_smtp_open self (if secondary then 1 else 0) server_type
             msg_type title text image userid in
  let c := _connect_to_smtp_server self (conn_of self secondary) in
  match snd (_msg_parameter_validation_body self server_type
               msg_type title text image userid) with
  | inl e =>
      calls (trace_of h p w) = []
      /\ world_of h p w = w
      /\ result_of h p w = inl (Exception_ ("模块运行失败 - 原因 - " ++ e_str e))
  | inr vals =>
      calls (trace_of h p w) = calls (trace_of h c w)
      /\ world_of h p w = world_of h c w
      /\ result_of h p w
         = match result_of h c w with
           | inl e => inl e
           | inr s => inr (vals, conn_of self secondary, s)
           end
  end.
Proof.
  intros p c; subst p c. unfold _send_to_smtp_open.
  destruct (run_validation self server_type msg_type title text image userid w)
    as (Hvc & Hvw & Hvr).
  destruct (run_get_dict_value self server_type secondary w) as (Hgc & Hgw & Hgr).
  rewrite log_result_inr in Hvr.
  assert (Hslot : (if (if secondary then 1 else 0) =? 0 then Ret "main"
                   else if (if secondary then 1 else 0) =? 1 then Ret "secondary"
                   else Raise (Exception_ "无效的SMTP服务器类型，无法识别"))
                  = (Ret (if secondary then "secondary" else "main") : lprog string)).
  { destruct secondary; reflexivity. }
  rewrite Hslot. cbn [bind].
  rewrite !trace_of_bind, !result_of_bind, !world_of_bind, !calls_app.
  rewrite Hvc, Hvr, Hvw.
  destruct (snd (_msg_parameter_validation_body self server_type
                   msg_type title text image userid)) as [e | vals].
  - repeat split.
  - rewrite !trace_of_bind, !result_of_bind, !world_of_bind, !calls_app.
    rewrite Hgc, Hgr, Hgw.
    rewrite !trace_of_bind, !result_of_bind, !world_of_bind, !calls_app.
    destruct (result_of h (_connect_to_smtp_server self (conn_of self secondary)) w)
      as [e | s]; cbn; rewrite ?app_nil_r; repeat split.
Qed.

(** An attempt: its first part, and more only when the first part
    returned.  A first part that raises makes the attempt return False. *)
Lemma run_send_to_smtp self (v : Z) server_type msg_type title text image userid
    (w : W) :
  let p := _send_to_smtp self v server_type msg_type title text image userid in
  let o := _send_to_smtp_open self v server_type msg_type title text image userid in
  exists rest,
    calls (trace_of h p w) = (calls (trace_of h o w) ++ rest)%list
    /\ (forall e, result_of h o w = inl e ->
                  rest = []
                  /\ world_of h p w = world_of h o w
                  /\ result_of h p w = inr false).
Proof.
  intros p o; subst p o. unfold _send_to_smtp.
  rewrite calls_log, world_of_log, result_of_log.
  rewrite !trace_of_bind, !result_of_bind, !world_of_bind, !calls_app.
  rewrite !trace_of_attempt, !result_of_attempt, !world_of_attempt.
  eexists; split; [reflexivity |].
  intros e He. rewrite He. repeat split.
Qed.

End Pipeline.

Section OrchestratorCalls.

Context {E : Type -> Type} {W : Type} (h : handler E W).
Variable self : Self.
Variable send_to_smtp : Z -> string -> prog E bool.

(** Attempts that make no call leave the orchestrator without any. *)
Hypothesis send_silent :
  forall (secondary : bool) (server_type : string) (w : W),
    calls (trace_of h (send_to_smtp (if secondary then 1 else 0) server_type) w) = [].

Lemma phase_no_calls (secondary : bool) (m : option bool) (w : W) :
  calls (trace_of h
           ('(success, server_type) <-
              _determine_server self (if secondary then 1 else 0) m;;
            if is_True success
            then (b <- send_to_smtp (if secondary then 1 else 0) server_type;;
                  Ret (Some b))
            else Ret None) w) = [].
Proof.
  destruct (run_determine_server h self (if secondary then 1 else 0) m w)
    as (Hc & Hw & Hr).
  rewrite trace_of_bind, calls_app, Hc, Hr, Hw.
  destruct (log_result (inr (_determine_server_body self (if secondary then 1 else 0) m)))
    as [e | [success server_type]]; [reflexivity |].
  destruct (is_True success); [| reflexivity].
  rewrite trace_of_bind, calls_app, send_silent.
  destruct (result_of h (send_to_smtp (if secondary then 1 else 0) server_type) w);
    reflexivity.
Qed.

Lemma master_program_no_calls (w : W) :
  calls (trace_of h (master_program_with self send_to_smtp) w) = [].
Proof.
  unfold master_program_with.
  assert (H1 : forall w, calls (trace_of h
             (if _main self
              then '(success, server_type) <- _determine_server self 0 None;;
                   if is_True success
                   then (b <- send_to_smtp 0 server_type;; Ret (Some b))
                   else Ret None
              else Ret None) w) = []).
  { intros w0. destruct (_main self); [apply (phase_no_calls false) | reflexivity]. }
  assert (H2 : forall m w, calls (trace_of h
             (if _secondary self
              then '(success, server_type) <- _determine_server self 1 m;;
                   if is_True success
                   then (b <- send_to_smtp 1 server_type;; Ret (Some b))
                   else Ret None
              else Ret None) w) = []).
  { intros m w0. destruct (_secondary self); [apply (phase_no_calls true) | reflexivity]. }
  rewrite trace_of_bind, calls_app, H1. cbn [app].
  match goal with
  | |- context [match ?r with inl _ => [] | inr _ => _ end] => destruct r as [e | m]
  end; [reflexivity |].
  rewrite trace_of_bind, calls_app, H2. cbn [app].
  match goal with
  | |- context [match ?r with inl _ => [] | inr _ => _ end] => destruct r as [e | s]
  end; [reflexivity |].
  apply run_generate_result_log.
Qed.

End OrchestratorCalls.

(** * Parameter validation *)

Lemma validation_rejects self server_type msg_type title text image userid :
  _test self = false ->
  is_None msg_type = false ->
  is_enum msg_type = false ->
  _other_msgtypes self = false ->
  snd (_msg_parameter_validation_body self server_type msg_type title text image userid)
  = inl (Exception_
           "邮件变量校验失败 - 原因 - 接收到不被支持的消息类型，且未开启第三方消息类型").
Proof.
  intros Ht Hn He Ho. unfold _msg_parameter_validation_body. rewrite Ht, Ho.
  destruct msg_type; try discriminate; reflexivity.
Qed.

Lemma validation_passes self server_type msg_type title text image userid :
  _test self = false ->
  is_None msg_type = false ->
  is_enum msg_type = false ->
  _other_msgtypes self = true ->
  snd (_msg_parameter_validation_body self server_type msg_type title text image userid)
  = inr (or_default title (PyStr ("【" ++ plugin_name ++ "】")),
         or_default text (PyStr ""),
         or_default image (PyStr ""),
         or_default userid (PyStr ""),
         msg_type).
Proof.
  intros Ht Hn He Ho. unfold _msg_parameter_validation_body. rewrite Ht, Ho.
  destruct msg_type; try discriminate; reflexivity.
Qed.

(** C7, at the input that contradicts it: an event without a type on a plain
    run with the switch off.  Its type is no enum member, yet validation
    passes, with the empty string as type, and the attempt goes on to open a
    connection. *)
Lemma absent_type_is_accepted :
  snd (_msg_parameter_validation_body main_only "主"
         PyNone (PyStr "title") (PyStr "text") PyNone PyNone)
  = inr (PyStr "title", PyStr "text", PyStr "", PyStr "", PyStr "")
  /\ existsb ev_opens_connection
       (trace_of friendly_world
          (_send_to_smtp main_only 0 "主" PyNone (PyStr "title") (PyStr "text")
             PyNone PyNone) tt) = true.
Proof. split; vm_compute; reflexivity. Qed.

(** C7, as the code has it.  On a plain run, for a message type that is
    present and is no enum member: with the switch off validation raises,
    the attempt returns False without a single library call, and so does the
    whole dispatch; with the switch on validation returns the type as it
    came and the attempt goes on to open the connection of its server. *)
Theorem unrecognized_type_gate :
  forall (W : Type) (h : handler libcall W) (w : W) (self : Self)
         (secondary : bool) (server_type : string)
         (msg_type title text image userid : pyval),
    _test self = false ->
    is_None msg_type = false ->
    is_enum msg_type = false ->
    let validation :=
      _msg_parameter_validation self server_type msg_type title text image userid in
    let one_attempt :=
      _send_to_smtp self (if secondary then 1 else 0) server_type
        msg_type title text image userid in
    (_other_msgtypes self = false ->
     result_of h validation w
     = inl (Exception_
              "模块运行失败 - 原因 - 邮件变量校验失败 - 原因 - 接收到不被支持的消息类型，且未开启第三方消息类型")
     /\ calls (trace_of h one_attempt w) = []
     /\ result_of h one_attempt w = inr false
     /\ calls (trace_of h (master_program self title text msg_type userid image) w) = [])
    /\ (_other_msgtypes self = true ->
        result_of h validation w
        = inr (or_default title (PyStr ("【" ++ plugin_name ++ "】")),
               or_default text (PyStr ""),
               or_default image (PyStr ""),
               or_default userid (PyStr ""),
               msg_type)
        /\ exists rest,
             calls (trace_of h one_attempt w)
             = EvCall (first_call (conn_of self secondary))
                 (fst (h _ (first_call (conn_of self secondary)) w)) :: rest).
Proof.
  intros W h w self secondary server_type msg_type title text image userid
         Ht Hn He validation one_attempt.
  subst validation one_attempt. split; intros Ho.
  - assert (Hsilent : forall (sec : bool) (st : string) (w0 : W),
               calls (trace_of h (_send_to_smtp self (if sec then 1 else 0) st
                                    msg_type title text image userid) w0) = []
               /\ result_of h (_send_to_smtp self (if sec then 1 else 0) st
                                 msg_type title text image userid) w0 = inr false).
    { intros sec st w0.
      pose proof (run_open h self sec st msg_type title text image userid w0) as Hopen.
      cbv zeta in Hopen.
      rewrite (validation_rejects self st msg_type title text image userid Ht Hn He Ho)
        in Hopen.
      destruct Hopen as (Hc & Hw & Hr).
      destruct (run_send_to_smtp h self (if sec then 1 else 0) st
                  msg_type title text image userid w0) as (rest & Hcalls & Hfail).
      destruct (Hfail _ Hr) as (-> & _ & Hres).
      rewrite Hcalls, Hc, Hres. split; reflexivity. }
    repeat split.
    + destruct (run_validation h self server_type msg_type title text image userid w)
        as (_ & _ & Hr).
      rewrite Hr, log_result_inr.
      rewrite (validation_rejects self server_type msg_type title text image userid
                 Ht Hn He Ho).
      reflexivity.
    + apply Hsilent.
    + apply Hsilent.
    + unfold master_program. apply master_program_no_calls.
      intros sec st w0. apply Hsilent.
  - split.
    + destruct (run_validation h self server_type msg_type title text image userid w)
        as (_ & _ & Hr).
      rewrite Hr, log_result_inr.
      rewrite (validation_passes self server_type msg_type title text image userid
                 Ht Hn He Ho).
      reflexivity.
    + pose proof (run_open h self secondary server_type msg_type title text image userid w)
        as Hopen.
      cbv zeta in Hopen.
      rewrite (validation_passes self server_type msg_type title text image userid
                 Ht Hn He Ho) in Hopen.
      destruct Hopen as (Hc & _ & _).
      destruct (run_send_to_smtp h self (if secondary then 1 else 0) server_type
                  msg_type title text image userid w) as (rest & Hcalls & _).
      destruct (run_connect h self (conn_of self secondary) w) as (_ & (rest' & Hfirst) & _).
      rewrite Hcalls, Hc, Hfirst. eexists. reflexivity.
Qed.

Lemma unrecognized_type_gate_witness :
  (result_of friendly_world
     (_msg_parameter_validation main_only "主"
        (PyStr "Custom") (PyStr "title") (PyStr "text") PyNone PyNone) tt
   = inl (Exception_
            "模块运行失败 - 原因 - 邮件变量校验失败 - 原因 - 接收到不被支持的消息类型，且未开启第三方消息类型")
   /\ calls (trace_of friendly_world
               (_send_to_smtp main_only 0 "主"
                  (PyStr "Custom") (PyStr "title") (PyStr "text") PyNone PyNone) tt) = []
   /\ result_of friendly_world
        (_send_to_smtp main_only 0 "主"
           (PyStr "Custom") (PyStr "title") (PyStr "text") PyNone PyNone) tt = inr false
   /\ calls (trace_of friendly_world
               (master_program main_only (PyStr "title") (PyStr "text") (PyStr "Custom")
                  PyNone PyNone) tt) = [])
  /\ (result_of friendly_world
        (_msg_parameter_validation (with_msgtypes main_only [] true) "主"
           (PyStr "Custom") (PyStr "title") (PyStr "text") PyNone PyNone) tt
      = inr (PyStr "title", PyStr "text", PyStr "", PyStr "", PyStr "Custom")
      /\ exists rest,
           calls (trace_of friendly_world
                    (_send_to_smtp (with_msgtypes main_only [] true) 0 "主"
                       (PyStr "Custom") (PyStr "title") (PyStr "text") PyNone PyNone) tt)
           = EvCall (SMTP_new (PyStr "smtp.example.com") (PyInt 25)) (inr 0%nat) :: rest).
Proof.
  split.
  - exact (proj1 (@unrecognized_type_gate unit friendly_world tt main_only false "主"
                    (PyStr "Custom") (PyStr "title") (PyStr "text") PyNone PyNone
                    eq_refl eq_refl eq_refl) eq_refl).
  - exact (proj2 (@unrecognized_type_gate unit friendly_world tt
                    (with_msgtypes main_only [] true) false "主"
                    (PyStr "Custom") (PyStr "title") (PyStr "text") PyNone PyNone
                    eq_refl eq_refl eq_refl) eq_refl).
Defined.

(** * Configuration and connection *)

(** C3, at the input that contradicts it.  The settings of a server are read
    as they are, unset fields included: [_get_dict_value] returns them for
    either server and never raises.  With the main server complete but for
    its password, the attempt goes on to open a connection to that server. *)
Theorem incomplete_configuration_not_detected :
  forall (W : Type) (h : handler libcall W) (w : W) (self : Self)
         (server_type : string) (secondary : bool),
    result_of h (_get_dict_value self server_type
                   (if secondary then "secondary" else "main")) w
    = inr (conn_of self secondary)
    /\ _password (conn_of no_password false) = PyNone
    /\ exists rest,
         calls (trace_of h
                  (_send_to_smtp no_password 0 "主" (PyEnum Plugin)
                     (PyStr "title") (PyStr "text") PyNone PyNone) w)
         = EvCall (SMTP_new (PyStr "smtp.example.com") (PyInt 25))
             (fst (h _ (SMTP_new (PyStr "smtp.example.com") (PyInt 25)) w)) :: rest.
Proof.
  intros W h w self server_type secondary. split; [| split].
  - apply run_get_dict_value.
  - reflexivity.
  - pose proof (run_open h no_password false "主" (PyEnum Plugin)
                  (PyStr "title") (PyStr "text") PyNone PyNone w) as Hopen.
    cbv zeta in Hopen. cbn [snd _msg_parameter_validation_body no_password example_config
                              _test] in Hopen.
    destruct Hopen as (Hc & _ & _).
    destruct (run_send_to_smtp h no_password 0 "主" (PyEnum Plugin)
                (PyStr "title") (PyStr "text") PyNone PyNone w) as (rest & Hcalls & _).
    destruct (run_connect h no_password (conn_of no_password false) w)
      as (_ & (rest' & Hfirst) & _).
    rewrite Hcalls, Hc, Hfirst. eexists. reflexivity.
Qed.

Lemma build_needs_login (l1 rest pre post : list levent) (ev : levent) :
  (l1 ++ rest)%list = (pre ++ ev :: post)%list ->
  forallb (fun ev => negb (ev_is_build ev)) l1 = true ->
  ev_is_build ev = true ->
  existsb ev_is_login_ok l1 = true \/ rest = [] ->
  existsb ev_is_login_ok pre = true.
Proof.
  revert pre. induction l1 as [| a l1 IH]; intros pre Heq Hnb Hb Hor.
  - destruct Hor as [Hex | ->]; [discriminate Hex |].
    destruct pre; discriminate Heq.
  - simpl in Hnb. apply andb_true_iff in Hnb as [Ha Hnb].
    destruct pre as [| b pre].
    + simpl in Heq. injection Heq as Hab _. subst a.
      rewrite Hb in Ha. discriminate Ha.
    + simpl in Heq. injection Heq as Hab Heq. subst b.
      simpl. destruct (ev_is_login_ok a) eqn:Hl; [reflexivity |].
      apply IH; try assumption.
      simpl in Hor. rewrite Hl in Hor. exact Hor.
Qed.

(** C8.  The connection stage makes the calls of the configured mode and no
    other: a stage that returns session [s] has made exactly [mode_calls],
    each answered without an exception, and a stage that raises has made an
    initial part of them, the last of which raised.  An attempt whose
    validation passed starts with the connection stage for the settings of
    its server, and in every attempt a call of message construction comes
    after a login the server accepted. *)
Theorem transport_follows_mode :
  forall (W : Type) (h : handler libcall W) (w : W) (self : Self) (conn : Conn)
         (secondary : bool) (server_type : string)
         (msg_type title text image userid : pyval),
    let c := _connect_to_smtp_server self conn in
    let a := _send_to_smtp self (if secondary then 1 else 0) server_type
               msg_type title text image userid in
    (forall s, result_of h c w = inr s ->
               sigs (trace_of h c w) = mode_calls conn s
               /\ forallb answered_ok (calls (trace_of h c w)) = true)
    /\ (forall e, result_of h c w = inl e ->
                  (exists s rest, (sigs (trace_of h c w) ++ rest)%list = mode_calls conn s)
                  /\ forallb answered_ok (calls (trace_of h c w)) = false)
    /\ (forall vals,
          snd (_msg_parameter_validation_body self server_type
                 msg_type title text image userid) = inr vals ->
          exists rest,
            calls (trace_of h a w)
            = (calls (trace_of h (_connect_to_smtp_server self (conn_of self secondary)) w)
               ++ rest)%list)
    /\ (forall pre ev post,
          calls (trace_of h a w) = (pre ++ ev :: post)%list ->
          ev_is_build ev = true ->
          existsb ev_is_login_ok pre = true).
Proof.
  intros W h w self conn secondary server_type msg_type title text image userid c a.
  subst c a.
  pose proof (run_connect h self conn w) as Hconn. cbv zeta in Hconn.
  destruct Hconn as (_ & _ & Hconn).
  pose proof (run_open h self secondary server_type msg_type title text image userid w)
    as Hopen. cbv zeta in Hopen.
  destruct (run_send_to_smtp h self (if secondary then 1 else 0) server_type
              msg_type title text image userid w) as (rest & Hcalls & Hfail).
  split; [| split; [| split]].
  - intros s Hs. rewrite Hs in Hconn. destruct Hconn as (H1 & H2 & _). split; assumption.
  - intros e He. rewrite He in Hconn. exact Hconn.
  - intros vals Hv. rewrite Hv in Hopen. destruct Hopen as (Hc & _ & _).
    exists rest. rewrite Hcalls, Hc. reflexivity.
  - intros pre ev post Heq Hb. rewrite Hcalls in Heq.
    destruct (snd (_msg_parameter_validation_body self server_type
                     msg_type title text image userid)) as [e | vals].
    + destruct Hopen as (Hc & _ & Hr).
      destruct (Hfail _ Hr) as (-> & _ & _).
      rewrite Hc in Heq. destruct pre; discriminate Heq.
    + destruct Hopen as (Hc & _ & Hr). rewrite Hc in Heq.
      pose proof (run_connect h self (conn_of self secondary) w) as Hc2.
      cbv zeta in Hc2. destruct Hc2 as (Hnb & _ & Hres).
      eapply build_needs_login; [exact Heq | exact Hnb | exact Hb |].
      revert Hr Hres.
      destruct (result_of h (_connect_to_smtp_server self (conn_of self secondary)) w)
        as [e | s]; intros Hr Hres.
      * right. destruct (Hfail _ Hr) as (-> & _ & _). reflexivity.
      * left. apply Hres.
Qed.

Lemma transport_follows_mode_witness :
  sigs (trace_of friendly_world (_connect_to_smtp_server main_only (example_conn "tls")) tt)
  = [existT _ _ (SMTP_new (PyStr "smtp.example.com") (PyInt 25));
     existT _ _ (starttls 0%nat);
     existT _ _ (ehlo 0%nat (PyStr "smtp.example.com"));
     existT _ _ (login 0%nat (PyStr "bot@example.com") (PyStr "secret"))]
  /\ forallb answered_ok
       (calls (trace_of friendly_world
                 (_connect_to_smtp_server main_only (example_conn "tls")) tt)) = true.
Proof.
  exact (proj1 (@transport_follows_mode unit friendly_world tt main_only
                  (example_conn "tls") false "主"
                  (PyEnum Plugin) (PyStr "title") (PyStr "text") PyNone PyNone)
           0%nat eq_refl).
Defined.

(** * Image embedding *)

Lemma existsb_failed_constructor_calls (tr : list levent) :
  existsb failed_body_constructor (calls tr) = existsb failed_body_constructor tr.
Proof.
  induction tr as [| [lv l | X c x] tr IH]; simpl; [reflexivity | exact IH |].
  now rewrite IH.
Qed.

Section Embedding.

Context {W : Type} (h : handler libcall W).

Ltac answer :=
  match goal with
  | |- context [@h ?X ?c ?w] =>
      let e := fresh "e" in
      let x := fresh "x" in
      let w' := fresh "w" in
      destruct (@h X c w) as [[e | x] w'] eqn:?
  end.

(** Whatever goes wrong inside the step ends as a line of level 2. *)
Lemma embed_failure self image message (w : W) (e : exn) :
  let p := ___msg_build_email_body_embed_image self image message in
  _send_image self = true ->
  truthy image = true ->
  result_of h (embed_image_try image message) w = inl e ->
  result_of h p w = inr message
  /\ trace_of h p w
     = ((if _log_more self then [EvLog info "状态 - 图片嵌入模块 - 开始运行"] else [])
        ++ trace_of h (embed_image_try image message) w
        ++ [EvLog info ("警告 - 图片嵌入模块 - 出现错误，跳过嵌入 - 原因 - "
                        ++ (if isinstance_exn e TypeError
                            then "接受到非二进制文件，无法将图片文件转码"
                            else e_str e));
            EvLog info "状态 - 图片嵌入模块 - 模块运行成功"])%list.
Proof.
  intros p Hs Ht He; subst p.
  unfold ___msg_build_email_body_embed_image, log, trace_of, result_of.
  rewrite Hs, Ht.
  unfold result_of in He.
  destruct (_log_more self); cbn [logger_info bind run];
    rewrite run_bind, run_attempt, run_bind, run_attempt, run_try_catch;
    destruct (run h (embed_image_try image message) w) as [[tr1 w1] r];
    simpl in He; subst r;
    destruct (isinstance_exn e TypeError); cbn;
    rewrite ?app_nil_r, <- ?app_assoc; split; reflexivity.
Qed.

(** Sending of images disabled, or no image: the message as it is, a line
    of level 1 (shown only with [_log_more]) and no call. *)
Lemma embed_noop self image message (w : W) :
  let p := ___msg_build_email_body_embed_image self image message in
  _send_image self = false \/ truthy image = false ->
  result_of h p w = inr message
  /\ trace_of h p w
     = ((if _log_more self
         then [EvLog info "状态 - 图片嵌入模块 - 开始运行";
               EvLog info ("汇报 - 图片嵌入模块 - "
                           ++ (if _send_image self
                               then "未传入图片参数，跳过图片嵌入"
                               else "未开启发送图片，抛弃图片数据"))]
         else [])
        ++ [EvLog info "状态 - 图片嵌入模块 - 模块运行成功"])%list.
Proof.
  intros p Hor; subst p.
  unfold ___msg_build_email_body_embed_image, log, trace_of, result_of.
  destruct (_send_image self), (truthy image), (_log_more self);
    try (destruct Hor as [Hor | Hor]; discriminate Hor);
    split; reflexivity.
Qed.

Lemma embed_never_raises self image message (w : W) :
  exists m', result_of h (___msg_build_email_body_embed_image self image message) w
             = inr m'.
Proof.
  unfold ___msg_build_email_body_embed_image.
  rewrite result_of_log.
  destruct (_send_image self); [| eexists; reflexivity].
  destruct (truthy image); [| eexists; reflexivity].
  rewrite result_of_bind, result_of_attempt.
  destruct (result_of h _ w) as [e | m]; eexists; reflexivity.
Qed.

(** The body stage raises only when one of its own constructors does. *)
Lemma body_raises_by_constructor self message image msg_html (w : W) (e : exn) :
  let p := __msg_build_email_body self message image msg_html in
  result_of h p w = inl e ->
  existsb failed_body_constructor (trace_of h p w) = true.
Proof.
  intros p Hres; subst p. unfold __msg_build_email_body in *.
  rewrite result_of_log in Hres.
  rewrite <- existsb_failed_constructor_calls, calls_log,
    existsb_failed_constructor_calls.
  rewrite result_of_bind, result_of_attempt in Hres.
  rewrite trace_of_bind, trace_of_attempt, result_of_attempt.
  rewrite existsb_app. apply orb_true_iff. left.
  match type of Hres with
  | context [result_of h ?inner w] =>
      assert (Hinner : forall e0, result_of h inner w = inl e0 ->
                                  existsb failed_body_constructor (trace_of h inner w) = true);
      [| destruct (result_of h inner w) as [e0 | m] eqn:Hr;
         [apply (Hinner e0 eq_refl) | discriminate Hres]]
  end.
  intros e0.
  unfold result_of, trace_of, lcall, call. cbn [bind run].
  answer; [intros _; reflexivity |].
  cbn [bind run]. rewrite run_bind.
  destruct (embed_never_raises self image (attach message MIMEMultipart_alternative) w0)
    as (m' & Hm). unfold result_of in Hm.
  destruct (run h (___msg_build_email_body_embed_image self image
                     (attach message MIMEMultipart_alternative)) w0) as [[tr1 w1] r1].
  simpl in Hm; subst r1. cbn [bind run].
  answer; cbn; [intros _ | intros H0; discriminate H0].
  rewrite existsb_app. simpl. apply orb_true_r.
Qed.

End Embedding.


(** C2, at inputs that contradict it, with image sending enabled.  A raw
    bytes payload is not a string, so no branch of the classification runs
    and [image_data] stays None: nothing is embedded, no call is made, and
    the step ends with a warning.  A string that has no network scheme,
    names no file and matches the base64 pattern is not decoded either:
    the match is asked for a group the pattern does not name. *)
Theorem raw_bytes_and_data_uri_not_embedded :
  forall (W : Type) (h : handler libcall W) (w : W) (self : Self) (message : Mime),
    _send_image self = true ->
    (forall b,
       truthy (PyBytes b) = true ->
       let p := ___msg_build_email_body_embed_image self (PyBytes b) message in
       result_of h p w = inr message
       /\ calls (trace_of h p w) = []
       /\ In (EvLog info
                "警告 - 图片嵌入模块 - 出现错误，跳过嵌入 - 原因 - 'NoneType' object has no attribute 'add_header'")
            (trace_of h p w))
    /\ (forall s w1 w2 w3,
          truthy (PyStr s) = true ->
          h _ (scheme_uses_netloc s) w = (inr false, w1) ->
          h _ (os_path_isfile s) w1 = (inr false, w2) ->
          h _ (base64_regex_match s) w2 = (inr true, w3) ->
          let p := ___msg_build_email_body_embed_image self (PyStr s) message in
          result_of h p w = inr message
          /\ exists reason,
               In (EvLog info
                     ("警告 - 图片嵌入模块 - 出现错误，跳过嵌入 - 原因 - 解码 Base64 数据时出错："
                      ++ reason))
                  (trace_of h p w)).
Proof.
  intros W h w self message Hs. split.
  - intros b Hb p; subst p.
    destruct (embed_failure h self (PyBytes b) message w
                (e := attribute_error "NoneType" "add_header") Hs Hb eq_refl)
      as (Hr & Htr).
    rewrite Hr, Htr. split; [reflexivity | split].
    + destruct (_log_more self); reflexivity.
    + apply in_or_app. right. simpl. left. reflexivity.
  - intros s w1 w2 w3 Ht H1 H2 H3 p; subst p.
    assert (He : exists reason,
               result_of h (embed_image_try (PyStr s) message) w
               = inl (Exception_ ("解码 Base64 数据时出错：" ++ reason))).
    { unfold result_of, embed_image_try, lcall, call. cbn [bind run].
      rewrite H1. cbn [bind run]. rewrite H2. cbn [bind run]. rewrite H3.
      cbn [bind run try_catch].
      destruct (h bool (base64_regex_match s) w3) as [[e | [|]] w4];
        eexists; reflexivity. }
    destruct He as (reason & He).
    destruct (embed_failure h self (PyStr s) message w Hs Ht He) as (Hr & Htr).
    split; [exact Hr |].
    exists reason. rewrite Htr.
    apply in_or_app. right. apply in_or_app. right. left. reflexivity.
Qed.

Lemma raw_bytes_and_data_uri_not_embedded_witness :
  (result_of data_uri_world
     (___msg_build_email_body_embed_image main_only (PyBytes "GIF89a") MIMEMultipart) tt
   = inr MIMEMultipart
   /\ calls (trace_of data_uri_world
               (___msg_build_email_body_embed_image main_only (PyBytes "GIF89a")
                  MIMEMultipart) tt) = []
   /\ In (EvLog info
            "警告 - 图片嵌入模块 - 出现错误，跳过嵌入 - 原因 - 'NoneType' object has no attribute 'add_header'")
        (trace_of data_uri_world
           (___msg_build_email_body_embed_image main_only (PyBytes "GIF89a")
              MIMEMultipart) tt))
  /\ (result_of data_uri_world
        (___msg_build_email_body_embed_image main_only
           (PyStr "data:image/png;base64,iVBORw0KGgo=") MIMEMultipart) tt
      = inr MIMEMultipart
      /\ exists reason,
           In (EvLog info
                 ("警告 - 图片嵌入模块 - 出现错误，跳过嵌入 - 原因 - 解码 Base64 数据时出错："
                  ++ reason))
              (trace_of data_uri_world
                 (___msg_build_email_body_embed_image main_only
                    (PyStr "data:image/png;base64,iVBORw0KGgo=") MIMEMultipart) tt)).
Proof.
  split.
  - exact (proj1 (@raw_bytes_and_data_uri_not_embedded unit data_uri_world tt main_only
                    MIMEMultipart eq_refl) "GIF89a" eq_refl).
  - exact (proj2 (@raw_bytes_and_data_uri_not_embedded unit data_uri_world tt main_only
                    MIMEMultipart eq_refl)
             "data:image/png;base64,iVBORw0KGgo=" tt tt tt eq_refl eq_refl eq_refl eq_refl).
Defined.

(** * What each stage may call *)

Section OnlyCalls.

Context {E : Type -> Type}.
Variable Q : forall X, E X -> bool.

Lemma only_calls_bind {A B} (p : prog E A) (f : A -> prog E B) :
  only_calls Q p -> (forall a, only_calls Q (f a)) -> only_calls Q (bind p f).
Proof.
  intros Hp Hf. induction p as [a | e | lv l k IH | X c k IH]; simpl in *.
  - apply Hf.
  - exact I.
  - apply IH, Hp.
  - destruct Hp as [Hc Hk]. split; [exact Hc |]. intros r. apply IH, Hk.
Qed.

Lemma only_calls_attempt {A} (p : prog E A) :
  only_calls Q p -> only_calls Q (attempt p).
Proof.
  intros Hp. induction p as [a | e | lv l k IH | X c k IH]; simpl in *; try exact I.
  - apply IH, Hp.
  - destruct Hp as [Hc Hk]. split; [exact Hc |]. intros r. apply IH, Hk.
Qed.

Lemma only_calls_try_catch {A} (p : prog E A) (g : exn -> prog E A) :
  only_calls Q p -> (forall e, only_calls Q (g e)) -> only_calls Q (try_catch p g).
Proof.
  intros Hp Hg. induction p as [a | e | lv l k IH | X c k IH]; simpl in *.
  - exact I.
  - apply Hg.
  - apply IH, Hp.
  - destruct Hp as [Hc Hk]. split; [exact Hc |]. intros r. apply IH, Hk.
Qed.

Lemma only_calls_log {A} self mode_name (body : prog E (log_container * (exn + A))) :
  only_calls Q body -> only_calls Q (log self mode_name body).
Proof.
  intros Hb. unfold log.
  apply only_calls_bind; [destruct (_log_more self); exact I |].
  intros _. apply only_calls_bind; [apply only_calls_attempt, Hb |].
  intros [e | [logs0 [e | a]]]; cbn -[String.append];
    try (destruct (_log_more self); cbn; repeat split; exact I).
  match goal with
  | |- context [match ?st with Some _ => logger_info _ | None => Ret tt end] =>
      destruct st
  end; cbn; repeat split; exact I.
Qed.

Lemma only_calls_trace {W A} (h : handler E W) (p : prog E A) (w : W) :
  only_calls Q p -> forallb (ev_satisfies Q) (trace_of h p w) = true.
Proof.
  unfold trace_of. revert w.
  induction p as [a | e | lv l k IH | X c k IH]; intros w Hp; simpl in *;
    try reflexivity.
  - specialize (IH w Hp). destruct (run h k w) as [[tr w1] r]. exact IH.
  - destruct Hp as [Hc Hk]. destruct (h X c w) as [x w1].
    specialize (IH x w1 (Hk x)). destruct (run h (k x) w1) as [[tr w2] r].
    simpl in *. rewrite Hc. exact IH.
Qed.

End OnlyCalls.

Ltac only_calls_step :=
  first
    [ exact I
    | reflexivity
    | apply only_calls_log
    | apply only_calls_bind
    | apply only_calls_attempt
    | apply only_calls_try_catch
    | progress intros
    | match goal with
      | |- _ /\ _ => split
      | |- only_calls _ (if ?b then _ else _) => destruct b
      | |- only_calls _ (match ?x with _ => _ end) => destruct x
      | |- only_calls _ (let (_, _) := ?x in _) => destruct x
      end
    | progress (unfold lcall, call, getitem; cbn [only_calls]) ].

Ltac only_calls_auto := repeat only_calls_step.

Lemma validation_calls_nothing self server_type msg_type title text image userid :
  only_calls (@no_call libcall)
    (_msg_parameter_validation self server_type msg_type title text image userid).
Proof. unfold _msg_parameter_validation. only_calls_auto. Qed.

Lemma get_dict_value_calls_nothing self server_type smtp_type :
  only_calls (@no_call libcall) (_get_dict_value self server_type smtp_type).
Proof. unfold _get_dict_value. only_calls_auto. Qed.

Lemma receiver_and_sender_calls_nothing self conn :
  only_calls (@no_call libcall) (_get_receiver_and_sender self conn).
Proof. unfold _get_receiver_and_sender. only_calls_auto. Qed.

Lemma connect_calls self conn :
  only_calls (@is_connect_call) (_connect_to_smtp_server self conn).
Proof. unfold _connect_to_smtp_server. only_calls_auto. Qed.

Lemma embed_calls self image message :
  only_calls (@is_build) (___msg_build_email_body_embed_image self image message).
Proof.
  unfold ___msg_build_email_body_embed_image, embed_image_try. only_calls_auto.
Qed.

Lemma build_email_calls self title text image userid msg_type sender_name sender_mail :
  only_calls (@is_build)
    (_msg_build_email self title text image userid msg_type sender_name sender_mail).
Proof.
  unfold _msg_build_email, __msg_build_read_email_template, __msg_build_email_Header,
    __msg_build_email_body.
  only_calls_auto; apply embed_calls.
Qed.

Lemma only_calls_weaken {E : Type -> Type} {A} (Q Q' : forall X, E X -> bool)
    (p : prog E A) :
  (forall X (c : E X), Q X c = true -> Q' X c = true) ->
  only_calls Q p -> only_calls Q' p.
Proof.
  intros HQ. induction p as [a | e | lv l k IH | X c k IH]; simpl; try exact id.
  - exact IH.
  - intros [Hc Hk]. split; [apply HQ, Hc |]. intros r. apply IH, Hk.
Qed.

Lemma nothing_weaken {A} (Q : forall X, libcall X -> bool) (p : lprog A) :
  only_calls (@no_call libcall) p -> only_calls Q p.
Proof. apply only_calls_weaken. intros X c Hc; discriminate Hc. Qed.

Lemma open_calls self v server_type msg_type title text image userid :
  only_calls (@is_connect_call)
    (_send_to_smtp_open self v server_type msg_type title text image userid).
Proof.
  unfold _send_to_smtp_open.
  apply only_calls_bind; [only_calls_auto |]. intros smtp_type.
  apply only_calls_bind; [apply nothing_weaken, validation_calls_nothing |]. intros vals.
  apply only_calls_bind; [apply nothing_weaken, get_dict_value_calls_nothing |].
  intros conn.
  apply only_calls_bind; [apply connect_calls |]. intros server. exact I.
Qed.

Lemma send_msg_calls self server message sender_mail receiver_list server_type :
  only_calls (@is_sendmail)
    (_send_msg_to_smtp self server message sender_mail receiver_list server_type).
Proof. unfold _send_msg_to_smtp. only_calls_auto. Qed.

Lemma deliver_calls self server_type title text image userid msg_type conn server :
  only_calls (@is_build_or_sendmail)
    (_send_to_smtp_deliver self server_type title text image userid msg_type conn server).
Proof.
  unfold _send_to_smtp_deliver.
  apply only_calls_bind; [apply nothing_weaken, receiver_and_sender_calls_nothing |].
  intros [[receiver_list sender_name] sender_mail].
  apply only_calls_bind.
  - apply (only_calls_weaken (@is_build)); [| apply build_email_calls].
    intros X c Hc. unfold is_build_or_sendmail. unfold is_build in Hc. now rewrite Hc.
  - intros message.
    apply (only_calls_weaken (@is_sendmail)); [| apply send_msg_calls].
    intros X c Hc. unfold is_build_or_sendmail. rewrite Hc. apply orb_true_r.
Qed.

Lemma existsb_calls (P : levent -> bool) (tr : list levent) :
  (forall lv l, P (EvLog lv l) = false) ->
  existsb P (calls tr) = existsb P tr.
Proof.
  intros HP. induction tr as [| [lv l | X c x] tr IH]; simpl;
    [reflexivity | now rewrite HP | now rewrite IH].
Qed.

Lemma satisfies_excludes (Q : forall X, libcall X -> bool) (P : levent -> bool)
    (tr : list levent) :
  (forall X (c : libcall X) x, Q X c = true -> P (EvCall c x) = false) ->
  (forall lv l, P (EvLog lv l) = false) ->
  forallb (ev_satisfies Q) tr = true ->
  existsb P tr = false.
Proof.
  intros HQ HL. induction tr as [| ev tr IH]; simpl; [reflexivity |].
  intros H. apply andb_true_iff in H as [Hev Htr].
  rewrite (IH Htr), orb_false_r.
  destruct ev as [lv l | X c x]; [apply HL | apply HQ, Hev].
Qed.

Section Attempt.

Context {W : Type} (h : handler libcall W).

(** An attempt whose first part returned: the calls of the first part, those
    of the second, and a [quit] when the second part raised. *)
Lemma run_send_to_smtp_after_open self v server_type msg_type title text image userid
    (w : W) title' text' image' userid' msg_type' conn server :
  let p := _send_to_smtp self v server_type msg_type title text image userid in
  let o := _send_to_smtp_open self v server_type msg_type title text image userid in
  let d := _send_to_smtp_deliver self server_type title' text' image' userid' msg_type'
             conn server in
  let w1 := world_of h o w in
  let w2 := world_of h d w1 in
  result_of h o w = inr (title', text', image', userid', msg_type', conn, server) ->
  calls (trace_of h p w)
  = (calls (trace_of h o w) ++ calls (trace_of h d w1)
     ++ match result_of h d w1 with
        | inr _ => []
        | inl _ => [EvCall (quit server) (fst (@h _ (quit server) w2))]
        end)%list
  /\ result_of h p w
     = match result_of h d w1 with
       | inr b => inr (if b then true else false)
       | inl _ =>
           match fst (@h _ (quit server) w2) with
           | inl e' => inl (Exception_ ("模块运行失败 - 原因 - " ++ e_str e'))
           | inr _ => inr false
           end
       end.
Proof.
  intros p o d w1 w2 Ho. subst p o d w1 w2. unfold _send_to_smtp.
  rewrite calls_log, result_of_log.
  rewrite trace_of_bind, result_of_bind, world_of_attempt, trace_of_attempt,
    result_of_attempt, calls_app.
  rewrite Ho. cbv iota beta.
  rewrite trace_of_bind, result_of_bind, world_of_attempt, trace_of_attempt,
    result_of_attempt, calls_app.
  destruct (result_of h (_send_to_smtp_deliver self server_type title' text' image'
                           userid' msg_type' conn server) (world_of h _ w)) as [e | b].
  - unfold trace_of at 3. unfold result_of at 1. unfold lcall, call.
    cbn [bind attempt run].
    destruct (@h _ (quit server) _) as [[e' | x] w3]; cbn; split; reflexivity.
  - split; reflexivity.
Qed.

End Attempt.

(** * What a trace shows *)

Section Collect.

Context {E : Type -> Type} {B : Type} (f : event E -> option B).

Lemma collect_app (t1 t2 : list (event E)) :
  collect f (t1 ++ t2)%list = (collect f t1 ++ collect f t2)%list.
Proof. unfold collect. apply flat_map_app. Qed.

Lemma collect_calls (tr : list (event E)) :
  (forall lv l, f (EvLog lv l) = None) ->
  collect f (calls tr) = collect f tr.
Proof.
  intros Hf. induction tr as [| [lv l | X c x] tr IH]; simpl;
    [reflexivity | now rewrite Hf | now rewrite IH].
Qed.

Lemma collect_excluded (Q : forall X, E X -> bool) (tr : list (event E)) :
  (forall X (c : E X) x, Q X c = true -> f (EvCall c x) = None) ->
  (forall lv l, f (EvLog lv l) = None) ->
  forallb (ev_satisfies Q) tr = true ->
  collect f tr = [].
Proof.
  intros HQ HL. induction tr as [| ev tr IH]; simpl; [reflexivity |].
  intros H. apply andb_true_iff in H as [Hev Htr]. rewrite (IH Htr), app_nil_r.
  destruct ev as [lv l | X c x]; [now rewrite HL | now rewrite (HQ _ _ _ Hev)].
Qed.

End Collect.

Section Returns.

Context {E : Type -> Type} {W : Type} (h : handler E W).

Lemma bind_returns {A B} (p : prog E A) (f : A -> prog E B) (w : W) (b : B) :
  result_of h (bind p f) w = inr b ->
  exists a,
    result_of h p w = inr a
    /\ result_of h (f a) (world_of h p w) = inr b
    /\ trace_of h (bind p f) w
       = (trace_of h p w ++ trace_of h (f a) (world_of h p w))%list
    /\ world_of h (bind p f) w = world_of h (f a) (world_of h p w).
Proof.
  rewrite result_of_bind, trace_of_bind, world_of_bind.
  destruct (result_of h p w) as [e | a]; [discriminate |].
  intros Hr. exists a. repeat split. exact Hr.
Qed.

Lemma bind_raises {A B} (p : prog E A) (f : A -> prog E B) (w : W) (e : exn) :
  result_of h (bind p f) w = inl e ->
  (result_of h p w = inl e /\ trace_of h (bind p f) w = trace_of h p w)
  \/ exists a,
       result_of h p w = inr a
       /\ result_of h (f a) (world_of h p w) = inl e
       /\ trace_of h (bind p f) w
          = (trace_of h p w ++ trace_of h (f a) (world_of h p w))%list.
Proof.
  rewrite result_of_bind, trace_of_bind.
  destruct (result_of h p w) as [e' | a].
  - intros [= ->]. left. split; [reflexivity | apply app_nil_r].
  - intros Hr. right. exists a. repeat split. exact Hr.
Qed.

Lemma log_returns {A} self mode_name (body : prog E (log_container * (exn + A)))
    (w : W) (a : A) :
  result_of h (log self mode_name body) w = inr a ->
  exists logs, result_of h body w = inr (logs, inr a).
Proof.
  rewrite result_of_log.
  destruct (result_of h body w) as [e | [logs [e | a']]]; simpl; try discriminate.
  intros [= ->]. exists logs. reflexivity.
Qed.

End Returns.

Section Delivery.

Context {W : Type} (h : handler libcall W).

Ltac answer :=
  match goal with
  | |- context [@h ?X ?c ?w] =>
      let e := fresh "e" in
      let x := fresh "x" in
      let w' := fresh "w" in
      destruct (@h X c w) as [[e | x] w'] eqn:?
  end.

Ltac crunch :=
  repeat first
    [ progress cbn
    | answer
    | match goal with
      | |- context [if ?b then _ else _] => destruct b
      | |- context [let (_, _) := ?x in _] => is_var x; destruct x
      end ].

(** Transmission is one [sendmail] with the values it was given; it returns
    True when the server accepts and raises otherwise. *)
Lemma run_send_msg self server message sender_mail receiver_list server_type (w : W) :
  let p := _send_msg_to_smtp self server message sender_mail receiver_list server_type in
  calls (trace_of h p w)
  = [EvCall (sendmail server sender_mail receiver_list message)
       (fst (@h _ (sendmail server sender_mail receiver_list message) w))]
  /\ match fst (@h _ (sendmail server sender_mail receiver_list message) w) with
     | inr _ => result_of h p w = inr true
     | inl _ => exists e, result_of h p w = inl e
     end.
Proof.
  intro p; subst p. unfold _send_msg_to_smtp.
  rewrite calls_log, result_of_log.
  unfold trace_of, result_of, lcall, call. cbn [bind attempt try_catch run].
  answer; cbn [fst].
  - repeat match goal with
           | |- context [if ?b then _ else _] =>
               destruct b; cbn [bind attempt try_catch run]
           end;
      cbn; (split; [reflexivity | eexists; reflexivity]).
  - split; reflexivity.
Qed.

(** The embedding step returns the message it was given, or that message
    with one image part whose data was read from the file the image names. *)
Lemma run_embed self image message (w : W) :
  let p := ___msg_build_email_body_embed_image self image message in
  exists m',
    result_of h p w = inr m'
    /\ (m' = message
        \/ exists s data subtype,
             image = PyStr s
             /\ In (s, data) (files_read (trace_of h p w))
             /\ In (data, subtype) (images_built (trace_of h p w))
             /\ m' = attach message (image_part data subtype)).
Proof.
  intro p; subst p.
  unfold ___msg_build_email_body_embed_image, embed_image_try, log, trace_of, result_of,
    lcall, call, image_part.
  destruct (_send_image self), (truthy image), (_log_more self), image;
    crunch;
    (eexists; split; [reflexivity |]);
    first [ left; reflexivity
          | right; do 3 eexists; repeat split; simpl; auto ].
Qed.

(** The template stage returns the text that [str_format] made of the
    template it read and of the five values. *)
Lemma run_template self text image title userid msg_type (w : W) (html : string) :
  let p := __msg_build_read_email_template self text image title userid msg_type in
  result_of h p w = inr html ->
  exists content,
    rendered (trace_of h p w) = [(content, (text, image, title, userid, msg_type), html)].
Proof.
  intro p; subst p.
  unfold __msg_build_read_email_template, log, trace_of, result_of, lcall, call.
  destruct (_enabled_customizable_mail_template self), (_log_more self);
    crunch; intros Hr; try discriminate Hr; injection Hr as <-;
    eexists; reflexivity.
Qed.

(** The header stage drops every Subject and From the message had and adds
    the title and the sender. *)
Lemma run_header self message title sender_name sender_mail (w : W) (m' : Mime) :
  let p := __msg_build_email_Header self message title sender_name sender_mail in
  result_of h p w = inr m' ->
  m' = setitem
         (delitem (setitem (delitem message "Subject") "Subject" (HHeader title)) "From")
         "From" (HStr (py_str sender_name ++ " <" ++ py_str sender_mail ++ ">")).
Proof.
  intro p; subst p.
  unfold __msg_build_email_Header, log, result_of, lcall, call.
  destruct (_log_more self);
    crunch; intros Hr; try discriminate Hr; injection Hr as <-; reflexivity.
Qed.

End Delivery.

Lemma template_calls self text image title userid msg_type :
  only_calls (@is_template_call)
    (__msg_build_read_email_template self text image title userid msg_type).
Proof. unfold __msg_build_read_email_template. only_calls_auto. Qed.

Lemma header_calls self message title sender_name sender_mail :
  only_calls (@is_header_call)
    (__msg_build_email_Header self message title sender_name sender_mail).
Proof. unfold __msg_build_email_Header. only_calls_auto. Qed.

Lemma body_calls self message image msg_html :
  only_calls (@is_body_call) (__msg_build_email_body self message image msg_html).
Proof.
  unfold __msg_build_email_body, ___msg_build_email_body_embed_image, embed_image_try.
  only_calls_auto.
Qed.

Lemma files_read_calls (tr : list levent) : files_read (calls tr) = files_read tr.
Proof. apply collect_calls. reflexivity. Qed.

Lemma rendered_calls (tr : list levent) : rendered (calls tr) = rendered tr.
Proof. apply collect_calls. reflexivity. Qed.

Lemma sent_messages_calls (tr : list levent) : sent_messages (calls tr) = sent_messages tr.
Proof. apply collect_calls. reflexivity. Qed.

Lemma images_built_calls (tr : list levent) : images_built (calls tr) = images_built tr.
Proof. apply collect_calls. reflexivity. Qed.

Section Construction.

Opaque bind.

Context {W : Type} (h : handler libcall W).

(** The body stage adds the alternative part with the HTML text, and after
    it the image part when the embedding step attached one. *)
Lemma run_body self message image msg_html (w : W) (m' : Mime) :
  let p := __msg_build_email_body self message image msg_html in
  result_of h p w = inr m' ->
  m' = attach_to_part (attach message MIMEMultipart_alternative)
         (length (payload message)) (MIMEText msg_html)
  \/ exists s data subtype,
       image = PyStr s
       /\ In (s, data) (files_read (trace_of h p w))
       /\ In (data, subtype) (images_built (trace_of h p w))
       /\ m' = attach_to_part
                 (attach (attach message MIMEMultipart_alternative)
                    (image_part data subtype))
                 (length (payload message)) (MIMEText msg_html).
Proof.
  intros p Hr; subst p. unfold __msg_build_email_body in *.
  rewrite <- files_read_calls, <- images_built_calls, calls_log, files_read_calls,
    images_built_calls.
  apply log_returns in Hr as (logs & Hr).
  apply bind_returns in Hr as (r & Hin & Hr & _ & _).
  rewrite result_of_attempt in Hin. injection Hin as <-.
  rewrite trace_of_bind, trace_of_attempt.
  destruct (result_of h _ w) as [e | m] eqn:Hinner in Hr |- *;
    [discriminate Hr |].
  simpl in Hr. injection Hr as _ <-.
  apply bind_returns in Hinner as (u & _ & Hinner & Ht1 & _).
  apply bind_returns in Hinner as (mi & Hembed & Hinner & Ht2 & _).
  apply bind_returns in Hinner as (u' & _ & Hinner & _ & _).
  simpl in Hinner. injection Hinner as <-.
  destruct (run_embed h self image (attach message MIMEMultipart_alternative)
              (world_of h (lcall (MIMEMultipart_new "alternative")) w))
    as (m'' & Hres & Hcases).
  cbv zeta in Hres, Hcases. rewrite Hembed in Hres. injection Hres as <-.
  destruct Hcases as [-> | (s & data & subtype & -> & Hin & Him & ->)];
    [left; reflexivity |].
  right. exists s, data, subtype. repeat split.
  - unfold files_read. rewrite collect_app, Ht1, collect_app, Ht2, collect_app.
    apply in_or_app. left. apply in_or_app. right. apply in_or_app. left. exact Hin.
  - unfold images_built. rewrite collect_app, Ht1, collect_app, Ht2, collect_app.
    apply in_or_app. left. apply in_or_app. right. apply in_or_app. left. exact Him.
Qed.

(** The message that construction returns: the headers of a fresh message,
    the title as Subject, the sender as From, and a body holding the text the
    template gave, with an image part only for an image read from a file. *)
Lemma run_build self title text image userid msg_type sender_name sender_mail (w : W)
    (m : Mime) :
  let p := _msg_build_email self title text image userid msg_type sender_name sender_mail in
  result_of h p w = inr m ->
  exists content html,
    rendered (trace_of h p w) = [(content, (text, image, title, userid, msg_type), html)]
    /\ headers m
       = [("Content-Type", HStr "multipart/mixed"); ("MIME-Version", HStr "1.0");
          ("Subject", HHeader title);
          ("From", HStr (py_str sender_name ++ " <" ++ py_str sender_mail ++ ">"))]
    /\ (payload m = [html_alternative html]
        \/ exists s data subtype,
             image = PyStr s
             /\ In (s, data) (files_read (trace_of h p w))
             /\ In (data, subtype) (images_built (trace_of h p w))
             /\ payload m = [html_alternative html; image_part data subtype]).
Proof.
  intros p Hr; subst p. unfold _msg_build_email in *.
  apply bind_returns in Hr as (u & _ & Hr & Ht0 & _).
  apply bind_returns in Hr as (html & Htpl & Hr & Ht1 & _).
  apply bind_returns in Hr as (m1 & Hhdr & Hr & Ht2 & _).
  apply bind_returns in Hr as (m2 & Hbody & Hr & Ht3 & _).
  simpl in Hr. injection Hr as <-.
  apply run_template in Htpl as (content & Hrend).
  apply run_header in Hhdr. subst m1.
  apply run_body in Hbody.
  rewrite Ht0, Ht1, Ht2, Ht3.
  assert (Hno_render : forall (Q : forall X, libcall X -> bool) A (p : lprog A) w',
             (forall X (c : libcall X) x, Q X c = true -> format_done (EvCall c x) = None) ->
             only_calls Q p -> rendered (trace_of h p w') = []).
  { intros Q A p w' HQ Hp. apply (collect_excluded _ Q); [exact HQ | reflexivity |].
    apply only_calls_trace, Hp. }
  assert (Hno_file : forall (Q : forall X, libcall X -> bool) A (p : lprog A) w',
             (forall X (c : libcall X) x, Q X c = true -> file_read (EvCall c x) = None) ->
             only_calls Q p -> files_read (trace_of h p w') = []).
  { intros Q A p w' HQ Hp. apply (collect_excluded _ Q); [exact HQ | reflexivity |].
    apply only_calls_trace, Hp. }
  exists content, html. split; [| split].
  - unfold rendered in *. rewrite !collect_app.
    rewrite Hrend.
    rewrite (Hno_render (@is_body_call) _ (lcall (MIMEMultipart_new "mixed")));
      [| intros X c x; destruct c; try discriminate; reflexivity | only_calls_auto].
    rewrite (Hno_render (@is_header_call) _
               (__msg_build_email_Header self MIMEMultipart title sender_name sender_mail));
      [| intros X c x; destruct c; try discriminate; reflexivity | apply header_calls].
    rewrite (Hno_render (@is_body_call) _ (__msg_build_email_body _ _ _ _));
      [| intros X c x; destruct c; try discriminate; reflexivity | apply body_calls].
    unfold trace_of. simpl. reflexivity.
  - destruct Hbody as [-> | (s & data & subtype & _ & _ & _ & ->)]; reflexivity.
  - destruct Hbody as [-> | (s & data & subtype & -> & Hin & Him & ->)];
      [left; reflexivity |].
    right. exists s, data, subtype. repeat split.
    + unfold files_read in *. rewrite !collect_app.
      apply in_or_app. right. apply in_or_app. right. apply in_or_app. right.
      apply in_or_app. left. exact Hin.
    + unfold images_built in *. rewrite !collect_app.
      apply in_or_app. right. apply in_or_app. right. apply in_or_app. right.
      apply in_or_app. left. exact Him.
Qed.

Transparent bind.

End Construction.

Section Deliver.

Context {W : Type} (h : handler libcall W).

(** Recipients and sender: the configured list split at commas, or the
    sender's own address when none is configured; the display name falls
    back to the sender's address. *)
Lemma run_receivers self conn (w : W) receiver_list sender_name sender_mail :
  result_of h (_get_receiver_and_sender self conn) w
  = inr (receiver_list, sender_name, sender_mail) ->
  sender_mail = _sender_mail conn
  /\ sender_name = (if truthy (_sender_name self) then _sender_name self
                    else _sender_mail conn)
  /\ ((truthy (_receiver_mail self) = false /\ receiver_list = RVal (_sender_mail conn))
      \/ exists r, _receiver_mail self = PyStr r
                   /\ truthy (PyStr r) = true
                   /\ receiver_list = RList (split_comma r)).
Proof.
  unfold _get_receiver_and_sender. intros Hr.
  apply log_returns in Hr as (logs & Hr). revert Hr.
  unfold result_of.
  destruct (_receiver_mail self) as [| r | b | z | t] eqn:Hrm;
    try destruct (truthy (PyStr r)) eqn:Htr;
    try destruct (truthy (PyBytes b)) eqn:Htr;
    try destruct (truthy (PyInt z)) eqn:Htr;
    cbn [truthy bind try_catch attempt run fst snd]; rewrite ?Htr;
    cbn [truthy bind try_catch attempt run fst snd];
    intros Hr; try discriminate Hr; injection Hr as _ <- <- <-;
    (split; [reflexivity |]); (split; [reflexivity |]);
    first [ left; split; [assumption || reflexivity | reflexivity]
          | right; eexists; repeat split; assumption ].
Qed.

Lemma no_sendmail_in {A} (Q : forall X, libcall X -> bool) (p : lprog A) (w : W) :
  (forall X (c : libcall X) x, Q X c = true -> sendmail_args (EvCall c x) = None) ->
  only_calls Q p -> sent_messages (trace_of h p w) = [].
Proof.
  intros HQ Hp. apply (collect_excluded _ Q); [exact HQ | reflexivity |].
  apply only_calls_trace, Hp.
Qed.

Lemma nothing_rendered_in {A} (Q : forall X, libcall X -> bool) (p : lprog A) (w : W) :
  (forall X (c : libcall X) x, Q X c = true -> format_done (EvCall c x) = None) ->
  only_calls Q p -> rendered (trace_of h p w) = [].
Proof.
  intros HQ Hp. apply (collect_excluded _ Q); [exact HQ | reflexivity |].
  apply only_calls_trace, Hp.
Qed.

Lemma no_file_read_in {A} (Q : forall X, libcall X -> bool) (p : lprog A) (w : W) :
  (forall X (c : libcall X) x, Q X c = true -> file_read (EvCall c x) = None) ->
  only_calls Q p -> files_read (trace_of h p w) = [].
Proof.
  intros HQ Hp. apply (collect_excluded _ Q); [exact HQ | reflexivity |].
  apply only_calls_trace, Hp.
Qed.

Opaque bind.

(** The second part of an attempt sends nothing, or one message: to the
    recipients of the configuration, from the sender of the server, built
    from the values it was given. *)
Lemma run_deliver self server_type title text image userid msg_type conn server (w : W) :
  let d := _send_to_smtp_deliver self server_type title text image userid msg_type
             conn server in
  let sender_name := if truthy (_sender_name self) then _sender_name self
                     else _sender_mail conn in
  sent_messages (trace_of h d w) = []
  \/ exists receiver_list m content html,
       sent_messages (trace_of h d w) = [(server, _sender_mail conn, receiver_list, m)]
       /\ ((truthy (_receiver_mail self) = false
            /\ receiver_list = RVal (_sender_mail conn))
           \/ exists r, _receiver_mail self = PyStr r
                        /\ truthy (PyStr r) = true
                        /\ receiver_list = RList (split_comma r))
       /\ rendered (trace_of h d w)
          = [(content, (text, image, title, userid, msg_type), html)]
       /\ headers m
          = [("Content-Type", HStr "multipart/mixed"); ("MIME-Version", HStr "1.0");
             ("Subject", HHeader title);
             ("From", HStr (py_str sender_name ++ " <" ++ py_str (_sender_mail conn)
                            ++ ">"))]
       /\ (payload m = [html_alternative html]
           \/ exists path data subtype,
                image = PyStr path
                /\ In (path, data) (files_read (trace_of h d w))
                /\ In (data, subtype) (images_built (trace_of h d w))
                /\ payload m = [html_alternative html; image_part data subtype]).
Proof.
  intros d sender_name; subst d sender_name. unfold _send_to_smtp_deliver.
  assert (HR0 : forall w', sent_messages (trace_of h (_get_receiver_and_sender self conn) w')
                           = []).
  { intros w'. apply (no_sendmail_in (@no_call libcall));
      [intros X c x Hc; discriminate Hc | apply receiver_and_sender_calls_nothing]. }
  assert (HB0 : forall a b c d e f g w',
             sent_messages (trace_of h (_msg_build_email self a b c d e f g) w') = []).
  { intros a b c d e f g w'. apply (no_sendmail_in (@is_build));
      [intros X c0 x; destruct c0; try discriminate; reflexivity
      | apply build_email_calls]. }
  rewrite trace_of_bind.
  destruct (result_of h (_get_receiver_and_sender self conn) w)
    as [e | [[receiver_list sn] sm]] eqn:HR.
  { left. rewrite app_nil_r. apply HR0. }
  apply run_receivers in HR as (-> & -> & Hto).
  cbv iota beta. rewrite trace_of_bind.
  set (wR := world_of h (_get_receiver_and_sender self conn) w).
  destruct (result_of h (_msg_build_email self title text image userid msg_type _ _) wR)
    as [e | m] eqn:HB.
  { left. unfold sent_messages in *. rewrite !collect_app, HR0, HB0. reflexivity. }
  apply run_build in HB as (content & html & Hrend & Hhdr & Hpay).
  right. exists receiver_list, m, content, html.
  set (bld := _msg_build_email self title text image userid msg_type _ _) in *.
  set (wB := world_of h bld wR).
  destruct (run_send_msg h self server m (_sender_mail conn) receiver_list server_type wB)
    as (Hcalls & _).
  cbv zeta in Hcalls.
  split; [| split; [exact Hto | split; [| split; [exact Hhdr |]]]].
  - unfold sent_messages in *. rewrite !collect_app, HR0. subst bld. rewrite HB0.
    rewrite <- (collect_calls sendmail_args (trace_of h _ wB)) by reflexivity.
    rewrite Hcalls. reflexivity.
  - unfold rendered in *. rewrite !collect_app, Hrend.
    rewrite (nothing_rendered_in (@no_call libcall));
      [| intros X c x Hc; discriminate Hc | apply receiver_and_sender_calls_nothing].
    fold (rendered (trace_of h (_send_msg_to_smtp self server m (_sender_mail conn)
                                  receiver_list server_type) wB)).
    rewrite (nothing_rendered_in (@is_sendmail));
      [| intros X c x; destruct c; try discriminate; reflexivity | apply send_msg_calls].
    reflexivity.
  - destruct Hpay as [Hp | (path & data & subtype & -> & Hin & Him & Hp)];
      [left; exact Hp |].
    right. exists path, data, subtype.
    split; [reflexivity |]. split; [| split; [| exact Hp]].
    + unfold files_read in *. rewrite !collect_app.
      apply in_or_app. right. apply in_or_app. left. exact Hin.
    + unfold images_built in *. rewrite !collect_app.
      apply in_or_app. right. apply in_or_app. left. exact Him.
Qed.

Transparent bind.

End Deliver.

Section AttemptOutcome.

Context {W : Type} (h : handler libcall W).

Opaque bind.

(** The second part of an attempt returns, and then True, exactly when its
    [sendmail] was accepted. *)
Lemma run_deliver_outcome self server_type title text image userid msg_type conn server
    (w : W) :
  let d := _send_to_smtp_deliver self server_type title text image userid msg_type
             conn server in
  match result_of h d w with
  | inr b => b = true /\ existsb ev_sendmail_ok (trace_of h d w) = true
  | inl _ => existsb ev_sendmail_ok (trace_of h d w) = false
  end.
Proof.
  intro d; subst d. unfold _send_to_smtp_deliver.
  assert (Hex : forall A (Q : forall X, libcall X -> bool) (p : lprog A) w',
             (forall X (c : libcall X) x, Q X c = true -> ev_sendmail_ok (EvCall c x) = false) ->
             only_calls Q p -> existsb ev_sendmail_ok (trace_of h p w') = false).
  { intros A Q p w' HQ Hp. apply (satisfies_excludes Q); [exact HQ | reflexivity |].
    apply only_calls_trace, Hp. }
  assert (HR0 : forall w', existsb ev_sendmail_ok
                             (trace_of h (_get_receiver_and_sender self conn) w') = false).
  { intros w'. apply (Hex _ (@no_call libcall));
      [intros X c x Hc; discriminate Hc | apply receiver_and_sender_calls_nothing]. }
  assert (HB0 : forall a b c d e f g w',
             existsb ev_sendmail_ok (trace_of h (_msg_build_email self a b c d e f g) w')
             = false).
  { intros a b c d e f g w'. apply (Hex _ (@is_build));
      [intros X c0 x; destruct c0; try discriminate; reflexivity
      | apply build_email_calls]. }
  rewrite result_of_bind, trace_of_bind.
  destruct (result_of h (_get_receiver_and_sender self conn) w)
    as [e | [[receiver_list sn] sm]].
  { rewrite app_nil_r. apply HR0. }
  cbv iota beta. rewrite result_of_bind, trace_of_bind.
  set (wR := world_of h (_get_receiver_and_sender self conn) w).
  destruct (result_of h (_msg_build_email self title text image userid msg_type sn sm) wR)
    as [e | m].
  { rewrite !existsb_app, HR0, HB0. reflexivity. }
  set (wB := world_of h _ wR).
  destruct (run_send_msg h self server m (_sender_mail conn) receiver_list server_type wB)
    as (Hcalls & Hres).
  cbv zeta in Hcalls, Hres.
  rewrite !existsb_app, HR0, HB0. cbn [orb].
  rewrite <- (existsb_calls ev_sendmail_ok (trace_of h _ wB)) by reflexivity.
  rewrite Hcalls.
  destruct (fst (@h unit (sendmail server (_sender_mail conn) receiver_list m) wB))
    as [e | u].
  - destruct Hres as (e' & ->). reflexivity.
  - rewrite Hres. split; reflexivity.
Qed.

Transparent bind.

(** No part of an attempt but its handler calls [quit]. *)
Lemma open_never_quits self v server_type msg_type title text image userid (w : W)
    (P : levent -> bool) :
  (forall X (c : libcall X) x, is_connect_call c = true -> P (EvCall c x) = false) ->
  (forall lv l, P (EvLog lv l) = false) ->
  existsb P (trace_of h (_send_to_smtp_open self v server_type
                           msg_type title text image userid) w) = false.
Proof.
  intros HQ HL. apply (satisfies_excludes (@is_connect_call)); [exact HQ | exact HL |].
  apply only_calls_trace, open_calls.
Qed.

Lemma deliver_excludes self server_type title text image userid msg_type conn server
    (w : W) (P : levent -> bool) :
  (forall X (c : libcall X) x, is_build_or_sendmail c = true -> P (EvCall c x) = false) ->
  (forall lv l, P (EvLog lv l) = false) ->
  existsb P (trace_of h (_send_to_smtp_deliver self server_type
                           title text image userid msg_type conn server) w) = false.
Proof.
  intros HQ HL. apply (satisfies_excludes (@is_build_or_sendmail)); [exact HQ | exact HL |].
  apply only_calls_trace, deliver_calls.
Qed.

End AttemptOutcome.

(** X1.  [_send_to_smtp], lines 1571-1616.  The session is quit by the attempt
    only in its handler: an attempt that fails before the connection is made
    calls no [quit]; one that sends its message calls none either, so the
    session it opened is left to the library; one that fails after the
    connection ends with one [quit] of the session it opened. *)
Theorem session_quit_only_on_failure :
  forall (W : Type) (h : handler libcall W) (w : W) (self : Self) (v : Z)
         (server_type : string) (msg_type title text image userid : pyval),
    let p := _send_to_smtp self v server_type msg_type title text image userid in
    let o := _send_to_smtp_open self v server_type msg_type title text image userid in
    (forall e, result_of h o w = inl e ->
               existsb ev_is_quit (trace_of h p w) = false)
    /\ (forall title' text' image' userid' msg_type' conn s,
          result_of h o w = inr (title', text', image', userid', msg_type', conn, s) ->
          let d := _send_to_smtp_deliver self server_type title' text' image' userid'
                     msg_type' conn s in
          let w1 := world_of h o w in
          (forall b, result_of h d w1 = inr b ->
                     existsb ev_is_quit (trace_of h p w) = false)
          /\ (forall e, result_of h d w1 = inl e ->
                        exists pre,
                          calls (trace_of h p w)
                          = (pre ++ [EvCall (quit s)
                                       (fst (h _ (quit s) (world_of h d w1)))])%list
                          /\ existsb ev_is_quit pre = false)).
Proof.
  intros W h w self v server_type msg_type title text image userid p o. subst p o.
  assert (Hq1 : forall X (c : libcall X) x,
             is_connect_call c = true -> ev_is_quit (EvCall c x) = false).
  { intros X c x; destruct c; try discriminate; reflexivity. }
  assert (Hq2 : forall X (c : libcall X) x,
             is_build_or_sendmail c = true -> ev_is_quit (EvCall c x) = false).
  { intros X c x; destruct c; try discriminate; reflexivity. }
  pose proof (open_never_quits h self v server_type msg_type title text image userid w
                ev_is_quit Hq1 (fun _ _ => eq_refl)) as Ho.
  split.
  - intros e He.
    destruct (run_send_to_smtp h self v server_type msg_type title text image userid w)
      as (rest & Hcalls & Hfail).
    destruct (Hfail _ He) as (-> & _ & _).
    rewrite <- existsb_calls by reflexivity.
    rewrite Hcalls, app_nil_r, existsb_calls by reflexivity. exact Ho.
  - intros title' text' image' userid' msg_type' conn s Hopen d w1. subst d w1.
    destruct (run_send_to_smtp_after_open h self v server_type msg_type title text image
                userid w Hopen) as (Hcalls & _).
    pose proof (deliver_excludes h self server_type title' text' image' userid' msg_type'
                  conn s
                  (world_of h (_send_to_smtp_open self v server_type msg_type title text
                                 image userid) w)
                  ev_is_quit Hq2 (fun _ _ => eq_refl)) as Hd.
    split.
    + intros b Hb. rewrite <- existsb_calls by reflexivity.
      rewrite Hcalls, Hb, app_nil_r, existsb_app, !existsb_calls by reflexivity.
      rewrite Ho, Hd. reflexivity.
    + intros e He. rewrite Hcalls, He, app_assoc.
      eexists. split; [reflexivity |].
      rewrite existsb_app, !existsb_calls by reflexivity.
      rewrite Ho, Hd. reflexivity.
Qed.

(** How an attempt ends, read off its calls. *)
Lemma run_attempt_outcomes :
  forall (W : Type) (h : handler libcall W) (w : W) (self : Self) (v : Z)
         (server_type : string) (msg_type title text image userid : pyval),
    let p := _send_to_smtp self v server_type msg_type title text image userid in
    (forall e, result_of h p w = inl e ->
               existsb ev_failed_quit (trace_of h p w) = true)
    /\ (result_of h p w = inr true <-> existsb ev_sendmail_ok (trace_of h p w) = true).
Proof.
  intros W h w self v server_type msg_type title text image userid p. subst p.
  assert (Hs1 : forall X (c : libcall X) x,
             is_connect_call c = true -> ev_sendmail_ok (EvCall c x) = false).
  { intros X c x; destruct c; try discriminate; reflexivity. }
  pose proof (open_never_quits h self v server_type msg_type title text image userid w
                ev_sendmail_ok Hs1 (fun _ _ => eq_refl)) as Ho.
  destruct (result_of h (_send_to_smtp_open self v server_type msg_type title text image
                           userid) w)
    as [e | [[[[[[title' text'] image'] userid'] msg_type'] conn] s]] eqn:Hopen.
  - destruct (run_send_to_smtp h self v server_type msg_type title text image userid w)
      as (rest & Hcalls & Hfail).
    destruct (Hfail _ Hopen) as (-> & _ & Hres).
    rewrite Hres.
    rewrite <- (existsb_calls ev_sendmail_ok) by reflexivity.
    rewrite Hcalls, app_nil_r, existsb_calls, Ho by reflexivity.
    split; [intros e0 H0; discriminate H0 | split; intros H0; discriminate H0].
  - destruct (run_send_to_smtp_after_open h self v server_type msg_type title text image
                userid w Hopen) as (Hcalls & Hres).
    pose proof (run_deliver_outcome h self server_type title' text' image' userid'
                  msg_type' conn s
                  (world_of h (_send_to_smtp_open self v server_type msg_type title text
                                 image userid) w)) as Hd.
    cbv zeta in Hd.
    rewrite <- (existsb_calls ev_sendmail_ok) by reflexivity.
    rewrite <- (existsb_calls ev_failed_quit) by reflexivity.
    rewrite Hres, Hcalls, !existsb_app, !existsb_calls, Ho by reflexivity.
    destruct (result_of h (_send_to_smtp_deliver self server_type title' text' image'
                             userid' msg_type' conn s) _) as [e | b].
    + rewrite Hd. cbn [orb existsb ev_sendmail_ok].
      destruct (fst (h unit (quit s) _)) as [e' | u]; cbn.
      * split; [intros _ _; rewrite !orb_true_r; reflexivity | split; intros H0; discriminate H0].
      * split; [intros e0 H0; discriminate H0 | split; intros H0; discriminate H0].
    + destruct Hd as (-> & ->). cbn.
      split; [intros e0 H0; discriminate H0 | split; reflexivity].
Qed.

(** X2.  [_send_to_smtp], lines 1571-1616.  An attempt raises only when the
    [quit] of its handler raises, and it returns True exactly when a
    [sendmail] of its own was accepted. *)
Theorem attempt_outcomes :
  forall (W : Type) (h : handler libcall W) (w : W) (self : Self) (v : Z)
         (server_type : string) (msg_type title text image userid : pyval),
    let p := _send_to_smtp self v server_type msg_type title text image userid in
    (forall e, result_of h p w = inl e ->
               existsb ev_failed_quit (trace_of h p w) = true)
    /\ (result_of h p w = inr true <-> existsb ev_sendmail_ok (trace_of h p w) = true).
Proof. exact run_attempt_outcomes. Qed.

(** X3.  [_send_to_smtp] with [_get_receiver_and_sender], [_msg_build_email] and
    [_send_msg_to_smtp], lines 1571-1616, 1725-1757, 1800-1811, 1970-2000.
    Whatever an attempt hands to [sendmail], it hands once, on the session
    its own connection stage returned: from the sender address of its
    server, to the configured recipients split at commas (or to the sender
    when none is configured), a message whose Subject is the validated
    title, whose From is the display name and the sender address, and whose
    body is a multipart/alternative part holding one text/html part (utf-8,
    base64) with the text [str_format] made of the validated values.  An
    image part follows only for an image read from a file: it holds the
    bytes read, with the headers [MIMEImage] gives it (Content-Type
    image/subtype for the subtype it found in the bytes, MIME-Version,
    Content-Transfer-Encoding base64) and Content-ID <image>. *)
Theorem what_is_sent :
  forall (W : Type) (h : handler libcall W) (w : W) (self : Self) (secondary : bool)
         (server_type : string) (msg_type title text image userid : pyval)
         (s : server) (sender : pyval) (to : receivers) (m : Mime),
    let p := _send_to_smtp self (if secondary then 1 else 0) server_type
               msg_type title text image userid in
    let conn := conn_of self secondary in
    let sender_name := if truthy (_sender_name self) then _sender_name self
                       else _sender_mail conn in
    In (s, sender, to, m) (sent_messages (trace_of h p w)) ->
    sent_messages (trace_of h p w) = [(s, sender, to, m)]
    /\ result_of h (_connect_to_smtp_server self conn) w = inr s
    /\ sender = _sender_mail conn
    /\ ((truthy (_receiver_mail self) = false /\ to = RVal (_sender_mail conn))
        \/ exists r, _receiver_mail self = PyStr r
                     /\ truthy (PyStr r) = true
                     /\ to = RList (split_comma r))
    /\ exists title' text' image' userid' msg_type' content html,
         snd (_msg_parameter_validation_body self server_type
                msg_type title text image userid)
         = inr (title', text', image', userid', msg_type')
         /\ rendered (trace_of h p w)
            = [(content, (text', image', title', userid', msg_type'), html)]
         /\ headers m
            = [("Content-Type", HStr "multipart/mixed"); ("MIME-Version", HStr "1.0");
               ("Subject", HHeader title');
               ("From", HStr (py_str sender_name ++ " <" ++ py_str (_sender_mail conn)
                              ++ ">"))]
         /\ (payload m = [html_alternative html]
             \/ exists path data subtype,
                  image' = PyStr path
                  /\ In (path, data) (files_read (trace_of h p w))
                  /\ In (data, subtype) (images_built (trace_of h p w))
                  /\ payload m = [html_alternative html; image_part data subtype]).
Proof.
  intros W h w self secondary server_type msg_type title text image userid s sender to m
         p conn sender_name Hin.
  subst p conn sender_name.
  set (v := if secondary then 1 else 0) in *.
  set (o := _send_to_smtp_open self v server_type msg_type title text image userid) in *.
  assert (Ho1 : sent_messages (trace_of h o w) = []).
  { apply (no_sendmail_in h (@is_connect_call));
      [intros X c x; destruct c; try discriminate; reflexivity | apply open_calls]. }
  assert (Ho2 : rendered (trace_of h o w) = []).
  { apply (nothing_rendered_in h (@is_connect_call));
      [intros X c x; destruct c; try discriminate; reflexivity | apply open_calls]. }
  rewrite <- sent_messages_calls in Hin |- *.
  rewrite <- rendered_calls.
  destruct (result_of h o w)
    as [e | [[[[[[title' text'] image'] userid'] msg_type'] conn] s']] eqn:Hopen.
  { destruct (run_send_to_smtp h self v server_type msg_type title text image userid w)
      as (rest & Hcalls & Hfail).
    destruct (Hfail _ Hopen) as (-> & _ & _).
    fold o in Hcalls. rewrite Hcalls, app_nil_r, sent_messages_calls, Ho1 in Hin.
    destruct Hin. }
  destruct (run_send_to_smtp_after_open h self v server_type msg_type title text image
              userid w Hopen) as (Hcalls & _).
  fold o in Hcalls.
  pose proof (run_open h self secondary server_type msg_type title text image userid w)
    as Hro.
  cbv zeta in Hro. fold v o in Hro.
  destruct (snd (_msg_parameter_validation_body self server_type msg_type title text
                   image userid)) as [e | vals] eqn:Hval.
  { destruct Hro as (_ & _ & Hr). rewrite Hr in Hopen. discriminate Hopen. }
  destruct Hro as (_ & _ & Hr). rewrite Hopen in Hr.
  destruct (result_of h (_connect_to_smtp_server self (conn_of self secondary)) w)
    as [e | sc] eqn:Hconn; [discriminate Hr |].
  injection Hr as <- -> ->.
  set (w1 := world_of h o w) in *.
  set (d := _send_to_smtp_deliver self server_type title' text' image' userid' msg_type'
              (conn_of self secondary) sc) in *.
  assert (Hquit : forall B (f : levent -> option B),
             (forall sv x, f (EvCall (quit sv) x) = None) ->
             collect f match result_of h d w1 with
                       | inl _ => [EvCall (quit sc)
                                     (fst (h unit (quit sc) (world_of h d w1)))]
                       | inr _ => []
                       end = []).
  { intros B f Hf. destruct (result_of h d w1); [simpl; now rewrite Hf | reflexivity]. }
  assert (Hsent : sent_messages (calls (trace_of h
                     (_send_to_smtp self v server_type msg_type title text image userid) w))
                  = sent_messages (trace_of h d w1)).
  { rewrite Hcalls. unfold sent_messages. rewrite !collect_app.
    rewrite (Hquit _ sendmail_args) by reflexivity.
    rewrite !(collect_calls sendmail_args) by reflexivity.
    fold (sent_messages (trace_of h o w)). rewrite Ho1, app_nil_r. reflexivity. }
  assert (Hrendered : rendered (calls (trace_of h
                     (_send_to_smtp self v server_type msg_type title text image userid) w))
                  = rendered (trace_of h d w1)).
  { rewrite Hcalls. unfold rendered. rewrite !collect_app.
    rewrite (Hquit _ format_done) by reflexivity.
    rewrite !(collect_calls format_done) by reflexivity.
    fold (rendered (trace_of h o w)). rewrite Ho2, app_nil_r. reflexivity. }
  rewrite Hsent in Hin |- *. rewrite Hrendered.
  pose proof (run_deliver h self server_type title' text' image' userid' msg_type'
                (conn_of self secondary) sc w1) as Hd.
  cbv zeta in Hd. fold d in Hd.
  destruct Hd as [Hnone | (rl & m0 & content & html & Hone & Hto & Hrend & Hhdr & Hpay)].
  { rewrite Hnone in Hin. destruct Hin. }
  rewrite Hone in Hin |- *.
  destruct Hin as [Heq | []]. injection Heq as <- <- <- <-.
  split; [reflexivity |]. split; [reflexivity |]. split; [reflexivity |].
  split; [exact Hto |].
  exists title', text', image', userid', msg_type', content, html.
  split; [reflexivity |]. split; [exact Hrend |]. split; [exact Hhdr |].
  destruct Hpay as [Hp | (path & data & subtype & -> & Hf & Him & Hp)];
    [left; exact Hp |].
  right. exists path, data, subtype.
  split; [reflexivity |]. split; [| split; [| exact Hp]].
  - rewrite <- files_read_calls, Hcalls. unfold files_read in *.
    rewrite !collect_app, !(collect_calls file_read) by reflexivity.
    apply in_or_app. right. apply in_or_app. left. exact Hf.
  - rewrite <- images_built_calls, Hcalls. unfold images_built in *.
    rewrite !collect_app, !(collect_calls image_built) by reflexivity.
    apply in_or_app. right. apply in_or_app. left. exact Him.
Qed.

Lemma what_is_sent_witness :
  sent_messages
    (trace_of file_world
       (_send_to_smtp main_only 0 "主" (PyEnum Plugin) (PyStr "title") (PyStr "text")
          (PyStr "C:\covers\cover.gif") PyNone) tt)
  = [(0%nat, PyStr "bot@example.com", RList ["a@example.com"; "b@example.com"],
      {| headers := [("Content-Type", HStr "multipart/mixed");
                     ("MIME-Version", HStr "1.0");
                     ("Subject", HHeader (PyStr "title"));
                     ("From", HStr "bot@example.com <bot@example.com>")];
         payload := [html_alternative "<html>title: text</html>";
                     image_part "GIF89a" "gif"] |})].
Proof.
  exact (proj1 (@what_is_sent unit file_world tt main_only false "主" (PyEnum Plugin)
                  (PyStr "title") (PyStr "text") (PyStr "C:\covers\cover.gif") PyNone
                  0%nat (PyStr "bot@example.com")
                  (RList ["a@example.com"; "b@example.com"])
                  {| headers := [("Content-Type", HStr "multipart/mixed");
                                 ("MIME-Version", HStr "1.0");
                                 ("Subject", HHeader (PyStr "title"));
                                 ("From", HStr "bot@example.com <bot@example.com>")];
                     payload := [html_alternative "<html>title: text</html>";
                                 image_part "GIF89a" "gif"] |}
                  (or_introl eq_refl))).
Defined.

(** * The decorator *)

(** X4.  [SmtpMsgDecorator.log], lines 30-76.  Every decorated method ends its
    log with the line that reports the module as run successfully, also
    when the method raised: the exception that leaves the decorator carries
    the text "模块运行失败 - 原因 - ..." and the line logged for it under
    "错误" is directly followed by the success line. *)
Theorem decorator_reports_success_after_failure :
  forall (E : Type -> Type) (W : Type) (h : handler E W) (w : W) (A : Type)
         (self : Self) (mode_name : string)
         (body : prog E (log_container * (exn + A))),
    let p := log self mode_name body in
    let success := @EvLog E info ("状态 - " ++ mode_name ++ "模块 - 模块运行成功") in
    (exists pre, trace_of h p w = (pre ++ [success])%list)
    /\ (forall e, result_of h p w = inl e ->
          exists cause pre,
            e = Exception_ ("模块运行失败 - 原因 - " ++ cause)
            /\ trace_of h p w
               = (pre ++ [EvLog info ("错误 - " ++ mode_name ++ "模块 - " ++ e_str e);
                          success])%list).
Proof.
  intros E W h w A self mode_name body p success. subst p success.
  unfold log, trace_of, result_of.
  rewrite run_bind.
  assert (Hpre : exists pre,
             run h (if _log_more self
                    then logger_info ("状态 - " ++ mode_name ++ "模块 - 开始运行")
                    else Ret tt) w = (pre, w, inr tt)).
  { destruct (_log_more self); eexists; reflexivity. }
  destruct Hpre as (pre & ->).
  rewrite run_bind, run_attempt.
  destruct (run h body w) as [[tr w1] rb]; simpl.
  destruct rb as [e | [logs0 [e | a]]].
  - cbn -[String.append]. split.
    + eexists (pre ++ tr ++ [_])%list. rewrite <- !app_assoc. reflexivity.
    + intros e' [= <-]. exists (e_str e), (pre ++ tr)%list.
      split; [reflexivity |]. rewrite <- !app_assoc. reflexivity.
  - cbn -[String.append]. split.
    + eexists (pre ++ tr ++ [_])%list. rewrite <- !app_assoc. reflexivity.
    + intros e' [= <-]. exists (e_str e), (pre ++ tr)%list.
      split; [reflexivity |]. rewrite <- !app_assoc. reflexivity.
  - cbn -[String.append].
    match goal with
    | |- context [match ?st with Some _ => logger_info _ | None => Ret tt end] =>
        destruct st
    end; cbn -[String.append].
    + split; [| discriminate].
      eexists (pre ++ tr ++ [_])%list. rewrite <- !app_assoc. reflexivity.
    + split; [| discriminate].
      exists (pre ++ tr)%list. rewrite <- !app_assoc. reflexivity.
Qed.

(** * Images asked for over the network *)

(** X5.  [___msg_build_email_body_embed_image], lines 1908-1968.  When the image
    is a string that [urlparse] gives a network scheme, the step asks for it
    with [requests.get] and nothing else, and never embeds it: the bytes of
    a 200 answer have no [add_header], any other answer is a failure, and
    either way the message comes back as it was with a "警告" line that
    names the reason. *)
Theorem downloaded_image_is_never_embedded :
  forall (W : Type) (h : handler libcall W) (w : W) (self : Self)
         (s : string) (message : Mime),
    _send_image self = true ->
    truthy (PyStr s) = true ->
    fst (h _ (scheme_uses_netloc s) w) = inr true ->
    let p := ___msg_build_email_body_embed_image self (PyStr s) message in
    let answer := fst (h _ (requests_get s) (snd (h _ (scheme_uses_netloc s) w))) in
    result_of h p w = inr message
    /\ calls (trace_of h p w)
       = [EvCall (scheme_uses_netloc s) (inr true); EvCall (requests_get s) answer]
    /\ In (EvLog info ("警告 - 图片嵌入模块 - 出现错误，跳过嵌入 - 原因 - "
                       ++ download_skip_reason answer))
          (trace_of h p w).
Proof.
  intros W h w self s message Himg Htruthy Hurl p answer. subst p answer.
  unfold ___msg_build_email_body_embed_image, embed_image_try, log, trace_of, result_of,
    lcall, call, download_skip_reason.
  rewrite Himg, Htruthy.
  destruct (h _ (scheme_uses_netloc s) w) as [u w1] eqn:Hu.
  simpl in Hurl. subst u.
  destruct (_log_more self);
    cbn [bind attempt try_catch run logger_info]; rewrite Hu;
    cbn [bind attempt try_catch run fst snd];
    destruct (h _ (requests_get s) w1) as [[e | [status_code content]] w2];
    cbn [bind attempt try_catch run fst snd];
    try destruct (status_code =? 200);
    cbn -[String.append];
    (split; [reflexivity | split; [reflexivity | auto 6]]).
Qed.

Lemma downloaded_image_is_never_embedded_witness :
  result_of url_world
    (___msg_build_email_body_embed_image main_only (PyStr "https://example.com/cover.gif")
       MIMEMultipart) tt
  = inr MIMEMultipart.
Proof.
  exact (proj1 (@downloaded_image_is_never_embedded unit url_world tt main_only
                  "https://example.com/cover.gif" MIMEMultipart
                  eq_refl eq_refl eq_refl)).
Defined.

(** * Recipients *)

Lemma string_app_nil_r (s : string) : (s ++ "")%string = s.
Proof. induction s as [| c s IH]; simpl; [reflexivity | now rewrite IH]. Qed.

Lemma string_app_assoc (a b c : string) : ((a ++ b) ++ c)%string = (a ++ b ++ c)%string.
Proof. induction a as [| x a IH]; simpl; [reflexivity | now rewrite IH]. Qed.

Lemma split_comma_aux_cons (s cur : string) :
  exists x l, split_comma_aux s cur = x :: l.
Proof.
  revert cur. induction s as [| c s IH]; intros cur; simpl.
  - eauto.
  - destruct (Ascii.eqb c ","); [eauto | apply IH].
Qed.

(** Joining the parts with commas gives the string back: nothing is
    trimmed or dropped. *)
Lemma concat_split_comma_aux (s cur : string) :
  String.concat "," (split_comma_aux s cur) = (cur ++ s)%string.
Proof.
  revert cur. induction s as [| c s IH]; intros cur; simpl split_comma_aux.
  - simpl. now rewrite string_app_nil_r.
  - destruct (Ascii.eqb c ",") eqn:Hc.
    + apply Ascii.eqb_eq in Hc. subst c.
      specialize (IH EmptyString).
      destruct (split_comma_aux_cons s EmptyString) as (x & l & Hs).
      rewrite Hs in IH |- *.
      change (String.concat "," (cur :: x :: l))
        with (cur ++ "," ++ String.concat "," (x :: l))%string.
      rewrite IH. reflexivity.
    + rewrite IH, string_app_assoc. reflexivity.
Qed.

Lemma no_comma_app (a b : string) :
  no_comma (a ++ b) = (no_comma a && no_comma b)%bool.
Proof.
  induction a as [| c a IH]; simpl; [reflexivity |].
  rewrite IH. now rewrite andb_assoc.
Qed.

Lemma no_comma_split_comma_aux (s cur : string) :
  no_comma cur = true -> forallb no_comma (split_comma_aux s cur) = true.
Proof.
  revert cur. induction s as [| c s IH]; intros cur Hcur; simpl.
  - now rewrite Hcur.
  - destruct (Ascii.eqb c ",") eqn:Hc.
    + simpl. rewrite Hcur. apply IH. reflexivity.
    + apply IH. rewrite no_comma_app, Hcur. simpl. now rewrite Hc.
Qed.

(** X6.  [_get_receiver_and_sender], lines 1725-1757.  The stage makes no call.
    A configured recipient string is cut at its commas and at nothing else:
    the parts joined by commas are the string as configured, blanks
    included.  Without recipients the mail goes to the sender's own address.
    The stage raises exactly when the recipients are set to a truthy value
    that is not a string (non-empty bytes, a non-zero int, an enum member):
    such a value always makes it raise, with the message of the failed
    extraction, and it raises for no other configuration. *)
Theorem recipients_are_the_configured_string :
  forall (W : Type) (h : handler libcall W) (w : W) (self : Self) (conn : Conn),
    let p := _get_receiver_and_sender self conn in
    let sender_name := if truthy (_sender_name self) then _sender_name self
                       else _sender_mail conn in
    calls (trace_of h p w) = []
    /\ (forall r, _receiver_mail self = PyStr r -> r <> ""%string ->
          exists l, result_of h p w = inr (RList l, sender_name, _sender_mail conn)
                    /\ String.concat "," l = r
                    /\ forallb no_comma l = true)
    /\ (truthy (_receiver_mail self) = false ->
          result_of h p w = inr (RVal (_sender_mail conn), sender_name, _sender_mail conn))
    /\ (forall e, result_of h p w = inl e ->
          truthy (_receiver_mail self) = true
          /\ (forall r, _receiver_mail self <> PyStr r)
          /\ e = Exception_ "模块运行失败 - 原因 - 配置提取失败 - 原因 - 提取收件人配置失败")
    /\ (truthy (_receiver_mail self) = true ->
        (forall r, _receiver_mail self <> PyStr r) ->
        result_of h p w
        = inl (Exception_ "模块运行失败 - 原因 - 配置提取失败 - 原因 - 提取收件人配置失败")).
Proof.
  intros W h w self conn p sender_name. subst p sender_name.
  split; [| split; [| split; [| split]]].
  - pose proof (@only_calls_trace _ (@no_call libcall) _ _ h
                  (_get_receiver_and_sender self conn) w
                  (receiver_and_sender_calls_nothing self conn)) as Hall.
    induction (trace_of h (_get_receiver_and_sender self conn) w) as [| ev tr IH];
      [reflexivity |].
    simpl in Hall. apply andb_prop in Hall as [Hev Htr].
    destruct ev as [lv line | X c x]; simpl; [apply IH, Htr | discriminate Hev].
  - intros r Hr Hne. exists (split_comma r).
    split; [| split].
    + unfold _get_receiver_and_sender. rewrite result_of_log, Hr.
      assert (Ht : truthy (PyStr r) = true).
      { simpl. destruct (String.eqb_spec r ""); [contradiction | reflexivity]. }
      rewrite Ht. reflexivity.
    + unfold split_comma. apply concat_split_comma_aux.
    + unfold split_comma. apply no_comma_split_comma_aux. reflexivity.
  - intros Hf. unfold _get_receiver_and_sender. rewrite result_of_log, Hf. reflexivity.
  - intros e. unfold _get_receiver_and_sender. rewrite result_of_log.
    destruct (_receiver_mail self) as [| r | b | z | t] eqn:Hrm;
      try destruct (truthy (PyStr r)) eqn:Htr;
      try destruct (truthy (PyBytes b)) eqn:Htr;
      try destruct (truthy (PyInt z)) eqn:Htr;
      cbn [truthy]; rewrite ?Htr; cbn -[String.append];
      intros He; try discriminate He; injection He as <-;
      (split; [reflexivity || assumption |]); (split; [discriminate | reflexivity]).
  - intros Ht Hns. unfold _get_receiver_and_sender. rewrite result_of_log.
    destruct (_receiver_mail self) as [| r | b | z | t] eqn:Hrm;
      [discriminate Ht | exfalso; exact (Hns r eq_refl) | | |];
      rewrite Ht; reflexivity.
Qed.

(** * Headers *)

Lemma filter_filter_nil {A} (p q : A -> bool) (l : list A) :
  (forall x, q x = true -> p x = false) -> filter p (filter q l) = [].
Proof.
  intros Hpq. induction l as [| x l IH]; simpl; [reflexivity |].
  destruct (q x) eqn:Hq; [simpl; now rewrite (Hpq x Hq) | exact IH].
Qed.

Lemma filter_filter_comm {A} (p q : A -> bool) (l : list A) :
  filter p (filter q l) = filter q (filter p l).
Proof.
  induction l as [| x l IH]; simpl; [reflexivity |].
  destruct (q x) eqn:Hq, (p x) eqn:Hp; simpl; rewrite ?Hq, ?Hp, IH; reflexivity.
Qed.

(** Dropping the entries that satisfy [isS] and adding one, then the same
    for [isF], leaves one of each at the end. *)
Lemma replace_two {A} (isS isF : A -> bool) (S F : A) (hs : list A) :
  isS S = true -> isF S = false -> isF F = true -> isS F = false ->
  let hs' := (filter (fun x => negb (isF x))
                (filter (fun x => negb (isS x)) hs ++ [S]) ++ [F])%list in
  length (filter isS hs') = 1%nat
  /\ length (filter isF hs') = 1%nat
  /\ hs' = (filter (fun x => negb (isF x)) (filter (fun x => negb (isS x)) hs)
            ++ [S; F])%list.
Proof.
  intros HSS HFS HFF HSF hs'. subst hs'.
  repeat (rewrite ?filter_app; cbn [filter negb]; rewrite ?HFS, ?HSS, ?HFF, ?HSF).
  rewrite !length_app.
  rewrite (filter_filter_comm (fun x => negb (isF x))).
  rewrite (filter_filter_nil isS (fun x => negb (isS x)))
    by (intros x Hx; now apply negb_true_iff in Hx).
  rewrite (filter_filter_comm (fun x => negb (isS x))).
  rewrite (filter_filter_nil isF (fun x => negb (isF x)))
    by (intros x Hx; now apply negb_true_iff in Hx).
  rewrite <- !app_assoc. repeat split.
Qed.

(** X7.  [__msg_build_email_Header], lines 1852-1886.  Whatever headers the
    message came with, it leaves the stage with one Subject and one From
    (names compared without case), placed last; every other header and the
    payload are kept as they were. *)
Theorem header_stage_leaves_one_subject_and_sender :
  forall (W : Type) (h : handler libcall W) (w : W) (self : Self) (message : Mime)
         (title sender_name sender_mail : pyval) (m' : Mime),
    result_of h (__msg_build_email_Header self message title sender_name sender_mail) w
    = inr m' ->
    count_header m' "Subject" = 1%nat
    /\ count_header m' "From" = 1%nat
    /\ payload m' = payload message
    /\ headers m'
       = (filter (fun kv => negb (lower (fst kv) =? "from")%string)
            (filter (fun kv => negb (lower (fst kv) =? "subject")%string)
               (headers message))
          ++ [("Subject", HHeader title);
              ("From", HStr (py_str sender_name ++ " <" ++ py_str sender_mail ++ ">"))])%list.
Proof.
  intros W h w self message title sender_name sender_mail m' Hr.
  apply run_header in Hr. subst m'.
  destruct (replace_two
              (fun kv : string * hval => (lower (fst kv) =? lower "Subject")%string)
              (fun kv : string * hval => (lower (fst kv) =? lower "From")%string)
              ("Subject", HHeader title)
              ("From", HStr (py_str sender_name ++ " <" ++ py_str sender_mail ++ ">"))
              (headers message) eq_refl eq_refl eq_refl eq_refl) as (H1 & H2 & H3).
  split; [exact H1 |]. split; [exact H2 |]. split; [reflexivity | exact H3].
Qed.

Lemma header_stage_leaves_one_subject_and_sender_witness :
  count_header
    {| headers := [("X-Mailer", HStr "plugin"); ("Subject", HHeader (PyStr "title"));
                   ("From", HStr "bot <bot@example.com>")];
       payload := [] |} "Subject" = 1%nat.
Proof.
  exact (proj1 (@header_stage_leaves_one_subject_and_sender unit friendly_world tt main_only
                  stale_message (PyStr "title") (PyStr "bot") (PyStr "bot@example.com")
                  _ eq_refl)).
Defined.

(** * The tests of the event handler *)

(** X8.  [send], lines 1472-1498, for any [master_program].  An event stopped by
    one of the first tests (plugin disabled, no event data, a channel set,
    neither title nor text) is dropped: the handler returns without running
    [master_program], and the only line it can log is the warning for an
    event that has neither title nor text. *)
Theorem guarded_events_are_dropped :
  forall (E : Type -> Type) (W : Type) (h : handler E W) (w : W) (self : Self)
         (master_program : pyval -> pyval -> pyval -> pyval -> pyval
                           -> prog E (option string))
         (event_data : option (dict pyval)),
    stopped_by_guards self event_data = true ->
    run h (send_with self master_program event_data) w
    = (if reaches_title_test self event_data
       then [EvLog warning "标题和内容不能同时为空"] else [],
       w, inr tt).
Proof.
  intros E W h w self mp event_data Hstop.
  unfold send_with, stopped_by_guards, reaches_title_test, passes_guards in *.
  destruct event_data as [[| kv rest] |]; [| | destruct (get_state self); reflexivity].
  - destruct (get_state self); reflexivity.
  - set (body := kv :: rest) in *.
    change (length body =? 0)%nat with false in *. cbn [negb andb] in *.
    rewrite andb_true_r in *.
    destruct (get_state self); [| reflexivity].
    destruct (truthy (get body "channel")); [reflexivity |].
    cbn [negb andb] in *.
    destruct (truthy (get body "title")), (truthy (get body "text"));
      try discriminate Hstop; reflexivity.
Qed.

Lemma guarded_events_are_dropped_witness :
  run friendly_world (send main_only (Some empty_event)) tt
  = ([EvLog warning "标题和内容不能同时为空"], tt, inr tt).
Proof.
  exact (@guarded_events_are_dropped libcall unit friendly_world tt main_only
           (master_program main_only) (Some empty_event) eq_refl).
Defined.

(** X9.  [send], lines 1472-1498, for any [master_program].  With a non-empty
    allow-list, an event whose type is a value without a [name] attribute
    (a non-empty str, non-empty bytes or a non-zero int, the values of
    [pyval] that are not enum members) makes the handler raise
    AttributeError before anything is logged or sent, whether or not
    third-party types are allowed.  The handler raises in no other way of
    its own: any other exception comes out of [master_program]. *)
Theorem third_party_type_breaks_allow_list :
  forall (E : Type -> Type) (W : Type) (h : handler E W) (w : W) (self : Self)
         (master_program : pyval -> pyval -> pyval -> pyval -> pyval
                           -> prog E (option string))
         (msg_body : dict pyval),
    passes_guards self msg_body = true ->
    let p := send_with self master_program (Some msg_body) in
    let msg_type := get msg_body "type" in
    let unnamed := (truthy msg_type && negb (is_enum msg_type)
                    && negb (length (_msgtypes self) =? 0)%nat)%bool in
    (unnamed = true ->
       run h p w = ([], w, inl (attribute_error (type_name msg_type) "name")))
    /\ (forall e, result_of h p w = inl e ->
          unnamed = false ->
          result_of h (master_program (get msg_body "title") (get msg_body "text")
                         msg_type (get msg_body "userid") (get msg_body "image")) w
          = inl e).
Proof.
  intros E W h w self mp msg_body Hg p msg_type unnamed. subst p msg_type unnamed.
  unfold send_with, passes_guards, result_of in *.
  destruct msg_body as [| kv rest]; [rewrite !andb_false_r in Hg; discriminate Hg |].
  set (body := kv :: rest) in *.
  apply andb_true_iff in Hg as [Hg Htt].
  apply andb_true_iff in Hg as [Hg Hch].
  apply andb_true_iff in Hg as [Hst _].
  apply negb_true_iff in Hch. rewrite Hst, Hch. cbn [negb].
  assert (Hnn : (negb (truthy (get body "title")) && negb (truthy (get body "text")))%bool
                = false).
  { destruct (truthy (get body "title")), (truthy (get body "text"));
      try reflexivity; discriminate Htt. }
  rewrite Hnn.
  set (mp' := mp (get body "title") (get body "text") (get body "type")
                (get body "userid") (get body "image")).
  destruct (truthy (get body "type")) eqn:Hty;
    destruct (length (_msgtypes self) =? 0)%nat eqn:Hlen; cbn [negb andb].
  - rewrite andb_false_r. split; [discriminate |].
    intros e He _. rewrite run_bind in He.
    destruct (run h mp' w) as [[tr w1] [e' | o]]; simpl in He |- *; congruence.
  - destruct (get body "type") as [| s | b | z | t] eqn:Hmt; cbn [is_enum negb andb];
      try (split; [reflexivity | intros e _ Hf; discriminate Hf]).
    split; [discriminate |].
    intros e He _.
    destruct (negb (existsb (String.eqb (name t)) (_msgtypes self)));
      [destruct (negb (_other_msgtypes self)); [discriminate He |] |];
      rewrite run_bind in He;
      destruct (run h mp' w) as [[tr w1] [e' | o]]; simpl in He |- *; congruence.
  - split; [discriminate |].
    intros e He _. rewrite run_bind in He.
    destruct (run h mp' w) as [[tr w1] [e' | o]]; simpl in He |- *; congruence.
  - split; [discriminate |].
    intros e He _. rewrite run_bind in He.
    destruct (run h mp' w) as [[tr w1] [e' | o]]; simpl in He |- *; congruence.
Qed.

Lemma third_party_type_breaks_allow_list_witness :
  run friendly_world
    (send (with_msgtypes main_only ["Plugin"] true) (Some custom_type_event)) tt
  = ([], tt, inl (attribute_error "str" "name")).
Proof.
  exact (proj1 (@third_party_type_breaks_allow_list libcall unit friendly_world tt
                  (with_msgtypes main_only ["Plugin"] true)
                  (master_program (with_msgtypes main_only ["Plugin"] true))
                  custom_type_event eq_refl) eq_refl).
Defined.

(** * The orchestrator over its attempts *)

Section OrchestratorOutcome.

Context {E : Type -> Type} {W : Type} (h : handler E W).

(** What the orchestrator does with the main server enabled, for any
    [_send_to_smtp]: the main attempt, then the secondary attempt when the
    decision asks for it, then the reduction of the two outcomes. *)
Lemma run_master_program_with (self : Self) (send_to_smtp : Z -> string -> prog E bool)
    (w : W) :
  _main self = true ->
  let p := master_program_with self send_to_smtp in
  let a0 := send_to_smtp 0 "主" in
  let a1 := send_to_smtp 1 "备用" in
  let w1 := world_of h a0 w in
  match result_of h a0 w with
  | inl e => result_of h p w = inl e
             /\ calls (trace_of h p w) = calls (trace_of h a0 w)
  | inr b =>
      if (_secondary self && (_test self || negb b))%bool then
        match result_of h a1 w1 with
        | inl e => result_of h p w = inl e
                   /\ calls (trace_of h p w)
                      = (calls (trace_of h a0 w) ++ calls (trace_of h a1 w1))%list
        | inr b' =>
            result_of h p w
            = log_result (inr (_generate_result_log_body self (Some b) (Some b')))
            /\ calls (trace_of h p w)
               = (calls (trace_of h a0 w) ++ calls (trace_of h a1 w1))%list
        end
      else
        result_of h p w = log_result (inr (_generate_result_log_body self (Some b) None))
        /\ calls (trace_of h p w) = calls (trace_of h a0 w)
  end.
Proof.
  intros Hmain p a0 a1 w1. subst p a0 a1 w1.
  unfold master_program_with. rewrite Hmain.
  assert (HD : forall v s w',
             calls (trace_of h (_determine_server self v s) w') = []
             /\ world_of h (_determine_server self v s) w' = w'
             /\ result_of h (_determine_server self v s) w'
                = log_result (inr (_determine_server_body self v s))).
  { intros; apply run_determine_server. }
  assert (HG : forall m s w',
             calls (trace_of h (_generate_result_log self m s) w') = []
             /\ result_of h (_generate_result_log self m s) w'
                = log_result (inr (_generate_result_log_body self m s))).
  { intros m s w'. destruct (run_generate_result_log h self m s w') as (H1 & _ & H2).
    split; assumption. }
  destruct (HD 0 None w) as (Hc0 & Hw0 & Hr0).
  change (log_result (inr (_determine_server_body self 0 None)))
    with (@inr exn _ (Some true, "主"%string)) in Hr0.
  assert (HR : forall A (a : A) w', result_of h (Ret a) w' = inr a) by reflexivity.
  assert (HT : forall A (a : A) w', trace_of h (Ret a) w' = []) by reflexivity.
  assert (HW : forall A (a : A) w', world_of h (Ret a) w' = w') by reflexivity.
  destruct (result_of h (send_to_smtp 0 "主") w) as [e | b] eqn:H0.
  { repeat (rewrite ?result_of_bind, ?trace_of_bind, ?world_of_bind, ?calls_app,
              ?Hr0, ?Hc0, ?Hw0, ?H0, ?HR, ?HT, ?HW, ?app_nil_r;
            cbv beta iota; cbn [is_True app calls filter]).
    split; reflexivity. }
  set (w1 := world_of h (send_to_smtp 0 "主") w).
  destruct (HD 1 (Some b) w1) as (Hc1 & Hw1 & Hr1).
  change (log_result (inr (_determine_server_body self 1 (Some b))))
    with (@inr exn _ (if _test self then Some (_secondary self)
                      else if b then Some false else Some (_secondary self),
                      "备用"%string)) in Hr1.
  assert (HG1 : forall m s w',
             calls (trace_of h (_generate_result_log self m s) w') = []).
  { intros; apply HG. }
  assert (HG2 : forall m s w',
             result_of h (_generate_result_log self m s) w'
             = log_result (inr (_generate_result_log_body self m s))).
  { intros; apply HG. }
  destruct (_secondary self) eqn:Hsec; cbn [andb].
  - assert (Hdec : is_True (if _test self then Some true
                            else if b then Some false else Some true)
                   = (_test self || negb b)%bool).
    { destruct (_test self), b; reflexivity. }
    destruct (_test self || negb b)%bool.
    + destruct (result_of h (send_to_smtp 1 "备用") w1) as [e | b'] eqn:H1;
        repeat (rewrite ?result_of_bind, ?trace_of_bind, ?world_of_bind, ?calls_app,
                  ?Hr0, ?Hc0, ?Hw0, ?H0, ?HR, ?HT, ?HW, ?app_nil_r;
                fold w1; rewrite ?Hr1, ?Hc1, ?Hw1, ?Hdec, ?H1, ?HG1, ?HG2;
                cbv beta iota; cbn [is_True app calls filter]);
        split; reflexivity.
    + repeat (rewrite ?result_of_bind, ?trace_of_bind, ?world_of_bind, ?calls_app,
                ?Hr0, ?Hc0, ?Hw0, ?H0, ?HR, ?HT, ?HW, ?app_nil_r;
              fold w1; rewrite ?Hr1, ?Hc1, ?Hw1, ?Hdec, ?H1, ?HG1, ?HG2;
              cbv beta iota; cbn [is_True app calls filter]).
      split; reflexivity.
  - repeat (rewrite ?result_of_bind, ?trace_of_bind, ?world_of_bind, ?calls_app,
              ?Hr0, ?Hc0, ?Hw0, ?H0, ?HR, ?HT, ?HW, ?app_nil_r;
            fold w1; rewrite ?HG1, ?HG2;
            cbv beta iota; cbn [is_True app calls filter]).
    split; reflexivity.
Qed.

End OrchestratorOutcome.

Section Deliveries.

Context {W : Type} (h : handler libcall W).







End Deliveries.

(** [master_program] is never left by an exception of the reduction when the
    main server was attempted. *)
Lemma reduction_returns (self : Self) (b : bool) (s : option bool) :
  exists o,
    log_result (inr (_generate_result_log_body self (Some b) s)) = inr o
    /\ (if _test self then has_sentence o = true else o = None).
Proof.
  unfold _generate_result_log_body.
  destruct (_test self), b, s as [[|] |]; eexists; split; reflexivity.
Qed.

(** X10.  [master_program], lines 1500-1525, with [_send_to_smtp].  With the main
    server enabled, nothing but a [quit] that raised in the handler of an
    attempt makes [master_program] raise: every failure to connect, to build
    the message or to send it is absorbed. *)
Theorem master_program_raises_only_by_quit :
  forall (W : Type) (h : handler libcall W) (w : W) (self : Self)
         (title text msg_type userid image : pyval) (e : exn),
    _main self = true ->
    result_of h (master_program self title text msg_type userid image) w = inl e ->
    existsb ev_failed_quit
      (trace_of h (master_program self title text msg_type userid image) w) = true.
Proof.
  intros W h w self title text msg_type userid image e Hmain Hres.
  unfold master_program in *.
  pose proof (run_master_program_with h self
                (fun smtp_value server_type =>
                   _send_to_smtp self smtp_value server_type msg_type title text image
                     userid) w Hmain) as Hrun.
  cbv zeta beta in Hrun.
  rewrite <- (existsb_calls ev_failed_quit) by reflexivity.
  assert (Hq : forall v st w' e',
             result_of h (_send_to_smtp self v st msg_type title text image userid) w'
             = inl e' ->
             existsb ev_failed_quit
               (calls (trace_of h (_send_to_smtp self v st msg_type title text image
                                     userid) w')) = true).
  { intros v st w' e' He'. rewrite existsb_calls by reflexivity.
    exact (proj1 (run_attempt_outcomes h w' self v st msg_type title text image userid)
             e' He'). }
  destruct (result_of h (_send_to_smtp self 0 "主" msg_type title text image userid) w)
    as [e0 | b] eqn:H0.
  - destruct Hrun as (_ & ->). exact (Hq _ _ _ _ H0).
  - destruct (_secondary self && (_test self || negb b))%bool.
    + destruct (result_of h (_send_to_smtp self 1 "备用" msg_type title text image userid)
                  _) as [e1 | b'] eqn:H1.
      * destruct Hrun as (_ & ->). rewrite existsb_app.
        apply orb_true_iff. right. exact (Hq _ _ _ _ H1).
      * destruct Hrun as (Hr & _).
        destruct (reduction_returns self b (Some b')) as (o & Ho & _).
        rewrite Hr, Ho in Hres. discriminate Hres.
    + destruct Hrun as (Hr & _).
      destruct (reduction_returns self b None) as (o & Ho & _).
      rewrite Hr, Ho in Hres. discriminate Hres.
Qed.

Lemma master_program_raises_only_by_quit_witness :
  existsb ev_failed_quit
    (trace_of dropping_world
       (master_program main_only (PyStr "title") (PyStr "text") (PyEnum Plugin)
          PyNone PyNone) tt) = true.
Proof.
  apply (@master_program_raises_only_by_quit unit dropping_world tt main_only
           (PyStr "title") (PyStr "text") (PyEnum Plugin) PyNone PyNone
           (Exception_ "模块运行失败 - 原因 - please run connect() first"));
    [reflexivity | vm_compute; reflexivity].
Defined.

(** X11.  [master_program], lines 1500-1525, for any [_send_to_smtp].  Whenever
    [master_program] returns, the main server is enabled, and what it
    returns is a summary sentence on a test run and None on every other
    run. *)
Theorem master_program_returns_sentence_on_test_only :
  forall (E : Type -> Type) (W : Type) (h : handler E W) (w : W) (self : Self)
         (send_to_smtp : Z -> string -> prog E bool) (o : option string),
    result_of h (master_program_with self send_to_smtp) w = inr o ->
    _main self = true
    /\ (if _test self then has_sentence o = true else o = None).
Proof.
  intros E W h w self send_to_smtp o Hres.
  destruct (_main self) eqn:Hmain.
  - split; [reflexivity |].
    pose proof (run_master_program_with h self send_to_smtp w Hmain) as Hrun.
    cbv zeta in Hrun.
    destruct (result_of h (send_to_smtp 0 "主") w) as [e0 | b].
    + destruct Hrun as (Hr & _). rewrite Hr in Hres. discriminate Hres.
    + destruct (_secondary self && (_test self || negb b))%bool.
      * destruct (result_of h (send_to_smtp 1 "备用") _) as [e1 | b'].
        -- destruct Hrun as (Hr & _). rewrite Hr in Hres. discriminate Hres.
        -- destruct Hrun as (Hr & _).
           destruct (reduction_returns self b (Some b')) as (o' & Ho & Hs).
           rewrite Hr, Ho in Hres. injection Hres as <-. exact Hs.
      * destruct Hrun as (Hr & _).
        destruct (reduction_returns self b None) as (o' & Ho & Hs).
        rewrite Hr, Ho in Hres. injection Hres as <-. exact Hs.
  - destruct (run_secondary_only h self send_to_smtp w Hmain) as (_ & Hr).
    rewrite Hr in Hres. discriminate Hres.
Qed.

Lemma master_program_returns_sentence_on_test_only_witness :
  _main main_only = true /\ (@None string) = None.
Proof.
  exact (@master_program_returns_sentence_on_test_only libcall unit friendly_world tt
           main_only
           (fun smtp_value server_type =>
              _send_to_smtp main_only smtp_value server_type (PyEnum Plugin)
                (PyStr "title") (PyStr "text") PyNone PyNone)
           None eq_refl).
Defined.


(** * Test runs *)

(** X13.  [_msg_parameter_validation] with [master_program], lines 1618-1667 and
    1500-1525.  While the test switch is on, what the event carries is not
    looked at: every field of the message is replaced, so [master_program]
    does for any event what it does when called without arguments. *)
Theorem test_run_ignores_the_event :
  forall (self : Self) (title text msg_type userid image : pyval),
    _test self = true ->
    master_program self title text msg_type userid image
    = master_program self PyNone PyNone PyNone PyNone PyNone.
Proof.
  intros self title text msg_type userid image Htest.
  destruct self as [en si mn sc ts lm om ct mh mp me mm mw sh sp se sm sw sn rm mt].
  simpl in Htest. subst ts. reflexivity.
Qed.

Lemma test_run_ignores_the_event_witness :
  master_program test_run (PyStr "title") (PyStr "text") (PyEnum Plugin) PyNone
    (PyStr "https://example.com/cover.gif")
  = master_program test_run PyNone PyNone PyNone PyNone PyNone.
Proof.
  exact (@test_run_ignores_the_event test_run (PyStr "title") (PyStr "text")
           (PyEnum Plugin) PyNone (PyStr "https://example.com/cover.gif") eq_refl).
Defined.

(** * Templates that cannot be read *)

Section Template.

Context {W : Type} (h : handler libcall W).

(** The template stage fails when its file cannot be read. *)
Lemma template_unreadable self text image title userid msg_type (w : W) (e : exn) :
  fst (@h _ (read_template (template_of self)) w) = inl e ->
  exists e', result_of h (__msg_build_read_email_template self text image title userid
                            msg_type) w = inl e'.
Proof.
  unfold __msg_build_read_email_template. rewrite result_of_log.
  unfold result_of, template_of, lcall, call.
  destruct (_enabled_customizable_mail_template self);
    cbn [bind attempt try_catch run];
    destruct (@h _ _ w) as [[e0 | x] w']; cbn [fst]; intros He; try discriminate He;
    cbn; eexists; reflexivity.
Qed.

Lemma build_without_template self title text image userid msg_type sender_name sender_mail
    (w : W) :
  (forall w', exists e, fst (@h _ (read_template (template_of self)) w') = inl e) ->
  exists e', result_of h (_msg_build_email self title text image userid msg_type
                            sender_name sender_mail) w = inl e'.
Proof.
  intros Hno. unfold _msg_build_email. rewrite result_of_bind.
  destruct (result_of h (lcall (MIMEMultipart_new "mixed")) w) as [e | u];
    [eexists; reflexivity |].
  rewrite result_of_bind.
  destruct (Hno (world_of h (lcall (MIMEMultipart_new "mixed")) w)) as (e & He).
  destruct (template_unreadable self text image title userid msg_type _ He) as (e' & ->).
  eexists; reflexivity.
Qed.

End Template.

(** Without a readable template an attempt hands nothing to [sendmail]. *)
Lemma attempt_without_template :
  forall (W : Type) (h : handler libcall W) (w : W) (self : Self) (v : Z)
         (server_type : string) (msg_type title text image userid : pyval),
    (forall w', exists e, fst (h _ (read_template (template_of self)) w') = inl e) ->
    let p := _send_to_smtp self v server_type msg_type title text image userid in
    sent_messages (trace_of h p w) = [] /\ result_of h p w <> inr true.
Proof.
  intros W h w self v server_type msg_type title text image userid Hno p. subst p.
  set (o := _send_to_smtp_open self v server_type msg_type title text image userid).
  assert (Ho : sent_messages (trace_of h o w) = []).
  { apply (no_sendmail_in h (@is_connect_call));
      [intros X c x; destruct c; try discriminate; reflexivity | apply open_calls]. }
  rewrite <- sent_messages_calls.
  destruct (result_of h o w)
    as [e | [[[[[[title' text'] image'] userid'] msg_type'] conn] s]] eqn:Hopen.
  - destruct (run_send_to_smtp h self v server_type msg_type title text image userid w)
      as (rest & Hcalls & Hfail).
    destruct (Hfail _ Hopen) as (-> & _ & Hres).
    fold o in Hcalls. rewrite Hcalls, app_nil_r, sent_messages_calls, Ho, Hres.
    split; [reflexivity | discriminate].
  - destruct (run_send_to_smtp_after_open h self v server_type msg_type title text image
                userid w Hopen) as (Hcalls & Hres).
    fold o in Hcalls, Hres.
    set (d := _send_to_smtp_deliver self server_type title' text' image' userid'
                msg_type' conn s) in *.
    set (w1 := world_of h o w) in *.
    assert (Hd : exists e, result_of h d w1 = inl e
                           /\ sent_messages (trace_of h d w1) = []).
    { subst d. unfold _send_to_smtp_deliver.
      rewrite result_of_bind, trace_of_bind.
      assert (HR : sent_messages (trace_of h (_get_receiver_and_sender self conn) w1) = []).
      { apply (no_sendmail_in h (@no_call libcall));
          [intros X c x Hc; discriminate Hc | apply receiver_and_sender_calls_nothing]. }
      destruct (result_of h (_get_receiver_and_sender self conn) w1)
        as [e | [[rl sn] sm]].
      { exists e. rewrite app_nil_r. split; [reflexivity | exact HR]. }
      cbv beta iota. rewrite result_of_bind, trace_of_bind.
      destruct (build_without_template h self title' text' image' userid' msg_type' sn sm
                  (world_of h (_get_receiver_and_sender self conn) w1) Hno) as (e' & He').
      rewrite He'. exists e'. split; [reflexivity |].
      rewrite app_nil_r. unfold sent_messages in *. rewrite collect_app, HR. cbn [app].
      apply (no_sendmail_in h (@is_build));
        [intros X c x; destruct c; try discriminate; reflexivity
        | apply build_email_calls]. }
    destruct Hd as (e & Hde & Hds).
    rewrite Hres, Hcalls, Hde.
    split.
    + unfold sent_messages in *. rewrite !collect_app.
      rewrite !(collect_calls sendmail_args) by reflexivity.
      rewrite Ho, Hds. reflexivity.
    + destruct (fst (h unit (quit s) (world_of h d w1))); discriminate.
Qed.

(** X14.  [_send_to_smtp] with [__msg_build_read_email_template], lines 1571-1616
    and 1813-1850.  When the template file of the configuration cannot be
    read, an attempt never hands a message to the server and never returns
    True, whatever the servers answer; the template is read only after the
    session has been opened. *)
Theorem unreadable_template_sends_nothing :
  forall (W : Type) (h : handler libcall W) (w : W) (self : Self) (v : Z)
         (server_type : string) (msg_type title text image userid : pyval),
    (forall w', exists e, fst (h _ (read_template (template_of self)) w') = inl e) ->
    let p := _send_to_smtp self v server_type msg_type title text image userid in
    sent_messages (trace_of h p w) = [] /\ result_of h p w <> inr true.
Proof. exact attempt_without_template. Qed.

Lemma unreadable_template_sends_nothing_witness :
  sent_messages
    (trace_of no_template_world
       (_send_to_smtp main_only 0 "主" (PyEnum Plugin) (PyStr "title") (PyStr "text")
          PyNone PyNone) tt) = []
  /\ result_of no_template_world
       (_send_to_smtp main_only 0 "主" (PyEnum Plugin) (PyStr "title") (PyStr "text")
          PyNone PyNone) tt <> inr true.
Proof.
  apply (@unreadable_template_sends_nothing unit no_template_world tt main_only 0 "主"
           (PyEnum Plugin) (PyStr "title") (PyStr "text") PyNone PyNone).
  intros w'. exists file_not_found. reflexivity.
Defined.

(** * Start-up *)

Section Lift.

Context {W : Type} (h : handler hostcall W).

(** A lifted program runs as the program itself does against the library
    answers of the host. *)
Lemma run_lift {A} (p : lprog A) (w : W) :
  run h (lift p) w
  = (map lift_event (trace_of (library_of h) p w),
     world_of (library_of h) p w,
     result_of (library_of h) p w).
Proof.
  unfold trace_of, world_of, result_of. revert w.
  induction p as [a | e | lv l k IH | X c k IH]; intros w; simpl; try reflexivity.
  - rewrite IH. destruct (run (library_of h) k w) as [[tr w'] r]. reflexivity.
  - change (@library_of W h X c w) with (@h X (library c) w).
    destruct (@h X (library c) w) as [x w1].
    rewrite IH. destruct (run (library_of h) (k x) w1) as [[tr w'] r]. reflexivity.
Qed.

End Lift.


(** X15.  [init_plugin], lines 136-172.  A configuration that is not empty makes
    [init_plugin] read the custom template file before anything else, even
    when the configuration has a content of its own: when the file cannot be
    read, [init_plugin] raises that exception, and the file is neither
    created nor is anything stored or sent. *)
Theorem init_reads_custom_template_first :
  forall (W : Type) (h : handler hostcall W) (w : W) (p : SmtpMsg) (c : InitConfig)
         (e : exn),
    fst (h _ custom_template_read_text w) = inl e ->
    run h (init_plugin p (Some c)) w
    = ([EvLog info ("汇报 - 初始化插件 - " ++ plugin_name);
        EvCall custom_template_read_text (inl e)],
       snd (h _ custom_template_read_text w), inl e).
Proof.
  intros W h w p c e He. unfold init_plugin, hcall, call, logger_info.
  cbn [bind run].
  destruct (h _ custom_template_read_text w) as [x w1]. simpl in He. subst x.
  reflexivity.
Qed.

Lemma init_reads_custom_template_first_witness :
  run (filesystem friendly_world) (init_plugin class_defaults (Some stored_config))
    fresh_host
  = ([EvLog info ("汇报 - 初始化插件 - " ++ plugin_name);
      EvCall custom_template_read_text (inl file_not_found)],
     fresh_host, inl file_not_found).
Proof.
  exact (@init_reads_custom_template_first Host (filesystem friendly_world) fresh_host
           class_defaults stored_config file_not_found eq_refl).
Defined.



Section TemplateSettings.

Context {W : Type} (h : handler hostcall W).

Ltac answer :=
  match goal with
  | |- context [@h ?X ?c ?w] =>
      let e := fresh "e" in
      let x := fresh "x" in
      let w' := fresh "w" in
      destruct (@h X c w) as [[e | x] w']
  end.

Ltac crunch :=
  repeat first
    [ progress cbn
    | answer
    | match goal with
      | |- context [if ?b then _ else _] => destruct b
      | |- context [let (_, _) := ?x in _] => is_var x; destruct x
      end ].

(** What [_template_settings] has done when it returns. *)
Lemma run_template_settings (p p' : SmtpMsg) (returned : option string) (w : W) :
  result_of h (_template_settings p) w = inr (p', returned) ->
  let tr := trace_of h (_template_settings p) w in
  (_save p' = false /\ _reset p' = false /\ fields p' = fields p)
  /\ notices_put tr
     = match returned with
       | Some m => if _save p then [Some m; Some m] else [Some m]
       | None => []
       end
  /\ (returned = None <-> (_save p || _reset p)%bool = false)
  /\ texts_written tr = (if _save p then [_content p] else [])
  /\ existsb ev_is_copy tr = (negb (_save p) && _reset p)%bool
  /\ (_save p = true \/ _reset p = false -> _content p' = _content p)
  /\ length (configs_stored tr)
     = (if _save p then if _reset p then 2 else 1 else if _reset p then 1 else 0)%nat.
Proof.
  intros Hr tr. subst tr. revert Hr.
  unfold _template_settings, __update_config, log, trace_of, result_of, hcall, call.
  destruct p as [self save reset r1 r2 content].
  cbn [_save _reset fields _content set_save set_reset set_content
       _enabled_msg_rules _enabled_customizable_msg_rules].
  destruct save, reset, (_log_more self); cbn [orb negb andb];
    crunch; intros Hr; try discriminate Hr; injection Hr as <- <-;
    cbn; repeat split; intros; try discriminate; auto;
    match goal with H : _ \/ _ |- _ => destruct H; discriminate end.
Qed.

End TemplateSettings.

(** X17.  [_template_settings], lines 248-285.  When the method returns, both
    switches are off.  With the save switch on, the stored content is
    written to the custom template and the default template is not copied,
    whether or not the restore switch was on as well; the notice of a save
    is queued twice, that of a restore once; the method returns None only
    when neither switch was on. *)
Theorem save_wins_and_is_announced_twice :
  forall (W : Type) (h : handler hostcall W) (w : W) (p p' : SmtpMsg)
         (returned : option string),
    result_of h (_template_settings p) w = inr (p', returned) ->
    let tr := trace_of h (_template_settings p) w in
    (_save p' = false /\ _reset p' = false /\ fields p' = fields p)
    /\ notices_put tr
       = match returned with
         | Some m => if _save p then [Some m; Some m] else [Some m]
         | None => []
         end
    /\ (returned = None <-> (_save p || _reset p)%bool = false)
    /\ texts_written tr = (if _save p then [_content p] else [])
    /\ existsb ev_is_copy tr = (negb (_save p) && _reset p)%bool
    /\ (_save p = true \/ _reset p = false -> _content p' = _content p)
    /\ length (configs_stored tr)
       = (if _save p then if _reset p then 2 else 1 else if _reset p then 1 else 0)%nat.
Proof. intros W h w p p' returned. apply run_template_settings. Qed.

Lemma save_wins_and_is_announced_twice_witness :
  notices_put
    (trace_of (filesystem friendly_world)
       (_template_settings (plugin_with main_only true true "<p>{title}</p>"))
       started_host)
  = [Some ("自定义模板与恢复默认模板不可同时启动，关闭恢复默认模板按钮！"
           ++ "自定义邮件模板保存成功！");
     Some ("自定义模板与恢复默认模板不可同时启动，关闭恢复默认模板按钮！"
           ++ "自定义邮件模板保存成功！")].
Proof.
  exact (proj1 (proj2 (@save_wins_and_is_announced_twice Host (filesystem friendly_world)
                         started_host
                         (plugin_with main_only true true "<p>{title}</p>")
                         (plugin_with main_only false false "<p>{title}</p>")
                         (Some ("自定义模板与恢复默认模板不可同时启动，关闭恢复默认模板按钮！"
                                ++ "自定义邮件模板保存成功！"))
                         eq_refl))).
Defined.

Section RunPlugin.

Context {W : Type} (h : handler hostcall W).

Lemma collect_map_lift {B} (f : hevent -> option B) (tr : list levent) :
  (forall ev, f (lift_event ev) = None) -> collect f (map lift_event tr) = [].
Proof.
  intros Hf. unfold collect. induction tr as [| ev tr IH]; simpl; [reflexivity |].
  now rewrite Hf, IH.
Qed.

(** [_run_plugin] with the plugin switched off, or switched on with nothing
    to test. *)
Lemma run_plugin_idle (p : SmtpMsg) (w : W) :
  _enabled (fields p) = false
  \/ ((_main (fields p) || _secondary (fields p))%bool = true
      /\ _test (fields p) = false) ->
  run h (_run_plugin p) w = ([], w, inr p).
Proof.
  unfold _run_plugin.
  intros [-> | [Hs ->]]; [reflexivity |].
  destruct (_enabled (fields p)); [| reflexivity].
  destruct (_main (fields p)), (_secondary (fields p)); try discriminate Hs; reflexivity.
Qed.

(** [_run_plugin] with no server enabled: when it returns, the plugin is
    off, and so is the stored one. *)
Lemma run_plugin_incomplete (p p' : SmtpMsg) (w : W) :
  _enabled (fields p) = true ->
  _main (fields p) = false ->
  _secondary (fields p) = false ->
  result_of h (_run_plugin p) w = inr p' ->
  p' = set_fields p (set_test (set_enabled (fields p) false) false)
  /\ map config_fields (configs_stored (trace_of h (_run_plugin p) w)) = [fields p']
  /\ existsb ev_is_library (trace_of h (_run_plugin p) w) = false.
Proof.
  intros He Hm Hs. unfold _run_plugin, __update_config, trace_of, result_of, hcall, call.
  rewrite He, Hm, Hs. cbn [negb andb bind run logger_warning].
  destruct (@h _ custom_template_read_text w) as [[e | x] w1]; cbn; [discriminate |].
  destruct (@h _ (update_config _) w1) as [[e | x'] w2]; cbn; [discriminate |].
  destruct (@h _ (systemmessage_put _) w2) as [[e | x''] w3]; cbn; [discriminate |].
  intros [= <-]. repeat split.
Qed.

(** [_run_plugin] on a test run. *)
Lemma run_plugin_test (p : SmtpMsg) (w : W) :
  _enabled (fields p) = true ->
  (_main (fields p) || _secondary (fields p))%bool = true ->
  _test (fields p) = true ->
  let mp := master_program (fields p) PyNone PyNone PyNone PyNone PyNone in
  let tr := trace_of h (_run_plugin p) w in
  match result_of (library_of h) mp w with
  | inl e =>
      run h (_run_plugin p) w
      = (map lift_event (trace_of (library_of h) mp w), world_of (library_of h) mp w, inl e)
  | inr m =>
      forall p', result_of h (_run_plugin p) w = inr p' ->
                 p' = set_fields p (set_test (fields p) false)
                 /\ map config_fields (configs_stored tr) = [fields p']
                 /\ notices_put tr = [m]
  end.
Proof.
  intros He Hs Ht mp tr. subst mp tr.
  unfold _run_plugin, trace_of, result_of.
  rewrite He, Ht.
  assert (Hn : (negb (_main (fields p)) && negb (_secondary (fields p)))%bool = false).
  { destruct (_main (fields p)), (_secondary (fields p)); try discriminate Hs;
      reflexivity. }
  rewrite Hn. rewrite run_bind, run_lift.
  unfold result_of, trace_of, world_of.
  destruct (run (library_of h) _ w) as [[tr0 w0] [e | m]]; cbn [fst snd]; [reflexivity |].
  unfold __update_config, hcall, call. cbn [bind run].
  destruct (@h _ custom_template_read_text w0) as [[e | x] w1]; cbn [bind run fst snd];
    [intros p' Hr; discriminate Hr |].
  match goal with
  | |- context [@h ?X ?c w1] => destruct (@h X c w1) as [[e | x'] w2]
  end; cbn [bind run fst snd]; [intros p' Hr; discriminate Hr |].
  match goal with
  | |- context [@h ?X ?c w2] => destruct (@h X c w2) as [[e | x''] w3]
  end; cbn [bind run fst snd]; [intros p' Hr; discriminate Hr |].
  intros p' [= <-]. split; [reflexivity |].
  unfold configs_stored, notices_put. rewrite !collect_app.
  rewrite !collect_map_lift by (intros [lv l | X c x0]; reflexivity).
  split; reflexivity.
Qed.

End RunPlugin.

(** X18.  [_run_plugin], lines 287-308.  When [_run_plugin] returns, a plugin that
    is still enabled has a server to send with and no test pending; what was
    stored is the object as the method leaves it, and it is stored only when
    the method changed it; a library call of the sending code is made only
    for a pending test of an enabled plugin. *)
Theorem run_plugin_leaves_no_pending_test :
  forall (W : Type) (h : handler hostcall W) (w : W) (p p' : SmtpMsg),
    result_of h (_run_plugin p) w = inr p' ->
    let tr := trace_of h (_run_plugin p) w in
    let self := fields p in
    (_enabled (fields p') = true ->
       _test (fields p') = false
       /\ (_main (fields p') || _secondary (fields p'))%bool = true)
    /\ (_save p' = _save p /\ _reset p' = _reset p /\ _content p' = _content p)
    /\ map config_fields (configs_stored tr)
       = (if (_enabled self && (_test self || negb (_main self || _secondary self)))%bool
          then [fields p'] else [])
    /\ (existsb ev_is_library tr = true ->
          _enabled self = true /\ _test self = true).
Proof.
  intros W h w p p' Hr tr self. subst tr self.
  destruct (_enabled (fields p)) eqn:He.
  2: { pose proof (run_plugin_idle h p w (or_introl He)) as Hrun.
       unfold result_of, trace_of in *. rewrite Hrun in *. cbn in Hr |- *.
       injection Hr as <-. rewrite He. repeat split; intros; discriminate. }
  destruct (_main (fields p) || _secondary (fields p))%bool eqn:Hs.
  2: { apply orb_false_iff in Hs as [Hm Hs2].
       destruct (run_plugin_incomplete h p w He Hm Hs2 Hr) as (-> & Hst & Hlib).
       rewrite Hst, Hlib, orb_true_r. cbn.
       repeat split; intros; discriminate. }
  destruct (_test (fields p)) eqn:Ht.
  2: { pose proof (run_plugin_idle h p w (or_intror (conj Hs Ht))) as Hrun.
       unfold result_of, trace_of in *. rewrite Hrun in *. cbn in Hr |- *.
       injection Hr as <-. rewrite He, Hs, Ht.
       repeat split; intros; discriminate. }
  pose proof (run_plugin_test h p w He Hs Ht) as Hrun. cbv zeta in Hrun.
  destruct (result_of (library_of h) _ w) as [e | m].
  { unfold result_of in Hr. rewrite Hrun in Hr. discriminate Hr. }
  destruct (Hrun p' Hr) as (-> & Hst & _).
  rewrite Hst. cbn. rewrite Hs.
  repeat split; intros; reflexivity.
Qed.

Lemma run_plugin_leaves_no_pending_test_witness :
  map config_fields
    (configs_stored (trace_of (filesystem friendly_world) (_run_plugin no_server_plugin)
                       started_host))
  = [set_test (set_enabled (fields no_server_plugin) false) false].
Proof.
  exact (proj1 (proj2 (proj2
           (@run_plugin_leaves_no_pending_test Host (filesystem friendly_world)
              started_host no_server_plugin
              (set_fields no_server_plugin
                 (set_test (set_enabled (fields no_server_plugin) false) false))
              eq_refl)))).
Defined.

(** X19.  [_run_plugin] with [master_program], lines 287-308 and 1500-1525.  A
    test run that raises leaves [_run_plugin] by the same exception before
    the test switch is cleared: nothing is stored and no notice is queued,
    so the test is still pending at the next start.  With the main server
    disabled, the test run raises whatever the servers answer. *)
Theorem failed_test_run_stays_pending :
  forall (W : Type) (h : handler hostcall W) (w : W) (p : SmtpMsg),
    _enabled (fields p) = true ->
    _test (fields p) = true ->
    (_main (fields p) || _secondary (fields p))%bool = true ->
    let mp := master_program (fields p) PyNone PyNone PyNone PyNone PyNone in
    let tr := trace_of h (_run_plugin p) w in
    (forall e, result_of (library_of h) mp w = inl e ->
               result_of h (_run_plugin p) w = inl e
               /\ configs_stored tr = []
               /\ notices_put tr = [])
    /\ (_main (fields p) = false ->
        result_of h (_run_plugin p) w
        = inl (Exception_ "模块运行失败 - 原因 - 出现未知错误，无法打印运行结果")).
Proof.
  intros W h w p He Ht Hs mp tr. subst mp tr.
  pose proof (run_plugin_test h p w He Hs Ht) as Hrun. cbv zeta in Hrun.
  assert (Hgen : forall e,
             result_of (library_of h)
               (master_program (fields p) PyNone PyNone PyNone PyNone PyNone) w = inl e ->
             result_of h (_run_plugin p) w = inl e
             /\ configs_stored (trace_of h (_run_plugin p) w) = []
             /\ notices_put (trace_of h (_run_plugin p) w) = []).
  { intros e Hmp. rewrite Hmp in Hrun.
    unfold result_of, trace_of, configs_stored, notices_put. rewrite Hrun. cbn [fst snd].
    rewrite !collect_map_lift by (intros [lv l | X c x0]; reflexivity).
    repeat split. }
  split; [exact Hgen |].
  intros Hm. apply Hgen.
  unfold master_program.
  exact (proj2 (run_secondary_only (library_of h) (fields p) _ w Hm)).
Qed.

Lemma failed_test_run_stays_pending_witness :
  result_of (filesystem friendly_world) (_run_plugin secondary_test_plugin) started_host
  = inl (Exception_ "模块运行失败 - 原因 - 出现未知错误，无法打印运行结果").
Proof.
  exact (proj2 (@failed_test_run_stays_pending Host (filesystem friendly_world)
                  started_host secondary_test_plugin eq_refl eq_refl eq_refl) eq_refl).
Defined.

(** X20.  [init_plugin] with [_template_settings] and [_run_plugin], lines
    136-172, 248-308.  Whenever [init_plugin] returns, the save and restore
    switches are off, and a plugin that is enabled has a server to send with
    and no test pending: this is the state in which [send] finds the
    plugin. *)
Theorem init_plugin_establishes_invariant :
  forall (W : Type) (h : handler hostcall W) (w : W) (p p' : SmtpMsg)
         (config : option InitConfig),
    result_of h (init_plugin p config) w = inr p' ->
    _save p' = false
    /\ _reset p' = false
    /\ (_enabled (fields p') = true ->
          _test (fields p') = false
          /\ (_main (fields p') || _secondary (fields p'))%bool = true).
Proof.
  intros W h w p p' config Hr.
  unfold init_plugin in Hr.
  apply bind_returns in Hr as (u & _ & Hr & _).
  apply bind_returns in Hr as (p1 & _ & Hr & _).
  apply bind_returns in Hr as (p2 & _ & Hr & _).
  apply bind_returns in Hr as ([p3 returned] & Hts & Hr & _).
  apply run_template_settings in Hts. cbv zeta in Hts.
  destruct Hts as ((Hsave & Hreset & _) & _).
  match type of Hr with
  | result_of h (_run_plugin p3) ?w0 = _ => generalize dependent w0; intros w3 Hr
  end.
  assert (Hpost : (_enabled (fields p') = true ->
                     _test (fields p') = false
                     /\ (_main (fields p') || _secondary (fields p'))%bool = true)
                  /\ _save p' = _save p3 /\ _reset p' = _reset p3).
  { destruct (_enabled (fields p3)) eqn:He.
    2: { pose proof (run_plugin_idle h p3 w3 (or_introl He)) as Hrun.
         unfold result_of in Hr. rewrite Hrun in Hr. injection Hr as <-.
         rewrite He. repeat split; intros; discriminate. }
    destruct (_main (fields p3) || _secondary (fields p3))%bool eqn:Hs.
    2: { apply orb_false_iff in Hs as [Hm Hs2].
         destruct (run_plugin_incomplete h p3 w3 He Hm Hs2 Hr) as (-> & _).
         repeat split; intros; discriminate. }
    destruct (_test (fields p3)) eqn:Ht.
    2: { pose proof (run_plugin_idle h p3 w3 (or_intror (conj Hs Ht))) as Hrun.
         unfold result_of in Hr. rewrite Hrun in Hr. injection Hr as <-.
         rewrite Hs, Ht. repeat split. }
    pose proof (run_plugin_test h p3 w3 He Hs Ht) as Hrun. cbv zeta in Hrun.
    destruct (result_of (library_of h) _ w3) as [e | m].
    { unfold result_of in Hr. rewrite Hrun in Hr. discriminate Hr. }
    destruct (Hrun p' Hr) as (-> & _). cbn. rewrite Hs. repeat split. }
  destruct Hpost as (Hinv & Hs' & Hr').
  rewrite Hs', Hr', Hsave, Hreset. repeat split; apply Hinv; assumption.
Qed.

Lemma init_plugin_establishes_invariant_witness :
  _save (plugin_with (fields (read_config class_defaults stored_config)) false false
           "<p>{text}</p>") = false.
Proof.
  exact (proj1 (@init_plugin_establishes_invariant Host (filesystem friendly_world)
                  started_host class_defaults
                  (plugin_with (fields (read_config class_defaults stored_config))
                     false false "<p>{text}</p>")
                  (Some stored_config) eq_refl)).
Defined.

(** X21.  [_check_path] followed by [_template_settings], lines 206-285, on a host
    with files.  When both return, the custom template file holds the
    content the plugin object has, with one exception: on a first start
    without stored content and with both switches off, the file holds what
    the default template held and the default template is gone. *)
Theorem start_reconciles_file_and_content :
  forall (lib : handler libcall unit) (w : Host) (p p1 p2 : SmtpMsg)
         (returned : option string),
    (custom_file w <> None -> custom_dir w = true) ->
    result_of (filesystem lib) (_check_path p) w = inr p1 ->
    result_of (filesystem lib) (_template_settings p1)
      (world_of (filesystem lib) (_check_path p) w) = inr (p2, returned) ->
    let w2 := world_of (filesystem lib) (_template_settings p1)
                (world_of (filesystem lib) (_check_path p) w) in
    custom_file w2 = Some (_content p2)
    \/ (custom_file w = None /\ _content p = ""%string
        /\ _save p = false /\ _reset p = false
        /\ custom_file w2 = default_file w /\ default_file w2 = None).
Proof.
  intros lib w p p1 p2 returned Hdir.
  unfold _check_path, __check_template_file, _template_settings.
  rewrite !world_of_log, !result_of_log.
  destruct p as [self save reset r1 r2 content].
  destruct w as [df cd cf st nt].
  cbn [custom_file custom_dir] in Hdir.
  unfold result_of, world_of, __update_config, hcall, call.
  cbn [_save _reset fields _content set_save set_reset set_content
       _enabled_msg_rules _enabled_customizable_msg_rules].
  destruct cf as [f |].
  - rewrite Hdir by discriminate.
    destruct save, reset; cbn; try destruct (content =? f)%string eqn:Hcf; cbn;
      try destruct df as [d |]; cbn;
      intros H1 H2; try discriminate;
      injection H1 as <-; cbn in H2; try discriminate; injection H2 as <- <-; cbn;
      try (apply String.eqb_eq in Hcf; subst); auto.
  - destruct (content =? "")%string eqn:Hc; cbn.
    + apply String.eqb_eq in Hc. subst content.
      destruct df as [d |]; cbn; [| intros H1; discriminate H1].
      destruct save, reset; cbn;
        intros H1 H2; try discriminate;
        injection H1 as <-; cbn in H2; try discriminate; injection H2 as <- <-; cbn;
        auto 10.
    + destruct save, reset; cbn; try destruct df as [d |]; cbn;
        intros H1 H2; try discriminate;
        injection H1 as <-; cbn in H2; try discriminate; injection H2 as <- <-; cbn;
        auto.
Qed.

Lemma start_reconciles_file_and_content_witness :
  custom_file
    (world_of (filesystem friendly_world)
       (_template_settings (plugin_with main_only true false "<p>{title}</p>"))
       (world_of (filesystem friendly_world)
          (_check_path (plugin_with main_only true false "<p>{title}</p>"))
          started_host))
  = Some "<p>{title}</p>"
  \/ (custom_file started_host = None
      /\ _content (plugin_with main_only true false "<p>{title}</p>") = ""%string
      /\ _save (plugin_with main_only true false "<p>{title}</p>") = false
      /\ _reset (plugin_with main_only true false "<p>{title}</p>") = false
      /\ custom_file
           (world_of (filesystem friendly_world)
              (_template_settings (plugin_with main_only true false "<p>{title}</p>"))
              (world_of (filesystem friendly_world)
                 (_check_path (plugin_with main_only true false "<p>{title}</p>"))
                 started_host))
         = default_file started_host
      /\ default_file
           (world_of (filesystem friendly_world)
              (_template_settings (plugin_with main_only true false "<p>{title}</p>"))
              (world_of (filesystem friendly_world)
                 (_check_path (plugin_with main_only true false "<p>{title}</p>"))
                 started_host))
         = None).
Proof.
  exact (@start_reconciles_file_and_content friendly_world started_host
           (plugin_with main_only true false "<p>{title}</p>")
           (plugin_with main_only true false "<p>{title}</p>")
           (plugin_with main_only false false "<p>{title}</p>")
           (Some "自定义邮件模板保存成功！")
           (fun _ => eq_refl) eq_refl eq_refl).
Defined.

(** * The event handler over the whole pipeline *)

(** How [send] can raise, for any [master_program]: on the [name] of a type
    that has none, or because [master_program] raised, in which case the
    handler has logged and called what [master_program] has. *)
Lemma send_with_raises {E : Type -> Type} {W : Type} (h : handler E W) (w : W)
    (self : Self)
    (mp : pyval -> pyval -> pyval -> pyval -> pyval -> prog E (option string))
    (event_data : option (dict pyval)) (e : exn) :
  result_of h (send_with self mp event_data) w = inl e ->
  exists msg_body,
    event_data = Some msg_body
    /\ passes_guards self msg_body = true
    /\ let msg_type := get msg_body "type" in
       let dispatch := mp (get msg_body "title") (get msg_body "text") msg_type
                         (get msg_body "userid") (get msg_body "image") in
       (is_enum msg_type = false
        /\ _msgtypes self <> []
        /\ e = attribute_error (type_name msg_type) "name"
        /\ trace_of h (send_with self mp event_data) w = [])
       \/ (result_of h dispatch w = inl e
           /\ trace_of h (send_with self mp event_data) w = trace_of h dispatch w).
Proof.
  unfold send_with, passes_guards.
  destruct event_data as [[| kv rest] |];
    [destruct (get_state self); discriminate | | destruct (get_state self); discriminate].
  set (body := kv :: rest).
  destruct (get_state self); [| discriminate]. cbn [negb].
  destruct (truthy (get body "channel")) eqn:Hch; [discriminate |].
  destruct (negb (truthy (get body "title")) && negb (truthy (get body "text")))%bool
    eqn:Hnn; [discriminate |].
  assert (Htt : (truthy (get body "title") || truthy (get body "text"))%bool = true).
  { destruct (truthy (get body "title")), (truthy (get body "text"));
      try reflexivity; discriminate Hnn. }
  intros Hr. exists body. split; [reflexivity |].
  split; [unfold body at 1; cbn [length Nat.eqb negb andb]; rewrite Hch; exact Htt |].
  cbv zeta.
  set (mp' := mp (get body "title") (get body "text") (get body "type")
                (get body "userid") (get body "image")) in *.
  assert (Hdispatch : forall p : prog E unit,
             p = (mp';; Ret tt) ->
             result_of h p w = inl e ->
             result_of h mp' w = inl e /\ trace_of h p w = trace_of h mp' w).
  { intros p -> He. rewrite result_of_bind in He. rewrite trace_of_bind.
    destruct (result_of h mp' w) as [e' | o]; [| discriminate He].
    injection He as ->. split; [reflexivity | apply app_nil_r]. }
  destruct (truthy (get body "type") && negb (length (_msgtypes self) =? 0)%nat)%bool
    eqn:Hc.
  - destruct (get body "type") as [| s | b | z | t] eqn:Hmt;
      try (left; apply andb_true_iff in Hc as [_ Hl];
           injection Hr as <-;
           repeat split; try reflexivity;
           intros Hnil; rewrite Hnil in Hl; discriminate Hl).
    right.
    destruct (negb (existsb (String.eqb (name t)) (_msgtypes self)));
      [destruct (negb (_other_msgtypes self)); [discriminate Hr |] |];
      apply Hdispatch; solve [reflexivity | exact Hr].
  - right. apply Hdispatch; [reflexivity | exact Hr].
Qed.

(** X22.  [send] with [master_program] and [_send_to_smtp], lines 1472-1525 and
    1571-1616.  The event handler raises in three ways only: the event has a
    type without a [name] while the allow-list is set; the main server is
    disabled; or the [quit] of a failed attempt raised.  No failure to
    connect, to build the message or to send it reaches the caller of
    [send]. *)
Theorem send_raises_in_three_ways :
  forall (W : Type) (h : handler libcall W) (w : W) (self : Self)
         (event_data : option (dict pyval)) (e : exn),
    result_of h (send self event_data) w = inl e ->
    (exists msg_body,
       event_data = Some msg_body
       /\ is_enum (get msg_body "type") = false
       /\ _msgtypes self <> []
       /\ e = attribute_error (type_name (get msg_body "type")) "name")
    \/ _main self = false
    \/ existsb ev_failed_quit (trace_of h (send self event_data) w) = true.
Proof.
  intros W h w self event_data e Hr. unfold send in *.
  destruct (send_with_raises h w self (master_program self) event_data Hr)
    as (body & -> & _ & Hcases).
  cbv zeta in Hcases.
  destruct Hcases as [(Hen & Hne & -> & _) | (Hmp & Htr)].
  - left. exists body. repeat split; assumption.
  - right. destruct (_main self) eqn:Hmain; [right | left; reflexivity].
    rewrite Htr.
    unfold master_program in *.
    pose proof (run_master_program_with h self
                  (fun smtp_value server_type =>
                     _send_to_smtp self smtp_value server_type (get body "type")
                       (get body "title") (get body "text") (get body "image")
                       (get body "userid")) w Hmain) as Hrun.
    cbv zeta beta in Hrun.
    rewrite <- (existsb_calls ev_failed_quit) by reflexivity.
    assert (Hq : forall v st w' e',
               result_of h (_send_to_smtp self v st (get body "type") (get body "title")
                              (get body "text") (get body "image") (get body "userid")) w'
               = inl e' ->
               existsb ev_failed_quit
                 (calls (trace_of h (_send_to_smtp self v st (get body "type")
                                       (get body "title") (get body "text")
                                       (get body "image") (get body "userid")) w'))
               = true).
    { intros v st w' e' He'. rewrite existsb_calls by reflexivity.
      exact (proj1 (run_attempt_outcomes h w' self v st (get body "type")
                      (get body "title") (get body "text") (get body "image")
                      (get body "userid")) e' He'). }
    destruct (result_of h (_send_to_smtp self 0 "主" (get body "type") (get body "title")
                             (get body "text") (get body "image") (get body "userid")) w)
      as [e0 | b] eqn:H0.
    + destruct Hrun as (_ & ->). exact (Hq _ _ _ _ H0).
    + destruct (_secondary self && (_test self || negb b))%bool.
      * destruct (result_of h (_send_to_smtp self 1 "备用" (get body "type")
                                 (get body "title") (get body "text") (get body "image")
                                 (get body "userid")) _) as [e1 | b'] eqn:H1.
        -- destruct Hrun as (_ & ->). rewrite existsb_app.
           apply orb_true_iff. right. exact (Hq _ _ _ _ H1).
        -- destruct Hrun as (Hres & _).
           destruct (reduction_returns self b (Some b')) as (o & Ho & _).
           rewrite Hres, Ho in Hmp. discriminate Hmp.
      * destruct Hrun as (Hres & _).
        destruct (reduction_returns self b None) as (o & Ho & _).
        rewrite Hres, Ho in Hmp. discriminate Hmp.
Qed.

Lemma send_raises_in_three_ways_witness :
  (exists msg_body,
     Some plugin_event = Some msg_body
     /\ is_enum (get msg_body "type") = false
     /\ _msgtypes secondary_only <> []
     /\ Exception_ "模块运行失败 - 原因 - 出现未知错误，无法打印运行结果"
        = attribute_error (type_name (get msg_body "type")) "name")
  \/ _main secondary_only = false
  \/ existsb ev_failed_quit
       (trace_of friendly_world (send secondary_only (Some plugin_event)) tt) = true.
Proof.
  exact (@send_raises_in_three_ways unit friendly_world tt secondary_only
           (Some plugin_event)
           (Exception_ "模块运行失败 - 原因 - 出现未知错误，无法打印运行结果") eq_refl).
Defined.

(** * Construction and sending after a failed embedding *)

Section AfterEmbedding.

Context {W : Type} (h : handler libcall W).

Ltac answer :=
  match goal with
  | |- context [@h ?X ?c ?w] =>
      let e := fresh "e" in
      let x := fresh "x" in
      let w' := fresh "w" in
      destruct (@h X c w) as [[e | x] w'] eqn:?
  end.

Ltac crunch :=
  repeat first
    [ progress cbn
    | answer
    | match goal with
      | |- context [if ?b then _ else _] => destruct b
      | |- context [let (_, _) := ?x in _] => is_var x; destruct x
      end ].

Lemma stopper_of_constructor (tr : list levent) :
  existsb failed_body_constructor tr = true -> existsb construction_stopper tr = true.
Proof.
  induction tr as [| ev tr IH]; simpl; [discriminate |].
  intros H. apply orb_true_iff in H as [H | H]; apply orb_true_iff.
  - left. destruct ev as [lv l | X c [e | x]]; try discriminate H;
      destruct c; try discriminate H; reflexivity.
  - right. apply IH, H.
Qed.

(** The template stage raises only when reading or formatting does. *)
Lemma template_raises_by_call self text image title userid msg_type (w : W) (e : exn) :
  let p := __msg_build_read_email_template self text image title userid msg_type in
  result_of h p w = inl e ->
  existsb construction_stopper (trace_of h p w) = true.
Proof.
  intro p; subst p.
  unfold __msg_build_read_email_template, log, trace_of, result_of, lcall, call.
  destruct (_enabled_customizable_mail_template self), (_log_more self);
    crunch; intros Hr; try discriminate Hr; reflexivity.
Qed.

(** The header stage raises only when [Header] does. *)
Lemma header_raises_by_call self message title sender_name sender_mail (w : W) (e : exn) :
  let p := __msg_build_email_Header self message title sender_name sender_mail in
  result_of h p w = inl e ->
  existsb construction_stopper (trace_of h p w) = true.
Proof.
  intro p; subst p.
  unfold __msg_build_email_Header, log, trace_of, result_of, lcall, call.
  destruct (_log_more self);
    crunch; intros Hr; try discriminate Hr; reflexivity.
Qed.

Opaque bind.

(** Construction raises only when a call outside the embedding step does. *)
Lemma build_raises_by_call self title text image userid msg_type sender_name sender_mail
    (w : W) (e : exn) :
  let p := _msg_build_email self title text image userid msg_type sender_name sender_mail in
  result_of h p w = inl e ->
  existsb construction_stopper (trace_of h p w) = true.
Proof.
  intros p Hr; subst p. unfold _msg_build_email in *.
  apply bind_raises in Hr as [(Hr & ->) | (u & _ & Hr & ->)].
  { revert Hr. unfold result_of, trace_of, lcall, call. cbn.
    answer; cbn; intros Hr; [reflexivity | discriminate Hr]. }
  rewrite existsb_app. apply orb_true_iff. right.
  apply bind_raises in Hr as [(Hr & ->) | (html & _ & Hr & ->)].
  { eapply template_raises_by_call, Hr. }
  rewrite existsb_app. apply orb_true_iff. right.
  apply bind_raises in Hr as [(Hr & ->) | (m1 & _ & Hr & ->)].
  { eapply header_raises_by_call, Hr. }
  rewrite existsb_app. apply orb_true_iff. right.
  apply bind_raises in Hr as [(Hr & ->) | (m2 & _ & Hr & ->)].
  { apply stopper_of_constructor. eapply body_raises_by_constructor, Hr. }
  discriminate Hr.
Qed.

(** The second part of an attempt hands its message to [sendmail] unless
    the recipients could not be read or a call of construction outside the
    embedding step raised. *)
Lemma deliver_stops_by_call self server_type title text image userid msg_type conn server
    (w : W) :
  let d := _send_to_smtp_deliver self server_type title text image userid msg_type
             conn server in
  sent_messages (trace_of h d w) = [] ->
  (exists e, result_of h (_get_receiver_and_sender self conn) w = inl e)
  \/ existsb construction_stopper (trace_of h d w) = true.
Proof.
  intros d Hs; subst d. unfold _send_to_smtp_deliver in *.
  rewrite trace_of_bind in Hs |- *.
  destruct (result_of h (_get_receiver_and_sender self conn) w)
    as [e | [[receiver_list sn] sm]] eqn:HR; [left; eexists; reflexivity |].
  right. cbv iota beta in Hs |- *.
  rewrite existsb_app. apply orb_true_iff. right.
  rewrite trace_of_bind in Hs |- *.
  set (wR := world_of h (_get_receiver_and_sender self conn) w) in *.
  destruct (result_of h (_msg_build_email self title text image userid msg_type sn sm) wR)
    as [e | m] eqn:HB.
  { rewrite app_nil_r. eapply build_raises_by_call, HB. }
  exfalso.
  set (wB := world_of h (_msg_build_email self title text image userid msg_type sn sm) wR)
    in *.
  destruct (run_send_msg h self server m (_sender_mail conn) receiver_list server_type wB)
    as (Hcalls & _).
  cbv zeta in Hcalls.
  unfold sent_messages in Hs. rewrite !collect_app in Hs.
  apply app_eq_nil in Hs as (_ & Hs). apply app_eq_nil in Hs as (_ & Hs).
  rewrite <- (collect_calls sendmail_args) in Hs by reflexivity.
  rewrite Hcalls in Hs. discriminate Hs.
Qed.

Transparent bind.

(** After a failed embedding the body stage attaches the HTML text to the
    alternative part and returns the message without an image part. *)
Lemma body_after_failed_embedding self message image msg_html (w : W) (e : exn) :
  let alternative := attach message MIMEMultipart_alternative in
  let w1 := snd (@h _ (MIMEMultipart_new "alternative") w) in
  let w2 := world_of h (___msg_build_email_body_embed_image self image alternative) w1 in
  _send_image self = true ->
  truthy image = true ->
  fst (@h _ (MIMEMultipart_new "alternative") w) = inr tt ->
  result_of h (embed_image_try image alternative) w1 = inl e ->
  fst (@h _ (MIMEText_new msg_html) w2) = inr tt ->
  result_of h (__msg_build_email_body self message image msg_html) w
  = inr (attach_to_part alternative (length (payload message)) (MIMEText msg_html)).
Proof.
  intros alternative w1 w2 Hsend Himage Halt Hfail Htext. subst alternative w1 w2.
  destruct (embed_failure h self image (attach message MIMEMultipart_alternative)
              (snd (@h _ (MIMEMultipart_new "alternative") w)) Hsend Himage Hfail)
    as (Hres & _).
  assert (Hc : forall X (c : libcall X) w',
             result_of h (lcall c) w' = fst (@h X c w')
             /\ world_of h (lcall c) w' = snd (@h X c w')).
  { intros X c w'. unfold result_of, world_of, lcall, call. cbn.
    destruct (@h X c w') as [[e' | x] w'']; split; reflexivity. }
  unfold __msg_build_email_body. rewrite result_of_log.
  rewrite result_of_bind, result_of_attempt, result_of_bind.
  rewrite (proj1 (Hc _ _ _)), Halt, (proj2 (Hc _ _ _)).
  cbv zeta. rewrite result_of_bind, Hres.
  rewrite result_of_bind, (proj1 (Hc _ _ _)), Htext.
  reflexivity.
Qed.

End AfterEmbedding.

Lemma attach_at_last (parts : list part) (hdrs : list (string * string)) (l : leaf) :
  attach_at (parts ++ [PMultipart hdrs []]) (length parts) l
  = (parts ++ [PMultipart hdrs [l]])%list.
Proof.
  induction parts as [| q parts IH]; simpl; [reflexivity |].
  destruct q; now rewrite IH.
Qed.

(** C9.  The embedding step never raises.  When its inner block fails, for
    whatever reason, it returns the message as it received it and the
    decorator writes the reason as a line of status 警告 (warning), after the
    calls the block made.  With image sending disabled or no image, it
    returns the message as it is and writes no warning line: at most a line
    of status 汇报, and only when detailed logs are on.  Construction goes
    on: the body stage raises only when [MIMEMultipart] or [MIMEText] does,
    and after a failed embedding it attaches the HTML text and returns the
    message with the alternative part and no image part.  Sending goes on:
    the part of the attempt that follows the connection hands its message to
    [sendmail] unless the recipients could not be read or a call of
    construction outside the embedding step raised, and the message it hands
    over holds the HTML text alone unless a [MIMEImage] was built. *)
Theorem embedding_failures_are_warnings :
  forall (W : Type) (h : handler libcall W) (w : W) (self : Self)
         (image : pyval) (message : Mime) (msg_html : string)
         (server_type : string) (title text userid msg_type : pyval)
         (conn : Conn) (server : server),
    let p := ___msg_build_email_body_embed_image self image message in
    let body := __msg_build_email_body self message image msg_html in
    let d := _send_to_smtp_deliver self server_type title text image userid msg_type
               conn server in
    (exists m', result_of h p w = inr m')
    /\ (forall e,
          _send_image self = true ->
          truthy image = true ->
          result_of h (embed_image_try image message) w = inl e ->
          result_of h p w = inr message
          /\ trace_of h p w
             = ((if _log_more self then [EvLog info "状态 - 图片嵌入模块 - 开始运行"] else [])
                ++ trace_of h (embed_image_try image message) w
                ++ [EvLog info ("警告 - 图片嵌入模块 - 出现错误，跳过嵌入 - 原因 - "
                                ++ (if isinstance_exn e TypeError
                                    then "接受到非二进制文件，无法将图片文件转码"
                                    else e_str e));
                    EvLog info "状态 - 图片嵌入模块 - 模块运行成功"])%list)
    /\ (_send_image self = false \/ truthy image = false ->
        result_of h p w = inr message
        /\ trace_of h p w
           = ((if _log_more self
               then [EvLog info "状态 - 图片嵌入模块 - 开始运行";
                     EvLog info ("汇报 - 图片嵌入模块 - "
                                 ++ (if _send_image self
                                     then "未传入图片参数，跳过图片嵌入"
                                     else "未开启发送图片，抛弃图片数据"))]
               else [])
              ++ [EvLog info "状态 - 图片嵌入模块 - 模块运行成功"])%list)
    /\ (forall e,
          result_of h body w = inl e ->
          existsb failed_body_constructor (trace_of h body w) = true)
    /\ (forall e,
          let alternative := attach message MIMEMultipart_alternative in
          let w1 := snd (h _ (MIMEMultipart_new "alternative") w) in
          let w2 := world_of h (___msg_build_email_body_embed_image self image alternative)
                      w1 in
          _send_image self = true ->
          truthy image = true ->
          fst (h _ (MIMEMultipart_new "alternative") w) = inr tt ->
          result_of h (embed_image_try image alternative) w1 = inl e ->
          fst (h _ (MIMEText_new msg_html) w2) = inr tt ->
          result_of h body w
          = inr {| headers := headers message;
                   payload := payload message ++ [html_alternative msg_html] |})
    /\ (sent_messages (trace_of h d w) = [] ->
        (exists e, result_of h (_get_receiver_and_sender self conn) w = inl e)
        \/ existsb construction_stopper (trace_of h d w) = true)
    /\ (forall s sender_mail receiver_list m,
          In (s, sender_mail, receiver_list, m) (sent_messages (trace_of h d w)) ->
          images_built (trace_of h d w) = [] ->
          exists html, payload m = [html_alternative html]).
Proof.
  intros W h w self image message msg_html server_type title text userid msg_type conn
         server p body d.
  subst p body d.
  split; [| split; [| split; [| split; [| split; [| split]]]]].
  - apply embed_never_raises.
  - intros e. apply embed_failure.
  - apply embed_noop.
  - intros e. apply body_raises_by_constructor.
  - intros e alternative w1 w2 Hsend Himage Halt Hfail Htext.
    subst alternative w1 w2.
    rewrite (body_after_failed_embedding h self message image msg_html w
               Hsend Himage Halt Hfail Htext).
    unfold attach_to_part, attach, html_alternative, MIMEMultipart_alternative.
    cbn [headers payload]. rewrite attach_at_last. reflexivity.
  - apply deliver_stops_by_call.
  - intros s sender_mail receiver_list m Hin Hnone.
    destruct (run_deliver h self server_type title text image userid msg_type conn server
                w) as [Hs | (rl & m0 & content & html & Hone & _ & _ & _ & Hpay)];
      cbv zeta in *.
    + rewrite Hs in Hin. destruct Hin.
    + rewrite Hone in Hin. destruct Hin as [Heq | []]. injection Heq as _ _ _ <-.
      exists html.
      destruct Hpay as [Hp | (path & data & subtype & _ & _ & Him & _)]; [exact Hp |].
      rewrite Hnone in Him. destruct Him.
Qed.

Lemma embedding_failures_are_warnings_witness :
  (result_of friendly_world
     (___msg_build_email_body_embed_image main_only (PyStr "no-such-image") MIMEMultipart) tt
   = inr MIMEMultipart
   /\ trace_of friendly_world
        (___msg_build_email_body_embed_image main_only (PyStr "no-such-image") MIMEMultipart)
        tt
      = [EvCall (scheme_uses_netloc "no-such-image") (inr true);
         EvCall (requests_get "no-such-image")
           (inl (Exception_
                   ("Invalid URL 'no-such-image': No scheme supplied. "
                    ++ "Perhaps you meant https://no-such-image?")));
         EvLog info
           ("警告 - 图片嵌入模块 - 出现错误，跳过嵌入 - 原因 - 发生错误 - "
            ++ "Invalid URL 'no-such-image': No scheme supplied. "
            ++ "Perhaps you meant https://no-such-image?");
         EvLog info "状态 - 图片嵌入模块 - 模块运行成功"])
  /\ (result_of friendly_world
        (___msg_build_email_body_embed_image main_only (PyStr "") MIMEMultipart) tt
      = inr MIMEMultipart
      /\ trace_of friendly_world
           (___msg_build_email_body_embed_image main_only (PyStr "") MIMEMultipart) tt
         = [EvLog info "状态 - 图片嵌入模块 - 模块运行成功"])
  /\ result_of friendly_world
       (__msg_build_email_body main_only MIMEMultipart (PyStr "no-such-image")
          "<html>title: text</html>") tt
     = inr {| headers := headers MIMEMultipart;
              payload := [html_alternative "<html>title: text</html>"] |}.
Proof.
  pose proof (@embedding_failures_are_warnings unit friendly_world tt main_only
                (PyStr "no-such-image") MIMEMultipart "<html>title: text</html>"
                "主" (PyStr "title") (PyStr "text") PyNone (PyStr "插件")
                (conn_of main_only false) 0%nat) as H.
  pose proof (@embedding_failures_are_warnings unit friendly_world tt main_only
                (PyStr "") MIMEMultipart "<html>title: text</html>"
                "主" (PyStr "title") (PyStr "text") PyNone (PyStr "插件")
                (conn_of main_only false) 0%nat) as H0.
  cbv zeta in H, H0.
  split; [| split].
  - exact (proj1 (proj2 H) _ eq_refl eq_refl eq_refl).
  - exact (proj1 (proj2 (proj2 H0)) (or_intror eq_refl)).
  - exact (proj1 (proj2 (proj2 (proj2 (proj2 H)))) _ eq_refl eq_refl eq_refl eq_refl
             eq_refl).
Defined.

(** The attempt as a whole on an image that cannot be fetched: the failure
    costs the mail its image part and nothing else.  The message goes to
    [sendmail] with the HTML alternative as its payload and the attempt
    returns True. *)
Lemma failed_embedding_still_sends :
  let p := _send_to_smtp main_only 0 "主" (PyEnum Plugin) (PyStr "title") (PyStr "text")
             (PyStr "no-such-image") PyNone in
  sent_messages (trace_of friendly_world p tt)
  = [(0%nat, PyStr "bot@example.com", RList ["a@example.com"; "b@example.com"],
      {| headers := [("Content-Type", HStr "multipart/mixed");
                     ("MIME-Version", HStr "1.0");
                     ("Subject", HHeader (PyStr "title"));
                     ("From", HStr "bot@example.com <bot@example.com>")];
         payload := [html_alternative "<html>title: text</html>"] |})]
  /\ result_of friendly_world p tt = inr true.
Proof. vm_compute. split; reflexivity. Qed.

(** * The reduction on the outcomes the orchestrator passes *)


(** * The secondary attempt, by the outcome of the main one *)

(** C5.  With the main server enabled the orchestrator attempts it once.
    When that attempt returns [b], it makes one more attempt, on the
    secondary server, exactly when that server is enabled and the run is a
    test or the main attempt failed.  When the main attempt fails by
    raising, as [_send_to_smtp] does when the [quit] of its handler raises,
    the orchestrator raises the same exception and makes no secondary
    attempt, enabled or not: [master_program] makes no call after those of
    the main attempt. *)
Theorem secondary_attempts_after_primary :
  forall (W : Type) (h : handler attemptE W) (w : W) (self : Self)
         (W' : Type) (h' : handler libcall W') (w' : W')
         (title text msg_type userid image : pyval),
    _main self = true ->
    let p := master_program_with self attempt_call in
    let mp := master_program self title text msg_type userid image in
    let main_attempt := _send_to_smtp self 0 "主" msg_type title text image userid in
    count_attempts 0 (trace_of h p w) = 1%nat
    /\ match fst (h _ (Attempt 0 "主") w) with
       | inr b =>
           count_attempts 1 (trace_of h p w)
           = if (_secondary self && (_test self || negb b))%bool then 1%nat else 0%nat
       | inl e =>
           count_attempts 1 (trace_of h p w) = 0%nat
           /\ result_of h p w = inl e
       end
    /\ (forall e,
          result_of h' main_attempt w' = inl e ->
          result_of h' mp w' = inl e
          /\ calls (trace_of h' mp w') = calls (trace_of h' main_attempt w')).
Proof.
  intros W h w self W' h' w' title text msg_type userid image Hmain p mp main_attempt.
  subst p mp main_attempt.
  assert (Hprobe : forall v st w0,
             calls (trace_of h (attempt_call v st) w0)
             = [EvCall (Attempt v st) (fst (h _ (Attempt v st) w0))]
             /\ result_of h (attempt_call v st) w0 = fst (h _ (Attempt v st) w0)).
  { intros v st w0. unfold attempt_call, call, trace_of, result_of. cbn.
    destruct (h bool (Attempt v st) w0) as [[e | b] w1]; split; reflexivity. }
  pose proof (run_master_program_with h self attempt_call w Hmain) as Hrun.
  cbv zeta in Hrun.
  rewrite !(count_attempts_calls _ (trace_of h _ w)).
  destruct (Hprobe 0 "主"%string w) as (Hc0 & Hr0).
  rewrite Hr0 in Hrun.
  split; [| split].
  - destruct (fst (h bool (Attempt 0 "主") w)) as [e | b].
    + destruct Hrun as (_ & ->). rewrite Hc0. reflexivity.
    + destruct (_secondary self && (_test self || negb b))%bool.
      * assert (Hc : calls (trace_of h (master_program_with self attempt_call) w)
                     = (calls (trace_of h (attempt_call 0 "主") w)
                        ++ calls (trace_of h (attempt_call 1 "备用")
                                    (world_of h (attempt_call 0 "主") w)))%list).
        { destruct (result_of h (attempt_call 1 "备用") _); apply Hrun. }
        rewrite Hc, Hc0, (proj1 (Hprobe 1 "备用"%string _)). reflexivity.
      * destruct Hrun as (_ & ->). rewrite Hc0. reflexivity.
  - destruct (fst (h bool (Attempt 0 "主") w)) as [e | b].
    + destruct Hrun as (Hres & ->). rewrite Hc0. split; [reflexivity | exact Hres].
    + destruct (_secondary self && (_test self || negb b))%bool.
      * assert (Hc : calls (trace_of h (master_program_with self attempt_call) w)
                     = (calls (trace_of h (attempt_call 0 "主") w)
                        ++ calls (trace_of h (attempt_call 1 "备用")
                                    (world_of h (attempt_call 0 "主") w)))%list).
        { destruct (result_of h (attempt_call 1 "备用") _); apply Hrun. }
        rewrite Hc, Hc0, (proj1 (Hprobe 1 "备用"%string _)). reflexivity.
      * destruct Hrun as (_ & ->). rewrite Hc0. reflexivity.
  - intros e He. unfold master_program.
    pose proof (run_master_program_with h' self
                  (fun smtp_value server_type =>
                     _send_to_smtp self smtp_value server_type msg_type title text image
                       userid) w' Hmain) as Hrun'.
    cbv zeta beta in Hrun'. rewrite He in Hrun'. exact Hrun'.
Qed.

Lemma secondary_attempts_after_primary_witness :
  (count_attempts 1 (trace_of attempts_raise (master_program_with both_servers attempt_call) tt)
   = 0%nat
   /\ result_of attempts_raise (master_program_with both_servers attempt_call) tt
      = inl (Exception_ "模块运行失败 - 原因 - please run connect() first"))
  /\ (result_of dropping_world
        (master_program both_servers (PyStr "title") (PyStr "text") (PyEnum Plugin)
           PyNone PyNone) tt
      = inl (Exception_ "模块运行失败 - 原因 - please run connect() first")
      /\ calls (trace_of dropping_world
                  (master_program both_servers (PyStr "title") (PyStr "text")
                     (PyEnum Plugin) PyNone PyNone) tt)
         = calls (trace_of dropping_world
                    (_send_to_smtp both_servers 0 "主" (PyEnum Plugin) (PyStr "title")
                       (PyStr "text") PyNone PyNone) tt)).
Proof.
  pose proof (@secondary_attempts_after_primary unit attempts_raise tt both_servers
                unit dropping_world tt (PyStr "title") (PyStr "text") (PyEnum Plugin)
                PyNone PyNone eq_refl) as H.
  cbv zeta in H.
  split.
  - exact (proj1 (proj2 H)).
  - apply (proj2 (proj2 H)). vm_compute. reflexivity.
Defined.

(** The run of the witness, call by call: the session of the main server is
    opened and dropped, and no connection to the secondary server, which
    is enabled, is ever asked for. *)
Lemma dropped_session_skips_secondary :
  sigs (trace_of dropping_world
          (master_program both_servers (PyStr "title") (PyStr "text") (PyEnum Plugin)
             PyNone PyNone) tt)
  = [existT _ _ (SMTP_new (PyStr "smtp.example.com") (PyInt 25));
     existT _ _ (ehlo 0%nat (PyStr "smtp.example.com"));
     existT _ _ (login 0%nat (PyStr "bot@example.com") (PyStr "secret"));
     existT _ _ (MIMEMultipart_new "mixed");
     existT _ _ (read_template default_template);
     existT _ _ (str_format "<html>{title}: {text}</html>" (PyStr "text") (PyStr "")
                   (PyStr "title") (PyStr "") (PyStr "插件"));
     existT _ _ (Header_new (PyStr "title"));
     existT _ _ (MIMEMultipart_new "alternative");
     existT _ _ (MIMEText_new "<html>title: text</html>");
     existT _ _ (sendmail 0%nat (PyStr "bot@example.com")
                   (RList ["a@example.com"; "b@example.com"])
                   {| headers := [("Content-Type", HStr "multipart/mixed");
                                  ("MIME-Version", HStr "1.0");
                                  ("Subject", HHeader (PyStr "title"));
                                  ("From", HStr "bot@example.com <bot@example.com>")];
                      payload := [html_alternative "<html>title: text</html>"] |});
     existT _ _ (quit 0%nat)].
Proof. vm_compute. reflexivity. Qed.
